(** * Metrics extraction and comparison of [scripts/compare_experiments.py]

    A shallow embedding of the metrics extractor ([extract_metrics]), of the
    safe-division primitive ([_safe_div]), of the delta computation of
    [generate_markdown] ([_delta]) and of the extraction loop of [main],
    together with the properties of the specification that concern them.
    The duration formatter ([_fmt_ms]) and the label resolution of [main]
    are embedded as well, with properties read off the code.

    Numbers are modelled the way CPython has them: [int] is an unbounded
    integer ([Z]); [float] is an IEEE-754 binary64 number, represented by the
    rational it denotes, and every float operation is the exact rational
    operation followed by rounding to the nearest binary64 value, ties to
    even ([fl]).  An [int] too large for a float makes the conversion and
    the true division raise [OverflowError], as in CPython.  Infinities, NaN
    and the sign of zero are outside the model: a float is a finite number,
    and the result of an operation on two floats is not checked against the
    binary64 exponent range (CPython returns [inf] there); the quantities
    formed by the script from 64-bit SQLite integers and finite costs do not
    reach it.  SQL [NULL] and Python [None] are modelled, and so is the
    exception a Python operator raises on [None]; a table column holds
    values of its declared type. *)

From Stdlib Require Import ZArith QArith Qabs Qpower Qreduction Lqa Lia.
From Stdlib Require Import List String Bool Permutation Sorted.
From Stdlib Require Import Ascii DecimalString DecimalZ.
Import ListNotations.

Local Open Scope Z_scope.

(* ===================================================================== *)
(** * Binary64 arithmetic *)
(* ===================================================================== *)

Module Float.

(** Nearest integer to [n / d] for [0 < d], ties to the even neighbour. *)
Definition rne_div (n d : Z) : Z :=
  let q := n / d in
  match (2 * (n mod d) ?= d) with
  | Lt => q
  | Gt => q + 1
  | Eq => if Z.even q then q else q + 1
  end.

(** Nearest integer to a rational, ties to even. *)
Definition rne (q : Q) : Z := rne_div (Qnum q) (Zpos (Qden q)).

(** [ilog2 q] is the binary exponent of a non-zero rational:
    [2 ^ ilog2 q <= |q| < 2 ^ (ilog2 q + 1)]. *)
Definition ilog2 (q : Q) : Z :=
  let e0 := Z.log2 (Z.abs (Qnum q)) - Z.log2 (Zpos (Qden q)) in
  if Qle_bool (2 ^ e0) (Qabs q) then e0 else e0 - 1.

(** Exponent of the least normal binary64 number. *)
Definition emin : Z := -1022.

(** Rounding of a rational to binary64: 53 significant bits, the spacing of
    the subnormal numbers below [2 ^ emin].  There is no largest exponent
    here: [overflows] below tells the values past the binary64 range, and
    the operators that raise on them test it. *)
Definition fl (q : Q) : Q :=
  if Qeq_bool q 0 then 0%Q
  else
    let p := (2 ^ (52 - Z.max (ilog2 q) emin))%Q in
    Qred (inject_Z (rne (q * p)) / p).

(** Python's [round(x, ndigits)] on a float, for [0 <= ndigits]: the decimal
    with [ndigits] fractional digits nearest to the exact value of [x] (ties
    to even), converted back to binary64. *)
Definition round_float (x : Q) (ndigits : Z) : Q :=
  let p := inject_Z (10 ^ ndigits) in
  fl (inject_Z (rne (x * p)) / p).

(** The number of [10 ^ -ndigits] steps [round(x, ndigits)] lands on. *)
Definition round_steps (x : Q) (ndigits : Z) : Z :=
  rne (x * inject_Z (10 ^ ndigits)).

(** The least magnitude that rounds past the largest binary64 number
    [2 ^ 1024 - 2 ^ 971]: the midpoint between it and [2 ^ 1024]. *)
Definition overflow_threshold : Q := inject_Z (2 ^ 1024 - 2 ^ 970).

(** An exact value that has no binary64 number to round to. *)
Definition overflows (q : Q) : bool := Qle_bool overflow_threshold (Qabs q).

End Float.

(* ===================================================================== *)
(** * Python values and operators *)
(* ===================================================================== *)

(** The exceptions the modelled code can raise. *)
Inductive exn : Type :=
| TypeError
| ZeroDivisionError
| OverflowError
| OperationalError          (* sqlite3.OperationalError *)
| SystemExit (code : Z).    (* raised by sys.exit *)

Inductive result (A : Type) : Type :=
| Ok (a : A)
| Raise (e : exn).
Arguments Ok {A} a.
Arguments Raise {A} e.

Definition rbind {A B} (r : result A) (k : A -> result B) : result B :=
  match r with
  | Ok a => k a
  | Raise e => Raise e
  end.

Declare Scope result_scope.
Delimit Scope result_scope with result.
Notation "x <- c ;; k" := (rbind c (fun x => k))
  (at level 61, c at next level, right associativity) : result_scope.

(** The values that flow through the script: [None], [int] and [float].
    A float is a finite binary64 number: [inf] and [nan] have no
    representation, so a property stated for [PyFloat x] speaks of the
    finite floats only (on [inf] and [nan], [int(ms)] in [_fmt_ms] raises,
    for one). *)
Inductive pyval : Type :=
| PyNone
| PyInt (z : Z)
| PyFloat (x : Q).

Definition is_num (v : pyval) : Prop :=
  match v with PyNone => False | _ => True end.

(** The exact rational a number denotes. *)
Definition num_val (v : pyval) : Q :=
  match v with
  | PyNone => 0%Q
  | PyInt z => inject_Z z
  | PyFloat x => x
  end.

(** The integer a cell holds, [0] for anything else. *)
Definition int_val (v : pyval) : Z :=
  match v with PyInt z => z | _ => 0 end.

(** Truth value of an object in a condition. *)
Definition truthy (v : pyval) : bool :=
  match v with
  | PyNone => false
  | PyInt z => negb (z =? 0)
  | PyFloat x => negb (Qeq_bool x 0)
  end.

(** Conversion of an operand of mixed arithmetic to [float]: an [int]
    beyond the binary64 range raises [OverflowError]. *)
Definition to_float (v : pyval) : result Q :=
  match v with
  | PyNone => Raise TypeError
  | PyInt z => if Float.overflows (inject_Z z) then Raise OverflowError
               else Ok (Float.fl (inject_Z z))
  | PyFloat x => Ok x
  end.

Local Open Scope result_scope.

Definition py_add (a b : pyval) : result pyval :=
  match a, b with
  | PyNone, _ | _, PyNone => Raise TypeError
  | PyInt x, PyInt y => Ok (PyInt (x + y))
  | _, _ => x <- to_float a ;; y <- to_float b ;; Ok (PyFloat (Float.fl (x + y)))
  end.

Definition py_sub (a b : pyval) : result pyval :=
  match a, b with
  | PyNone, _ | _, PyNone => Raise TypeError
  | PyInt x, PyInt y => Ok (PyInt (x - y))
  | _, _ => x <- to_float a ;; y <- to_float b ;; Ok (PyFloat (Float.fl (x - y)))
  end.

Definition py_mul (a b : pyval) : result pyval :=
  match a, b with
  | PyNone, _ | _, PyNone => Raise TypeError
  | PyInt x, PyInt y => Ok (PyInt (x * y))
  | _, _ => x <- to_float a ;; y <- to_float b ;; Ok (PyFloat (Float.fl (x * y)))
  end.

(** True division [a / b]: always a float; [int / int] is the correctly
    rounded quotient of the two integers, and [OverflowError] when that
    quotient is beyond the binary64 range; with a float operand an [int]
    is converted first. *)
Definition py_truediv (a b : pyval) : result pyval :=
  match a, b with
  | PyNone, _ | _, PyNone => Raise TypeError
  | PyInt x, PyInt y =>
      if y =? 0 then Raise ZeroDivisionError
      else if Float.overflows (inject_Z x / inject_Z y) then Raise OverflowError
      else Ok (PyFloat (Float.fl (inject_Z x / inject_Z y)))
  | _, _ =>
      x <- to_float a ;; y <- to_float b ;;
      if Qeq_bool y 0 then Raise ZeroDivisionError
      else Ok (PyFloat (Float.fl (x / y)))
  end.

Definition py_abs (a : pyval) : result pyval :=
  match a with
  | PyNone => Raise TypeError
  | PyInt z => Ok (PyInt (Z.abs z))
  | PyFloat x => Ok (PyFloat (Qabs x))
  end.

(** [round(v, ndigits)] with [0 <= ndigits]: an [int] is returned as it is. *)
Definition py_round (v : pyval) (ndigits : Z) : result pyval :=
  match v with
  | PyNone => Raise TypeError
  | PyInt z => Ok (PyInt z)
  | PyFloat x => Ok (PyFloat (Float.round_float x ndigits))
  end.

(** Ordering of two numbers, by their exact values. *)
Definition py_lt (a b : pyval) : result bool :=
  match a, b with
  | PyNone, _ | _, PyNone => Raise TypeError
  | _, _ => Ok (negb (Qle_bool (num_val b) (num_val a)))
  end.

Definition py_gt (a b : pyval) : result bool := py_lt b a.

(** [a != b]; never raises. *)
Definition py_ne (a b : pyval) : bool :=
  match a, b with
  | PyNone, PyNone => false
  | PyNone, _ | _, PyNone => true
  | _, _ => negb (Qeq_bool (num_val a) (num_val b))
  end.

(** [a or b]. *)
Definition py_or (a b : pyval) : pyval := if truthy a then a else b.

(** [_safe_div(numerator, denominator, default=0.0)]:
    [numerator / denominator if denominator else default]. *)
Definition _safe_div (numerator denominator : pyval) (default : pyval) : result pyval :=
  if truthy denominator then py_truediv numerator denominator else Ok default.

(** The default value of the third parameter. *)
Definition default_0 : pyval := PyFloat 0.

(* ===================================================================== *)
(** * The store: rows, tables and SQL aggregates *)
(* ===================================================================== *)

Module Db.

(** One row of the [tasks] table, restricted to the columns the script
    reads and the key [id] the sequence rows refer to.  [None] is SQL
    [NULL]. *)
Record task : Type := {
  id : string;
  status : string;
  points : option Z;
  time_actual_ms : option Z;
  created_at : option Z;
  started_at : option Z;
  completed_at : option Z;
  worker_id : option string;
  cost_usd : option Q;
  metric_0 : option Z;
  metric_1 : option Z;
  metric_2 : option Z;
  metric_3 : option Z;
  metric_4 : option Z;
  metric_5 : option Z;
  metric_6 : option Z;
  metric_7 : option Z;
  deleted_at : option Z
}.

(** One row of the state-sequence table.  The state label lives in column
    [status] (table [task_sequence]) or [event] (table
    [task_state_sequence]). *)
Record interval : Type := {
  task_id : string;
  iv_status : option string;
  iv_event : option string;
  timestamp : option Z;
  end_timestamp : option Z
}.

(** A state-sequence table: the column names [PRAGMA table_info] reports and
    the rows. *)
Record seq_table : Type := {
  seq_columns : list string;
  seq_rows : list interval
}.

(** A database file: each table is present or not. *)
Record database : Type := {
  tasks_tbl : option (list task);
  task_sequence_tbl : option seq_table;
  task_state_sequence_tbl : option seq_table
}.

End Db.

(** What the script finds outside itself: the files ([fs] gives the
    database stored at a path, [None] when no file exists there), the two SQLite
    aggregates whose floating-point accumulation is the engine's business
    (each applied to the non-NULL inputs, of which there is at least one),
    and the clock read by [strftime('%s','now')] in the two statements that
    use it. *)
Record env : Type := {
  fs : string -> option Db.database;
  sum_real : list Q -> Q;       (* SUM over REAL values *)
  avg_int : list Z -> Q;        (* AVG over INTEGER values *)
  now_working : Z;              (* seconds, statement over 'working' rows *)
  now_blocked : Z               (* seconds, statement over blocked rows *)
}.

Definition is_null {A} (o : option A) : bool :=
  match o with None => true | Some _ => false end.

(** The non-NULL inputs of an aggregate. *)
Fixpoint non_null {A} (l : list (option A)) : list A :=
  match l with
  | [] => []
  | Some a :: r => a :: non_null r
  | None :: r => non_null r
  end.

Definition coalesce {A} (o : option A) (d : A) : A :=
  match o with Some a => a | None => d end.

(** SQL [SUM] over INTEGER values: NULL when there is no non-NULL input.
    The sum is the exact one: SQLite raises "integer overflow"
    ([sqlite3.OperationalError]) when a sum leaves the 64-bit range, which
    the model does not reproduce; the stores considered keep their sums
    within it. *)
Definition sql_sum (l : list (option Z)) : option Z :=
  match non_null l with
  | [] => None
  | x :: r => Some (fold_left Z.add r x)
  end.

Definition sql_min (l : list (option Z)) : option Z :=
  match non_null l with
  | [] => None
  | x :: r => Some (fold_left Z.min r x)
  end.

Definition sql_max (l : list (option Z)) : option Z :=
  match non_null l with
  | [] => None
  | x :: r => Some (fold_left Z.max r x)
  end.

Definition sql_avg (E : env) (l : list (option Z)) : option Q :=
  match non_null l with
  | [] => None
  | xs => Some (avg_int E xs)
  end.

Definition sql_sum_real (E : env) (l : list (option Q)) : option Q :=
  match non_null l with
  | [] => None
  | xs => Some (sum_real E xs)
  end.

Definition sql_count {A} (rows : list A) : Z := Z.of_nat (List.length rows).

(** [SUM(CASE WHEN c THEN 1 ELSE 0 END)] *)
Definition sum_case {A} (c : A -> bool) (rows : list A) : option Z :=
  sql_sum (map (fun r => Some (if c r then 1 else 0)) rows).

(** A result cell as Python receives it. *)
Definition cell_int (o : option Z) : pyval :=
  match o with Some z => PyInt z | None => PyNone end.

Definition cell_real (o : option Q) : pyval :=
  match o with Some x => PyFloat x | None => PyNone end.

Definition has_status (s : string) (t : Db.task) : bool := String.eqb (Db.status t) s.

(** [WHERE deleted_at IS NULL] *)
Definition live (rows : list Db.task) : list Db.task :=
  filter (fun t => is_null (Db.deleted_at t)) rows.

(** Ascending [ORDER BY] on an INTEGER column. *)
Fixpoint insert_asc (x : Z) (l : list Z) : list Z :=
  match l with
  | [] => [x]
  | y :: r => if x <=? y then x :: l else y :: insert_asc x r
  end.

Definition order_by_asc (l : list Z) : list Z := fold_right insert_asc [] l.

(** The distinct keys of [GROUP BY], each once. *)
Fixpoint distinct (ks : list string) : list string :=
  match ks with
  | [] => []
  | k :: r => k :: filter (fun x => negb (String.eqb x k)) (distinct r)
  end.

Definition group_by {A} (key : A -> string) (rows : list A) : list (string * list A) :=
  map (fun k => (k, filter (fun r => String.eqb (key r) k) rows))
      (distinct (map key rows)).

(* ===================================================================== *)
(** * The result dataclasses *)
(* ===================================================================== *)

Record TimeMetrics : Type := {
  total_duration_ms : pyval;
  avg_task_time_ms : pyval;
  median_task_time_ms : pyval;
  min_task_time_ms : pyval;
  max_task_time_ms : pyval;
  total_working_ms : pyval;
  total_blocked_ms : pyval;
  blocking_ratio_pct : pyval;
  avg_queue_wait_ms : pyval
}.

Record TokenMetrics : Type := {
  tokens_in : pyval;
  tokens_out : pyval;
  tokens_cached : pyval;
  tokens_thinking : pyval;
  tokens_image : pyval;
  tokens_audio : pyval;
  metric_6 : pyval;
  metric_7 : pyval;
  total_billable : pyval;
  cache_hit_rate_pct : pyval;
  output_ratio : pyval;
  thinking_overhead : pyval
}.

Record CostMetrics : Type := {
  total_cost_usd : pyval;
  avg_cost_per_task : pyval;
  cost_per_completed_task : pyval;
  cost_per_point : pyval
}.

Record TaskDistribution : Type := {
  total_tasks : pyval;
  completed : pyval;
  failed : pyval;
  cancelled : pyval;
  pending : pyval;
  working : pyval;
  completion_rate_pct : pyval;
  failure_rate_pct : pyval;
  total_points : pyval;
  completed_points : pyval
}.

Record QualityMetrics : Type := {
  rework_count : pyval;
  rework_rate_pct : pyval;
  avg_rework_cycles : pyval;
  first_pass_success_pct : pyval
}.

Record ThroughputMetrics : Type := {
  tasks_per_hour : pyval;
  points_per_hour : pyval;
  avg_tasks_per_agent_hour : pyval
}.

Module Agent.
Record AgentStats : Type := {
  worker_id : string;
  tasks_completed : pyval;
  tasks_failed : pyval;
  total_cost_usd : pyval;
  total_time_ms : pyval;
  tokens_in : pyval;
  tokens_out : pyval
}.
End Agent.

Record ExperimentResults : Type := {
  label : string;
  db_path : string;
  agent_count : pyval;
  time : TimeMetrics;
  tokens : TokenMetrics;
  cost : CostMetrics;
  tasks : TaskDistribution;
  quality : QualityMetrics;
  throughput : ThroughputMetrics;
  agents : list Agent.AgentStats
}.

(** The field defaults of the dataclasses: [0] for [int], [0.0] for [float]. *)
Definition int_0 : pyval := PyInt 0.
Definition float_0 : pyval := PyFloat 0.

Definition QualityMetrics_default : QualityMetrics :=
  {| rework_count := int_0; rework_rate_pct := float_0;
     avg_rework_cycles := float_0; first_pass_success_pct := float_0 |}.

(* ===================================================================== *)
(** * Database querying *)
(* ===================================================================== *)

Definition table_names (conn : Db.database) : list string :=
  (if is_null (Db.tasks_tbl conn) then [] else ["tasks"%string]) ++
  (if is_null (Db.task_sequence_tbl conn) then [] else ["task_sequence"%string]) ++
  (if is_null (Db.task_state_sequence_tbl conn) then [] else ["task_state_sequence"%string]).

(** [_table_exists]: [SELECT COUNT( * ) FROM sqlite_master WHERE type='table'
    AND name=?] is positive. *)
Definition _table_exists (conn : Db.database) (name : string) : bool :=
  0 <? sql_count (filter (String.eqb name) (table_names conn)).

(** [_get_sequence_table]: the first candidate that exists, else [None]. *)
Definition _get_sequence_table (conn : Db.database) : option string :=
  find (_table_exists conn) ["task_sequence"%string; "task_state_sequence"%string].

(** [conn.execute("... FROM tasks ...")]: fails when the table is missing. *)
Definition from_tasks (conn : Db.database) : result (list Db.task) :=
  match Db.tasks_tbl conn with
  | Some rows => Ok rows
  | None => Raise OperationalError
  end.

(** [conn.execute(f"... FROM {seq_table} ...")] *)
Definition from_seq (conn : Db.database) (seq_table : string) : result Db.seq_table :=
  let tbl :=
    if String.eqb seq_table "task_sequence" then Db.task_sequence_tbl conn
    else if String.eqb seq_table "task_state_sequence" then Db.task_state_sequence_tbl conn
    else None in
  match tbl with
  | Some t => Ok t
  | None => Raise OperationalError
  end.

(** The state label of a row under the column chosen by the script. *)
Definition label_of (status_col : string) (r : Db.interval) : option string :=
  if String.eqb status_col "status" then Db.iv_status r else Db.iv_event r.

(** [WHERE {status_col} IN (labels)] *)
Definition where_label (status_col : string) (labels : list string)
    (rows : list Db.interval) : list Db.interval :=
  filter (fun r => match label_of status_col r with
                   | Some l => existsb (String.eqb l) labels
                   | None => false
                   end) rows.

(** A statement on [{seq_table}] compiles only when the table has every
    column it names. *)
Definition reads_columns (conn : Db.database) (seq_table : string) (cols : list string)
  : result unit :=
  tbl <- from_seq conn seq_table ;;
  if forallb (fun c => existsb (String.eqb c) (Db.seq_columns tbl)) cols
  then Ok tt
  else Raise OperationalError.

(** The [WHERE] clause of the statements on [{seq_table}]: the rows whose
    [{status_col}] is one of [labels]; it fails when the table has no such
    column.  The columns of the select list are checked by
    [reads_columns]. *)
Definition select_intervals (conn : Db.database) (seq_table status_col : string)
    (labels : list string) : result (list Db.interval) :=
  tbl <- from_seq conn seq_table ;;
  if existsb (String.eqb status_col) (Db.seq_columns tbl)
  then Ok (where_label status_col labels (Db.seq_rows tbl))
  else Raise OperationalError.

(** [PRAGMA table_info] and the choice of the state column. *)
Definition status_column (conn : Db.database) (seq_table : string) : result string :=
  tbl <- from_seq conn seq_table ;;
  let col_names := Db.seq_columns tbl in
  Ok (if existsb (String.eqb "status") col_names then "status"%string else "event"%string).

(** [COALESCE(SUM(COALESCE(end_timestamp, now*1000) - timestamp), 0)] *)
Definition sum_durations (now_s : Z) (rows : list Db.interval) : Z :=
  coalesce
    (sql_sum (map (fun r => match Db.timestamp r with
                            | Some t => Some (coalesce (Db.end_timestamp r) (now_s * 1000) - t)
                            | None => None
                            end) rows)) 0.

(** [time_actual_ms] when the row passes [time_actual_ms > 0], else NULL. *)
Definition positive_time (t : Db.task) : option Z :=
  match Db.time_actual_ms t with
  | Some x => if 0 <? x then Some x else None
  | None => None
  end.

(** ** 1. Task distribution *)
Definition task_distribution (conn : Db.database) : result TaskDistribution :=
  tbl <- from_tasks conn ;;
  let rows := live tbl in
  let total := PyInt (sql_count rows) in
  let completed := cell_int (sum_case (has_status "completed") rows) in
  let failed := cell_int (sum_case (has_status "failed") rows) in
  let cancelled := cell_int (sum_case (has_status "cancelled") rows) in
  let pending := cell_int (sum_case (has_status "pending") rows) in
  let working := cell_int (sum_case (has_status "working") rows) in
  let total_points := PyInt (coalesce (sql_sum (map Db.points rows)) 0) in
  let completed_points :=
    PyInt (coalesce (sql_sum (map (fun t => if has_status "completed" t
                                            then Db.points t else Some 0) rows)) 0) in
  cf <- py_add completed failed ;;
  claimed_total <- py_add cf working ;;
  c100 <- py_mul completed (PyInt 100) ;;
  cq <- _safe_div c100 claimed_total default_0 ;;
  completion_rate_pct <- py_round cq 1 ;;
  f100 <- py_mul failed (PyInt 100) ;;
  fq <- _safe_div f100 claimed_total default_0 ;;
  failure_rate_pct <- py_round fq 1 ;;
  Ok {| total_tasks := total; completed := completed; failed := failed;
        cancelled := cancelled; pending := pending; working := working;
        completion_rate_pct := completion_rate_pct;
        failure_rate_pct := failure_rate_pct;
        total_points := total_points; completed_points := completed_points |}.

(** ** 2. Time metrics *)

(** The median of the sorted positive durations; the dataclass default
    [0.0] when there is none. *)
Definition median_task_time (actual_times : list Z) : result pyval :=
  match actual_times with
  | [] => Ok float_0
  | _ =>
      let mid := (List.length actual_times / 2)%nat in
      if (List.length actual_times mod 2 =? 0)%nat then
        s <- py_add (PyInt (nth (mid - 1) actual_times 0)) (PyInt (nth mid actual_times 0)) ;;
        py_truediv s (PyInt 2)
      else Ok (PyInt (nth mid actual_times 0))
  end.

(** The three fields filled from the sequence table, and the queue wait. *)
Definition interval_times (E : env) (conn : Db.database) (seq_table : option string)
  : result (pyval * pyval * pyval * pyval) :=
  match seq_table with
  | None => Ok (int_0, int_0, float_0, float_0)
  | Some seq =>
      status_col <- status_column conn seq ;;
      _ <- reads_columns conn seq ["end_timestamp"; "timestamp"]%string ;;
      wrows <- select_intervals conn seq status_col ["working"%string] ;;
      let total_working_ms := PyInt (sum_durations (now_working E) wrows) in
      _ <- reads_columns conn seq ["end_timestamp"; "timestamp"]%string ;;
      brows <- select_intervals conn seq status_col ["pending"%string; "assigned"%string] ;;
      let total_blocked_ms := PyInt (sum_durations (now_blocked E) brows) in
      total_tracked <- py_add total_working_ms total_blocked_ms ;;
      b100 <- py_mul total_blocked_ms (PyInt 100) ;;
      bq <- _safe_div b100 total_tracked default_0 ;;
      blocking_ratio_pct <- py_round bq 1 ;;
      tbl <- from_tasks conn ;;
      let waits :=
        map (fun t => match Db.started_at t, Db.created_at t with
                      | Some s, Some c => Some (s - c)
                      | _, _ => None
                      end) (live tbl) in
      avg_queue_wait_ms <- py_round (py_or (cell_real (sql_avg E waits)) (PyInt 0)) 1 ;;
      Ok (total_working_ms, total_blocked_ms, blocking_ratio_pct, avg_queue_wait_ms)
  end.

Definition time_metrics (E : env) (conn : Db.database) (seq_table : option string)
  : result TimeMetrics :=
  tbl <- from_tasks conn ;;
  let rows := live tbl in
  let first := cell_int (sql_min (map Db.created_at rows)) in
  let last := cell_int (sql_max (map Db.completed_at rows)) in
  total_duration_ms <-
    (if truthy first && truthy last then py_sub last first else Ok int_0) ;;
  avg_task_time_ms <-
    py_round (py_or (cell_real (sql_avg E (map Db.time_actual_ms rows))) (PyInt 0)) 1 ;;
  let min_task_time_ms := py_or (cell_int (sql_min (map positive_time rows))) (PyInt 0) in
  let max_task_time_ms := py_or (cell_int (sql_max (map Db.time_actual_ms rows))) (PyInt 0) in
  tbl' <- from_tasks conn ;;
  let actual_times := order_by_asc (non_null (map positive_time (live tbl'))) in
  median_task_time_ms <- median_task_time actual_times ;;
  iv <- interval_times E conn seq_table ;;
  let '(total_working_ms, total_blocked_ms, blocking_ratio_pct, avg_queue_wait_ms) := iv in
  Ok {| total_duration_ms := total_duration_ms;
        avg_task_time_ms := avg_task_time_ms;
        median_task_time_ms := median_task_time_ms;
        min_task_time_ms := min_task_time_ms;
        max_task_time_ms := max_task_time_ms;
        total_working_ms := total_working_ms;
        total_blocked_ms := total_blocked_ms;
        blocking_ratio_pct := blocking_ratio_pct;
        avg_queue_wait_ms := avg_queue_wait_ms |}.

(** ** 3. Token metrics *)
Definition token_metrics (conn : Db.database) : result TokenMetrics :=
  tbl <- from_tasks conn ;;
  let rows := live tbl in
  let m (col : Db.task -> option Z) := PyInt (coalesce (sql_sum (map col rows)) 0) in
  let tokens_in := m Db.metric_0 in
  let tokens_out := m Db.metric_1 in
  let tokens_cached := m Db.metric_2 in
  let tokens_thinking := m Db.metric_3 in
  io <- py_add tokens_in tokens_out ;;
  total_billable <- py_add io tokens_thinking ;;
  c100 <- py_mul tokens_cached (PyInt 100) ;;
  ic <- py_add tokens_in tokens_cached ;;
  cq <- _safe_div c100 ic default_0 ;;
  cache_hit_rate_pct <- py_round cq 1 ;;
  oq <- _safe_div tokens_out tokens_in default_0 ;;
  output_ratio <- py_round oq 3 ;;
  tq <- _safe_div tokens_thinking tokens_out default_0 ;;
  thinking_overhead <- py_round tq 3 ;;
  Ok {| tokens_in := tokens_in; tokens_out := tokens_out;
        tokens_cached := tokens_cached; tokens_thinking := tokens_thinking;
        tokens_image := m Db.metric_4; tokens_audio := m Db.metric_5;
        metric_6 := m Db.metric_6; metric_7 := m Db.metric_7;
        total_billable := total_billable;
        cache_hit_rate_pct := cache_hit_rate_pct;
        output_ratio := output_ratio;
        thinking_overhead := thinking_overhead |}.

(** ** 4. Cost metrics *)
Definition cost_metrics (E : env) (conn : Db.database) : result CostMetrics :=
  tbl <- from_tasks conn ;;
  let rows := live tbl in
  let total_cost := PyFloat (coalesce (sql_sum_real E (map Db.cost_usd rows)) 0%Q) in
  let total_tasks := PyInt (sql_count rows) in
  let completed := cell_int (sum_case (has_status "completed") rows) in
  let pts :=
    PyInt (coalesce (sql_sum (map (fun t => if has_status "completed" t
                                            then Db.points t else Some 0) rows)) 0) in
  total_cost_usd <- py_round total_cost 4 ;;
  aq <- _safe_div total_cost total_tasks default_0 ;;
  avg_cost_per_task <- py_round aq 4 ;;
  cq <- _safe_div total_cost completed default_0 ;;
  cost_per_completed_task <- py_round cq 4 ;;
  pq <- _safe_div total_cost pts default_0 ;;
  cost_per_point <- py_round pq 4 ;;
  Ok {| total_cost_usd := total_cost_usd;
        avg_cost_per_task := avg_cost_per_task;
        cost_per_completed_task := cost_per_completed_task;
        cost_per_point := cost_per_point |}.

(** ** 5. Quality / rework metrics *)

(** [SELECT task_id, COUNT( * ) AS working_periods ... GROUP BY task_id]:
    the [working_periods] column. *)
Definition working_periods (wrows : list Db.interval) : list Z :=
  map (fun g => sql_count (snd g)) (group_by Db.task_id wrows).

(** The quality group computed from the rows of the rework query. *)
Definition quality_of (rework_rows : list Z) : result QualityMetrics :=
  let total_with_work := PyInt (Z.of_nat (List.length rework_rows)) in
  let rework_cycles := filter (fun p => 1 <? p) rework_rows in
  let reworked := PyInt (Z.of_nat (List.length rework_cycles)) in
  r100 <- py_mul reworked (PyInt 100) ;;
  rq <- _safe_div r100 total_with_work default_0 ;;
  rework_rate_pct <- py_round rq 1 ;;
  aq <- _safe_div (PyInt (fold_left Z.add rework_cycles 0))
                  (PyInt (Z.of_nat (List.length rework_cycles))) default_0 ;;
  avg_rework_cycles <- py_round aq 1 ;;
  nr <- py_sub total_with_work reworked ;;
  n100 <- py_mul nr (PyInt 100) ;;
  fq <- _safe_div n100 total_with_work default_0 ;;
  first_pass_success_pct <- py_round fq 1 ;;
  Ok {| rework_count := reworked;
        rework_rate_pct := rework_rate_pct;
        avg_rework_cycles := avg_rework_cycles;
        first_pass_success_pct := first_pass_success_pct |}.

Definition quality_metrics (conn : Db.database) (seq_table : option string)
  : result QualityMetrics :=
  match seq_table with
  | None => Ok QualityMetrics_default
  | Some seq =>
      status_col <- status_column conn seq ;;
      _ <- reads_columns conn seq ["task_id"]%string ;;
      wrows <- select_intervals conn seq status_col ["working"%string] ;;
      quality_of (working_periods wrows)
  end.

(** ** 7. Agent / worker stats *)

(** Descending [ORDER BY cost].  SQL leaves the order of rows of equal
    cost open; here they keep the order of the grouping, and no property
    below depends on how ties are ordered. *)
Fixpoint insert_desc {A} (key : A -> Q) (x : A) (l : list A) : list A :=
  match l with
  | [] => [x]
  | y :: r => if Qle_bool (key y) (key x) then x :: l else y :: insert_desc key x r
  end.

Definition order_by_desc {A} (key : A -> Q) (l : list A) : list A :=
  fold_right (insert_desc key) [] l.

(** One row of the worker query: the unrounded cost and the [AgentStats]
    built from the row. *)
Definition agent_row (E : env) (g : string * list Db.task) : Q * result Agent.AgentStats :=
  let rows := snd g in
  let cost := coalesce (sql_sum_real E (map Db.cost_usd rows)) 0%Q in
  (cost,
   c <- py_round (PyFloat cost) 4 ;;
   Ok {| Agent.worker_id := fst g;
         Agent.tasks_completed := cell_int (sum_case (has_status "completed") rows);
         Agent.tasks_failed := cell_int (sum_case (has_status "failed") rows);
         Agent.total_cost_usd := c;
         Agent.total_time_ms := PyInt (coalesce (sql_sum (map Db.time_actual_ms rows)) 0);
         Agent.tokens_in := PyInt (coalesce (sql_sum (map Db.metric_0 rows)) 0);
         Agent.tokens_out := PyInt (coalesce (sql_sum (map Db.metric_1 rows)) 0) |}).

Fixpoint sequence {A} (l : list (result A)) : result (list A) :=
  match l with
  | [] => Ok []
  | r :: rest => a <- r ;; t <- sequence rest ;; Ok (a :: t)
  end.

Definition agent_stats (E : env) (conn : Db.database) : result (list Agent.AgentStats) :=
  tbl <- from_tasks conn ;;
  let rows := filter (fun t => negb (is_null (Db.worker_id t))) (live tbl) in
  let groups := group_by (fun t => coalesce (Db.worker_id t) EmptyString) rows in
  sequence (map snd (order_by_desc fst (map (agent_row E) groups))).

(** ** 6. Throughput metrics *)
Definition throughput_metrics (tm : TimeMetrics) (td : TaskDistribution)
  : result (pyval * ThroughputMetrics) :=
  duration_hours <- _safe_div (total_duration_ms tm) (PyInt 3600000) default_0 ;;
  tq <- _safe_div (completed td) duration_hours default_0 ;;
  tasks_per_hour <- py_round tq 2 ;;
  pq <- _safe_div (completed_points td) duration_hours default_0 ;;
  points_per_hour <- py_round pq 2 ;;
  Ok (duration_hours,
      {| tasks_per_hour := tasks_per_hour;
         points_per_hour := points_per_hour;
         avg_tasks_per_agent_hour := float_0 |}).

(** Per-agent throughput, after the worker query. *)
Definition per_agent_throughput (td : TaskDistribution) (duration_hours agent_count : pyval)
    (tp : ThroughputMetrics) : result ThroughputMetrics :=
  has_agents <- py_gt agent_count (PyInt 0) ;;
  has_time <- (if has_agents then py_gt duration_hours (PyInt 0) else Ok false) ;;
  if has_agents && has_time then
    d <- py_mul duration_hours agent_count ;;
    q <- _safe_div (completed td) d default_0 ;;
    a <- py_round q 2 ;;
    Ok {| tasks_per_hour := tasks_per_hour tp;
          points_per_hour := points_per_hour tp;
          avg_tasks_per_agent_hour := a |}
  else Ok tp.

(* ===================================================================== *)
(** * Extraction: connection handling around the queries *)
(* ===================================================================== *)

(** What an extraction does to the outside: connections opened and closed,
    lines written to standard error. *)
Inductive event : Type :=
| Connect (path : string)     (* sqlite3.connect(f"file:{path}?mode=ro", uri=True) *)
| Close (path : string)       (* conn.close() *)
| Stderr (msg : string).

(** Computations that log events and may raise; the log survives a raise. *)
Definition M (A : Type) : Type := list event -> result A * list event.

Definition ret {A} (a : A) : M A := fun s => (Ok a, s).

Definition bind {A B} (m : M A) (k : A -> M B) : M B :=
  fun s => match m s with
           | (Ok a, s') => k a s'
           | (Raise e, s') => (Raise e, s')
           end.

Definition lift {A} (r : result A) : M A := fun s => (r, s).

Definition emit (e : event) : M unit := fun s => (Ok tt, s ++ [e]).

Definition raise {A} (e : exn) : M A := fun s => (Raise e, s).

Declare Scope M_scope.
Delimit Scope M_scope with M.
Notation "x <~ c ;; k" := (bind c (fun x => k))
  (at level 61, c at next level, right associativity) : M_scope.
Notation "c ;;; k" := (bind c (fun _ => k))
  (at level 61, right associativity) : M_scope.

Local Open Scope M_scope.

(** [os.path.exists(db_path)] *)
Definition path_exists (E : env) (db_path : string) : bool :=
  negb (is_null (fs E db_path)).

(** The queries and computations between [connect] and [close]. *)
Definition extract_body (E : env) (conn : Db.database) (label db_path : string)
  : result ExperimentResults :=
  (let seq_table := _get_sequence_table conn in
   td <- task_distribution conn ;;
   tm <- time_metrics E conn seq_table ;;
   tk <- token_metrics conn ;;
   cm <- cost_metrics E conn ;;
   qm <- quality_metrics conn seq_table ;;
   dt <- throughput_metrics tm td ;;
   ag <- agent_stats E conn ;;
   let agent_count := PyInt (Z.of_nat (List.length ag)) in
   tp <- per_agent_throughput td (fst dt) agent_count (snd dt) ;;
   Ok {| label := label; db_path := db_path; agent_count := agent_count;
         time := tm; tokens := tk; cost := cm; tasks := td; quality := qm;
         throughput := tp; agents := ag |})%result.

(** [sqlite3.connect(f"file:{db_path}?mode=ro", uri=True)].  The file
    opened is the one [os.path.exists] saw: [db_path] is taken to have no
    character with a meaning in a URI ([?], [#], [%]), and an existing
    path to name a SQLite database file; on another path [connect] or the
    first statement raises [sqlite3.OperationalError] or
    [sqlite3.DatabaseError], which is outside the model. *)
Definition sqlite3_connect (E : env) (db_path : string) : M Db.database :=
  match fs E db_path with
  | Some conn => emit (Connect db_path) ;;; ret conn
  | None => raise OperationalError
  end.

(** [extract_metrics(db_path, label)] *)
Definition extract_metrics (E : env) (db_path label : string) : M ExperimentResults :=
  if negb (path_exists E db_path) then
    emit (Stderr ("Error: database file not found: " ++ db_path)) ;;;
    raise (SystemExit 1)
  else
    conn <~ sqlite3_connect E db_path ;;
    result <~ lift (extract_body E conn label db_path) ;;
    emit (Close db_path) ;;;
    ret result.

(** The extraction loop of [main]:
    [for db_path, label in zip(args.databases, labels):
       results.append(extract_metrics(db_path, label))]. *)
Fixpoint extract_all (E : env) (runs : list (string * string))
    (results : list ExperimentResults) : M (list ExperimentResults) :=
  match runs with
  | [] => ret results
  | (db_path, label) :: rest =>
      r <~ extract_metrics E db_path label ;;
      extract_all E rest (results ++ [r])
  end.

(** [main] after argument parsing: the snapshots handed to the report, when
    the loop gets through. *)
Definition main (E : env) (databases labels : list string) : M (list ExperimentResults) :=
  extract_all E (combine databases labels) [].

(* ===================================================================== *)
(** * Delta analysis of [generate_markdown] *)
(* ===================================================================== *)

Local Close Scope M_scope.

(** What [_delta] computes before it formats the cell
    [f"{fmt_fn(diff)} ({pct:+.1f}%){indicator}"]. *)
Record delta : Type := {
  diff : pyval;
  pct : pyval;
  direction : string;
  indicator : string
}.

Definition no_marker : string := EmptyString.
Definition improvement : string := " (+)".
Definition regression : string := " (-)".

Definition _delta (va vb : pyval) (lower_better : bool) : result delta :=
  diff <- py_sub vb va ;;
  pct <- (if truthy va then
            d100 <- py_mul diff (PyInt 100) ;;
            a <- py_abs va ;;
            _safe_div d100 a default_0
          else Ok (PyInt 0)) ;;
  neg <- py_lt diff (PyInt 0) ;;
  let direction := if neg then "lower"%string else "higher"%string in
  indicator <-
    (if py_ne diff (PyInt 0) then
       if lower_better then
         n <- py_lt diff (PyInt 0) ;; Ok (if n then improvement else regression)
       else
         p <- py_gt diff (PyInt 0) ;; Ok (if p then improvement else regression)
     else Ok no_marker) ;;
  Ok {| diff := diff; pct := pct; direction := direction; indicator := indicator |}.

(** The rows of [delta_rows]: name, metric, and the [lower_better] argument
    the row passes to [_delta]. *)
Definition tracked_metrics : list (string * (ExperimentResults -> pyval) * bool) :=
  [ ("Total Duration"%string, fun r => total_duration_ms (time r), true);
    ("Total Cost"%string, fun r => total_cost_usd (cost r), true);
    ("Tasks Completed"%string, fun r => completed (tasks r), false);
    ("Completion Rate"%string, fun r => completion_rate_pct (tasks r), false);
    ("Tasks/Hour"%string, fun r => tasks_per_hour (throughput r), false);
    ("Rework Rate"%string, fun r => rework_rate_pct (quality r), true);
    ("Total Billable Tokens"%string, fun r => total_billable (tokens r), true);
    ("Blocking Ratio"%string, fun r => blocking_ratio_pct (time r), true) ].

Definition delta_rows (a b : ExperimentResults) : result (list (string * delta)) :=
  sequence
    (map (fun m => let '(name, get, lower_better) := m in
                   d <- _delta (get a) (get b) lower_better ;; Ok (name, d))
         tracked_metrics).

(** The delta section is produced for exactly two experiments. *)
Definition delta_analysis (results : list ExperimentResults)
  : result (option (list (string * delta))) :=
  match results with
  | [a; b] => rows <- delta_rows a b ;; Ok (Some rows)
  | _ => Ok None
  end.

(* ===================================================================== *)
(** * Specification-level definitions *)
(* ===================================================================== *)

(** Number of rows that satisfy a condition. *)
Definition count_if {A} (c : A -> bool) (rows : list A) : Z :=
  Z.of_nat (List.length (filter c rows)).

(** The percentage [n * 100 / T] rounded to one decimal, [0.0] when the
    denominator is zero: [round(_safe_div(n * 100, T), 1)]. *)
Definition rate_pct (n T : Z) : pyval :=
  if T =? 0 then PyFloat 0
  else PyFloat (Float.round_float (Float.fl (inject_Z (n * 100) / inject_Z T)) 1).

(** The number of tenths that percentage is rounded to. *)
Definition pct_steps (n T : Z) : Z :=
  Float.round_steps (Float.fl (inject_Z (n * 100) / inject_Z T)) 1.

(** The binary64 number nearest to [k] tenths. *)
Definition tenths (k : Z) : pyval := PyFloat (Float.fl (inject_Z k / inject_Z 10)).

(** The mean [S / n] rounded to one decimal, [0.0] when [n] is zero. *)
Definition mean_1dp (S n : Z) : pyval :=
  if n =? 0 then PyFloat 0
  else PyFloat (Float.round_float (Float.fl (inject_Z S / inject_Z n)) 1).

(** The task distribution of the specification over the non-deleted rows:
    counts by status, and the two rates over the claimed total. *)
Definition distribution_of (rows : list Db.task) : TaskDistribution :=
  let c := count_if (has_status "completed") rows in
  let f := count_if (has_status "failed") rows in
  let w := count_if (has_status "working") rows in
  {| total_tasks := PyInt (sql_count rows);
     completed := PyInt c;
     failed := PyInt f;
     cancelled := PyInt (count_if (has_status "cancelled") rows);
     pending := PyInt (count_if (has_status "pending") rows);
     working := PyInt w;
     completion_rate_pct := rate_pct c (c + f + w);
     failure_rate_pct := rate_pct f (c + f + w);
     total_points := PyInt (coalesce (sql_sum (map Db.points rows)) 0);
     completed_points :=
       PyInt (coalesce (sql_sum (map (fun t => if has_status "completed" t
                                               then Db.points t else Some 0) rows)) 0) |}.

(** The quality group of the specification, from the number of working
    intervals of each task that has one. *)
Definition quality_spec (periods : list Z) : QualityMetrics :=
  let N := Z.of_nat (List.length periods) in
  let cycles := filter (fun p => 1 <? p) periods in
  let R := Z.of_nat (List.length cycles) in
  {| rework_count := PyInt R;
     rework_rate_pct := rate_pct R N;
     avg_rework_cycles := mean_1dp (fold_left Z.add cycles 0) R;
     first_pass_success_pct := rate_pct (N - R) N |}.

(** The strictly positive actual durations of the non-deleted tasks. *)
Definition positive_durations (tbl : list Db.task) : list Z :=
  filter (fun x => 0 <? x) (non_null (map Db.time_actual_ms (live tbl))).

(** A result that is a number. *)
Definition succeeds (r : result pyval) : Prop := exists v, r = Ok v /\ is_num v.

(** A result with property [P], or the [OverflowError] of an integer too
    large for a float. *)
Definition ok_or_overflow {A} (P : A -> Prop) (r : result A) : Prop :=
  (exists a, r = Ok a /\ P a) \/ r = Raise OverflowError.

(** A computation that raises nothing but the listed exceptions. *)
Definition raises_only {A} (es : list exn) (r : result A) : Prop :=
  forall e, r = Raise e -> In e es.

(** The sequence table, when there is one, has the columns the statements
    name: the state column the script selects, [timestamp], [end_timestamp]
    and [task_id]. *)
Definition seq_readable (conn : Db.database) : bool :=
  match _get_sequence_table conn with
  | None => true
  | Some seq =>
      match from_seq conn seq with
      | Ok tbl =>
          forallb (fun c => existsb (String.eqb c) (Db.seq_columns tbl))
                  [(if existsb (String.eqb "status") (Db.seq_columns tbl)
                    then "status" else "event"); "end_timestamp"; "timestamp";
                   "task_id"]%string
      | Raise _ => false
      end
  end.

(** The store with another [tasks] table. *)
Definition with_tasks (conn : Db.database) (rows : list Db.task) : Db.database :=
  {| Db.tasks_tbl := Some rows;
     Db.task_sequence_tbl := Db.task_sequence_tbl conn;
     Db.task_state_sequence_tbl := Db.task_state_sequence_tbl conn |}.

(** [drops_deleted rows rows']: [rows'] is [rows] with some of its
    soft-deleted rows ([deleted_at] set) taken out; every other row stays,
    in its place. *)
Inductive drops_deleted : list Db.task -> list Db.task -> Prop :=
| drops_nil : drops_deleted [] []
| drops_keep t rows rows' :
    drops_deleted rows rows' -> drops_deleted (t :: rows) (t :: rows')
| drops_skip t rows rows' :
    Db.deleted_at t <> None -> drops_deleted rows rows' -> drops_deleted (t :: rows) rows'.

(** The identifiers of the soft-deleted tasks. *)
Definition deleted_ids (conn : Db.database) : list string :=
  map Db.id (filter (fun t => negb (is_null (Db.deleted_at t)))
                    (coalesce (Db.tasks_tbl conn) [])).

Definition drop_intervals_of (ids : list string) (t : Db.seq_table) : Db.seq_table :=
  {| Db.seq_columns := Db.seq_columns t;
     Db.seq_rows := filter (fun r => negb (existsb (String.eqb (Db.task_id r)) ids))
                           (Db.seq_rows t) |}.

(** The store without its soft-deleted task rows and without the sequence
    rows that belong to them. *)
Definition purge_deleted (conn : Db.database) : Db.database :=
  let ids := deleted_ids conn in
  {| Db.tasks_tbl := option_map live (Db.tasks_tbl conn);
     Db.task_sequence_tbl := option_map (drop_intervals_of ids) (Db.task_sequence_tbl conn);
     Db.task_state_sequence_tbl :=
       option_map (drop_intervals_of ids) (Db.task_state_sequence_tbl conn) |}.

Definition is_int (v : pyval) : bool :=
  match v with PyInt _ => true | _ => false end.

Definition is_float (v : pyval) : bool :=
  match v with PyFloat _ => true | _ => false end.

(** The types of the tracked metrics in a snapshot of [extract_metrics]:
    the duration, the completed count and the billable tokens are
    integers, the cost, the two rates, the throughput and the blocking
    ratio are floats. *)
Definition typed_snapshot (r : ExperimentResults) : bool :=
  is_int (total_duration_ms (time r)) && is_float (total_cost_usd (cost r)) &&
  is_int (completed (tasks r)) && is_float (completion_rate_pct (tasks r)) &&
  is_float (tasks_per_hour (throughput r)) && is_float (rework_rate_pct (quality r)) &&
  is_int (total_billable (tokens r)) && is_float (blocking_ratio_pct (time r)).

(** The marker the specification attaches to a difference. *)
Definition marker_spec (lower_is_better : bool) (d : Q) : string :=
  match (d ?= 0)%Q with
  | Eq => no_marker
  | Lt => if lower_is_better then improvement else regression
  | Gt => if lower_is_better then regression else improvement
  end.

(** The polarity table of the specification: [true] is lower-is-better. *)
Definition polarity_table : list (string * bool) :=
  [ ("Total Duration", true); ("Total Cost", true); ("Tasks Completed", false);
    ("Completion Rate", false); ("Tasks/Hour", false); ("Rework Rate", true);
    ("Total Billable Tokens", true); ("Blocking Ratio", true) ]%string.

(** The direction word of a difference. *)
Definition direction_spec (d : Q) : string :=
  match (d ?= 0)%Q with
  | Lt => "lower"
  | _ => "higher"
  end.

(** The delta the specification asks for between two integer metrics
    [a] and [b]: [diff = b - a] exactly, [pct = diff * 100 / |a|] rounded
    once to binary64, the integer [0] when [a] is zero. *)
Definition int_delta (a b : Z) (lower_is_better : bool) : delta :=
  {| diff := PyInt (b - a);
     pct := if a =? 0 then PyInt 0
            else PyFloat (Float.fl (inject_Z ((b - a) * 100) / inject_Z (Z.abs a)));
     direction := direction_spec (inject_Z (b - a));
     indicator := marker_spec lower_is_better (inject_Z (b - a)) |}.

(** The same between two float metrics: each operation of
    [diff = b - a] and [pct = diff * 100 / |a|] is rounded to binary64. *)
Definition float_delta (a b : Q) (lower_is_better : bool) : delta :=
  let d := Float.fl (b - a) in
  {| diff := PyFloat d;
     pct := if Qeq_bool a 0 then PyInt 0
            else PyFloat (Float.fl (Float.fl (d * 100) / Qabs a));
     direction := direction_spec d;
     indicator := marker_spec lower_is_better d |}.

(** The delta table of the specification: each tracked metric with the
    field of the snapshot it compares and its favourable direction. *)
Definition spec_delta_table (a b : ExperimentResults) : list (string * delta) :=
  [ ("Total Duration"%string,
     int_delta (int_val (total_duration_ms (time a)))
               (int_val (total_duration_ms (time b))) true);
    ("Total Cost"%string,
     float_delta (num_val (total_cost_usd (cost a)))
                 (num_val (total_cost_usd (cost b))) true);
    ("Tasks Completed"%string,
     int_delta (int_val (completed (tasks a))) (int_val (completed (tasks b))) false);
    ("Completion Rate"%string,
     float_delta (num_val (completion_rate_pct (tasks a)))
                 (num_val (completion_rate_pct (tasks b))) false);
    ("Tasks/Hour"%string,
     float_delta (num_val (tasks_per_hour (throughput a)))
                 (num_val (tasks_per_hour (throughput b))) false);
    ("Rework Rate"%string,
     float_delta (num_val (rework_rate_pct (quality a)))
                 (num_val (rework_rate_pct (quality b))) true);
    ("Total Billable Tokens"%string,
     int_delta (int_val (total_billable (tokens a)))
               (int_val (total_billable (tokens b))) true);
    ("Blocking Ratio"%string,
     float_delta (num_val (blocking_ratio_pct (time a)))
                 (num_val (blocking_ratio_pct (time b))) true) ].

(** The percentage of two integers has a float: [int / int] raises
    [OverflowError] otherwise. *)
Definition int_delta_in_range (a b : Z) : bool :=
  (a =? 0) ||
  negb (Float.overflows (inject_Z ((b - a) * 100) / inject_Z (Z.abs a))).

(** The difference of two floats and the two steps of its percentage stay
    within binary64 (beyond it Python's float arithmetic gives an
    infinity, which [pyval] leaves out). *)
Definition float_delta_in_range (a b : Q) : bool :=
  negb (Float.overflows (b - a)) &&
  (Qeq_bool a 0 ||
   (negb (Float.overflows (Float.fl (b - a) * 100)) &&
    negb (Float.overflows (Float.fl (Float.fl (b - a) * 100) / Qabs a)))).

Definition deltas_in_range (a b : ExperimentResults) : bool :=
  int_delta_in_range (int_val (total_duration_ms (time a)))
                     (int_val (total_duration_ms (time b))) &&
  float_delta_in_range (num_val (total_cost_usd (cost a)))
                       (num_val (total_cost_usd (cost b))) &&
  int_delta_in_range (int_val (completed (tasks a))) (int_val (completed (tasks b))) &&
  float_delta_in_range (num_val (completion_rate_pct (tasks a)))
                       (num_val (completion_rate_pct (tasks b))) &&
  float_delta_in_range (num_val (tasks_per_hour (throughput a)))
                       (num_val (tasks_per_hour (throughput b))) &&
  float_delta_in_range (num_val (rework_rate_pct (quality a)))
                       (num_val (rework_rate_pct (quality b))) &&
  int_delta_in_range (int_val (total_billable (tokens a)))
                     (int_val (total_billable (tokens b))) &&
  float_delta_in_range (num_val (blocking_ratio_pct (time a)))
                       (num_val (blocking_ratio_pct (time b))).

(** A delta without difference, percentage or marker. *)
Definition delta_null (d : delta) : Prop :=
  (num_val (diff d) == 0)%Q /\ (num_val (pct d) == 0)%Q /\ indicator d = no_marker.

(** The midpoint of a sorted list of durations, [0.0] for the empty list. *)
Definition median_value (s : list Z) : pyval :=
  match s with
  | [] => PyFloat 0
  | _ =>
      let n := List.length s in
      if Nat.even n
      then PyFloat (Float.fl (inject_Z (nth (n / 2 - 1) s 0 + nth (n / 2) s 0) / inject_Z 2))
      else PyInt (nth (n / 2) s 0)
  end.

(** The environment with the file at [p] replaced. *)
Definition with_file (E : env) (p : string) (conn : Db.database) : env :=
  {| fs := fun q => if String.eqb q p then Some conn else fs E q;
     sum_real := sum_real E; avg_int := avg_int E;
     now_working := now_working E; now_blocked := now_blocked E |}.

(** ** Sample stores *)

(** Left-to-right binary64 accumulation, as one possible engine. *)
Definition naive_sum (l : list Q) : Q := fold_left (fun a x => Float.fl (a + x)) l 0%Q.

Definition naive_avg (l : list Z) : Q :=
  Float.fl (inject_Z (fold_left Z.add l 0) / inject_Z (Z.of_nat (List.length l))).

Definition env_of (files : list (string * Db.database)) : env :=
  {| fs := fun p => option_map snd (find (fun f => String.eqb (fst f) p) files);
     sum_real := naive_sum; avg_int := naive_avg;
     now_working := 1700000000; now_blocked := 1700000000 |}.

Definition sample_task (i st : string) (dur : option Z) (del : option Z) : Db.task :=
  {| Db.id := i; Db.status := st; Db.points := Some 1; Db.time_actual_ms := dur;
     Db.created_at := Some 1000; Db.started_at := Some 2000;
     Db.completed_at := Some 3601000;
     Db.worker_id := Some "agent-1"%string; Db.cost_usd := Some (1 # 4)%Q;
     Db.metric_0 := Some 1000; Db.metric_1 := Some 10; Db.metric_2 := Some 500;
     Db.metric_3 := None; Db.metric_4 := None; Db.metric_5 := None;
     Db.metric_6 := None; Db.metric_7 := None;
     Db.deleted_at := del |}.

Definition tasks_only (rows : list Db.task) : Db.database :=
  {| Db.tasks_tbl := Some rows; Db.task_sequence_tbl := None;
     Db.task_state_sequence_tbl := None |}.

Definition working_interval (t : string) (from to : Z) : Db.interval :=
  {| Db.task_id := t; Db.iv_status := Some "working"%string; Db.iv_event := None;
     Db.timestamp := Some from; Db.end_timestamp := Some to |}.

Definition with_sequence (rows : list Db.task) (ivs : list Db.interval) : Db.database :=
  {| Db.tasks_tbl := Some rows;
     Db.task_sequence_tbl :=
       Some {| Db.seq_columns := ["id"; "task_id"; "status"; "timestamp"; "end_timestamp"]%string;
               Db.seq_rows := ivs |};
     Db.task_state_sequence_tbl := None |}.

(** [ExperimentResults(label=label, db_path=db_path)]: every field at its
    dataclass default. *)
Definition ExperimentResults_default (label db_path : string) : ExperimentResults :=
  {| label := label; db_path := db_path; agent_count := int_0;
     time := {| total_duration_ms := int_0; avg_task_time_ms := float_0;
                median_task_time_ms := float_0; min_task_time_ms := int_0;
                max_task_time_ms := int_0; total_working_ms := int_0;
                total_blocked_ms := int_0; blocking_ratio_pct := float_0;
                avg_queue_wait_ms := float_0 |};
     tokens := {| tokens_in := int_0; tokens_out := int_0; tokens_cached := int_0;
                  tokens_thinking := int_0; tokens_image := int_0;
                  tokens_audio := int_0; metric_6 := int_0; metric_7 := int_0;
                  total_billable := int_0; cache_hit_rate_pct := float_0;
                  output_ratio := float_0; thinking_overhead := float_0 |};
     cost := {| total_cost_usd := float_0; avg_cost_per_task := float_0;
                cost_per_completed_task := float_0; cost_per_point := float_0 |};
     tasks := {| total_tasks := int_0; completed := int_0; failed := int_0;
                 cancelled := int_0; pending := int_0; working := int_0;
                 completion_rate_pct := float_0; failure_rate_pct := float_0;
                 total_points := int_0; completed_points := int_0 |};
     quality := QualityMetrics_default;
     throughput := {| tasks_per_hour := float_0; points_per_hour := float_0;
                      avg_tasks_per_agent_hour := float_0 |};
     agents := [] |}.

(** A snapshot that differs from the default in its total cost and total
    duration. *)
Definition snapshot_with (label : string) (cost_usd : Q) (duration_ms : Z)
  : ExperimentResults :=
  let d := ExperimentResults_default label (label ++ ".db") in
  {| label := label; db_path := db_path d; agent_count := agent_count d;
     time := {| total_duration_ms := PyInt duration_ms;
                avg_task_time_ms := float_0; median_task_time_ms := float_0;
                min_task_time_ms := int_0; max_task_time_ms := int_0;
                total_working_ms := int_0; total_blocked_ms := int_0;
                blocking_ratio_pct := float_0; avg_queue_wait_ms := float_0 |};
     tokens := tokens d;
     cost := {| total_cost_usd := PyFloat cost_usd; avg_cost_per_task := float_0;
                cost_per_completed_task := float_0; cost_per_point := float_0 |};
     tasks := tasks d; quality := quality d; throughput := throughput d;
     agents := [] |}.

(** Seven completed, two failed, one working. *)
Definition store_7_2_1 : Db.database :=
  tasks_only (repeat (sample_task "c" "completed" (Some 10) None) 7 ++
              repeat (sample_task "f" "failed" (Some 20) None) 2 ++
              [sample_task "w" "working" None None]).

(** Three tasks, none of them claimed. *)
Definition store_unclaimed : Db.database :=
  tasks_only [sample_task "a" "pending" None None;
              sample_task "b" "pending" None None;
              sample_task "c" "cancelled" None None].

(** One completed, 1999 failed. *)
Definition store_1_1999 : Db.database :=
  tasks_only (sample_task "c" "completed" (Some 10) None ::
              repeat (sample_task "f" "failed" (Some 20) None) 1999).

(** Durations 30, 10, 20 and a row without a positive duration. *)
Definition store_odd : Db.database :=
  tasks_only [sample_task "a" "completed" (Some 30) None;
              sample_task "b" "completed" (Some 10) None;
              sample_task "z" "pending" (Some 0) None;
              sample_task "c" "completed" (Some 20) None].

(** Durations 40, 10, 30, 20. *)
Definition store_even : Db.database :=
  tasks_only [sample_task "a" "completed" (Some 40) None;
              sample_task "b" "completed" (Some 10) None;
              sample_task "c" "completed" (Some 30) None;
              sample_task "d" "completed" (Some 20) None].

(** Three tasks with work: [a] worked twice, [b] once, [c] three times. *)
Definition store_rework : Db.database :=
  with_sequence [sample_task "a" "completed" (Some 10) None;
                 sample_task "b" "completed" (Some 10) None;
                 sample_task "c" "completed" (Some 10) None]
                [working_interval "a" 0 10; working_interval "b" 0 10;
                 working_interval "a" 20 30; working_interval "c" 0 5;
                 working_interval "c" 10 15; working_interval "c" 20 25].

(** A live task [a] that worked once, and a soft-deleted task [d] with two
    working intervals. *)
Definition store_deleted_worked : Db.database :=
  with_sequence [sample_task "a" "completed" (Some 10) None;
                 sample_task "d" "completed" (Some 10) (Some 5000)]
                [working_interval "a" 0 10;
                 working_interval "d" 0 100; working_interval "d" 200 300].

(** A store whose [tasks] table has no row. *)
Definition store_fresh : Db.database := tasks_only [].

(** A database file without a [tasks] table. *)
Definition store_no_tasks : Db.database :=
  {| Db.tasks_tbl := None; Db.task_sequence_tbl := None;
     Db.task_state_sequence_tbl := None |}.

(* ===================================================================== *)
(** * Formatting helpers *)
(* ===================================================================== *)

(** [str(n)] for an [int]. *)
Definition str_int (n : Z) : string := NilZero.string_of_int (Z.to_int n).

(** [int(v)]: a float is truncated towards zero. *)
Definition py_int (v : pyval) : result Z :=
  match v with
  | PyNone => Raise TypeError
  | PyInt z => Ok z
  | PyFloat x => Ok (Z.quot (Qnum x) (Zpos (Qden x)))
  end.

(** [f"{x:.1f}"] for a float: the decimal with one fractional digit nearest
    to the exact value of [x], ties to even. *)
Definition format_1f (x : Q) : string :=
  let k := Float.rne (Qabs x * inject_Z 10) in
  ((if Qle_bool 0 x then EmptyString else "-") ++
   str_int (k / 10) ++ "." ++ str_int (k mod 10))%string.

(** [_fmt_ms(ms)] *)
Definition _fmt_ms (ms : pyval) : result string :=
  match ms with
  | PyNone => Ok "-"%string
  | _ =>
      if negb (py_ne ms (PyInt 0)) then Ok "-"%string
      else
        ms <- py_int ms ;;
        if ms <? 1000 then Ok (str_int ms ++ "ms")%string
        else if ms <? 60000 then
          q <- py_truediv (PyInt ms) (PyInt 1000) ;;
          Ok (format_1f (num_val q) ++ "s")%string
        else if ms <? 3600000 then
          let m := ms / 60000 in
          let s := ms mod 60000 in
          Ok (str_int m ++ "m " ++ str_int (s / 1000) ++ "s")%string
        else
          let h := ms / 3600000 in
          let rem := ms mod 3600000 in
          let m := rem / 60000 in
          Ok (str_int h ++ "h " ++ str_int m ++ "m")%string
  end.

(* ===================================================================== *)
(** * Label resolution of [main] *)
(* ===================================================================== *)

(** The library functions [main] applies to paths and label text:
    [Path(db).stem], [Path(db).parent.name] and [str.strip]. *)
Record pathlib : Type := {
  stem : string -> string;
  parent_name : string -> string;
  strip : string -> string
}.

(** [s.split(",")] *)
Fixpoint split_comma (s : string) : list string :=
  match s with
  | EmptyString => [EmptyString]
  | String c r =>
      if Ascii.eqb c "," then EmptyString :: split_comma r
      else match split_comma r with
           | [] => [String c EmptyString]
           | h :: t => String c h :: t
           end
  end.

(** The loop of the [else] branch: [used] is the set of labels given so
    far, [labels] the list built so far. *)
Fixpoint default_labels (P : pathlib) (databases : list string)
    (used labels : list string) : list string :=
  match databases with
  | [] => labels
  | db :: rest =>
      let stem0 := stem P db in
      let stem1 := if existsb (String.eqb stem0) used
                   then (parent_name P db ++ "/" ++ stem0)%string
                   else stem0 in
      default_labels P rest (stem1 :: used) (labels ++ [stem1])
  end.

Local Open Scope M_scope.

(** The block [# Resolve labels] of [main]; [args_labels] is [args.labels],
    and an empty text is as good as none. *)
Definition resolve_labels (P : pathlib) (args_labels : option string)
    (databases : list string) : M (list string) :=
  match args_labels with
  | Some (String c r) =>
      let labels := map (strip P) (split_comma (String c r)) in
      if negb (Nat.eqb (List.length labels) (List.length databases)) then
        emit (Stderr ("Error: " ++ str_int (Z.of_nat (List.length labels))
                      ++ " labels provided but "
                      ++ str_int (Z.of_nat (List.length databases))
                      ++ " databases given.")) ;;;
        raise (SystemExit 1)
      else ret labels
  | _ => ret (default_labels P databases [] [])
  end.

(** [main] from the parsed arguments to the end of the extraction loop. *)
Definition main_from_args (P : pathlib) (E : env) (args_labels : option string)
    (databases : list string) : M (list ExperimentResults) :=
  labels <~ resolve_labels P args_labels databases ;;
  main E databases labels.

Local Close Scope M_scope.

(* ===================================================================== *)
(** * Further specification-level definitions *)
(* ===================================================================== *)

(** The five statuses the distribution counts. *)
Definition known_status (t : Db.task) : bool :=
  has_status "completed" t || has_status "failed" t || has_status "cancelled" t ||
  has_status "pending" t || has_status "working" t.

(** Sum of the non-NULL inputs. *)
Definition total (l : list (option Z)) : Z := fold_left Z.add (non_null l) 0.

(** The duration between the earliest creation and the latest completion,
    as the script takes it: 0 when a bound is NULL or is the timestamp 0. *)
Definition duration_between (first last : option Z) : Z :=
  match first, last with
  | Some f, Some l => if (f =? 0) || (l =? 0) then 0 else l - f
  | _, _ => 0
  end.

(** The ratio [n / d] rounded to three decimals, [0.0] when [d] is zero. *)
Definition ratio_3dp (n d : Z) : pyval :=
  if d =? 0 then PyFloat 0
  else PyFloat (Float.round_float (Float.fl (inject_Z n / inject_Z d)) 3).

(** The run's duration in hours: [_safe_div(total_duration_ms, 3_600_000)]. *)
Definition hours_of (d : Z) : Q := Float.fl (inject_Z d / inject_Z 3600000).

(** [round(_safe_div(n, hours), 2)] for an integer count and a float. *)
Definition per_hour (n : Z) (hours : Q) : pyval :=
  if Qeq_bool hours 0 then PyFloat 0
  else PyFloat (Float.round_float (Float.fl (Float.fl (inject_Z n) / hours)) 2).

(** [round(_safe_div(cost, n), 4)] for a float cost and an integer count. *)
Definition cost_per (cost : Q) (n : Z) : pyval :=
  if n =? 0 then PyFloat 0
  else PyFloat (Float.round_float (Float.fl (cost / Float.fl (inject_Z n))) 4).

(** The live rows of one worker. *)
Definition worker_rows (w : string) (tbl : list Db.task) : list Db.task :=
  filter (fun t => match Db.worker_id t with
                   | Some x => String.eqb x w
                   | None => false
                   end) (live tbl).

(** [COALESCE(SUM(cost_usd), 0.0)] over rows. *)
Definition cost_of (E : env) (rows : list Db.task) : Q :=
  coalesce (sql_sum_real E (map Db.cost_usd rows)) 0%Q.

(** The [AgentStats] of one group of the worker query. *)
Definition agent_of (E : env) (w : string) (rows : list Db.task) : Agent.AgentStats :=
  {| Agent.worker_id := w;
     Agent.tasks_completed := PyInt (count_if (has_status "completed") rows);
     Agent.tasks_failed := PyInt (count_if (has_status "failed") rows);
     Agent.total_cost_usd := PyFloat (Float.round_float (cost_of E rows) 4);
     Agent.total_time_ms := PyInt (total (map Db.time_actual_ms rows));
     Agent.tokens_in := PyInt (total (map Db.metric_0 rows));
     Agent.tokens_out := PyInt (total (map Db.metric_1 rows)) |}.

(** [worker_id IS NOT NULL] *)
Definition has_worker (t : Db.task) : bool := negb (is_null (Db.worker_id t)).

(** The store with the table [task_state_sequence] replaced. *)
Definition with_state_sequence (conn : Db.database) (t : option Db.seq_table) : Db.database :=
  {| Db.tasks_tbl := Db.tasks_tbl conn;
     Db.task_sequence_tbl := Db.task_sequence_tbl conn;
     Db.task_state_sequence_tbl := t |}.

(** The environment with another clock. *)
Definition with_clock (E : env) (now_w now_b : Z) : env :=
  {| fs := fs E; sum_real := sum_real E; avg_int := avg_int E;
     now_working := now_w; now_blocked := now_b |}.

(** Every interval with a start has an end. *)
Definition all_closed (rows : list Db.interval) : Prop :=
  Forall (fun r => Db.timestamp r <> None -> Db.end_timestamp r <> None) rows.

(** Number of commas of a text. *)
Fixpoint commas (s : string) : nat :=
  match s with
  | EmptyString => 0
  | String c r => if Ascii.eqb c "," then S (commas r) else commas r
  end.

(** The connection events of runs that are extracted one after the other. *)
Definition sequential_log (runs : list (string * string)) : list event :=
  flat_map (fun run => [Connect (fst run); Close (fst run)]) runs.

(** ** Further sample stores *)

(** A task of the team store: 1000 input, 250 output, 3000 cached and 50
    thinking tokens. *)
Definition team_task (i st : string) (w : option string) (cost : option Q)
    (dur pts created completed : option Z) : Db.task :=
  {| Db.id := i; Db.status := st; Db.points := pts; Db.time_actual_ms := dur;
     Db.created_at := created; Db.started_at := created;
     Db.completed_at := completed;
     Db.worker_id := w; Db.cost_usd := cost;
     Db.metric_0 := Some 1000; Db.metric_1 := Some 250; Db.metric_2 := Some 3000;
     Db.metric_3 := Some 50; Db.metric_4 := None; Db.metric_5 := None;
     Db.metric_6 := None; Db.metric_7 := None;
     Db.deleted_at := None |}.

Definition labelled_interval (t st : string) (from to : Z) : Db.interval :=
  {| Db.task_id := t; Db.iv_status := Some st; Db.iv_event := None;
     Db.timestamp := Some from; Db.end_timestamp := Some to |}.

(** Two workers and a task nobody took; the run lasts one hour.  Both
    sequence tables exist. *)
Definition store_team : Db.database :=
  {| Db.tasks_tbl :=
       Some [team_task "t1" "completed" (Some "ann") (Some (1 # 2)%Q)
                       (Some 60000) (Some 3) (Some 1000) (Some 1801000);
             team_task "t2" "completed" (Some "bob") (Some 1%Q)
                       (Some 120000) (Some 5) (Some 2000) (Some 3601000);
             team_task "t3" "failed" (Some "ann") (Some (1 # 4)%Q)
                       (Some 30000) (Some 2) (Some 3000) None;
             team_task "t4" "pending" None None None (Some 1) (Some 4000) None]%string;
     Db.task_sequence_tbl :=
       Some {| Db.seq_columns :=
                 ["id"; "task_id"; "status"; "timestamp"; "end_timestamp"]%string;
               Db.seq_rows :=
                 [labelled_interval "t1" "pending" 1000 2000;
                  labelled_interval "t1" "working" 2000 62000;
                  labelled_interval "t2" "pending" 2000 5000;
                  labelled_interval "t2" "working" 5000 125000;
                  labelled_interval "t3" "assigned" 3000 4000;
                  labelled_interval "t3" "working" 4000 34000]%string |};
     Db.task_state_sequence_tbl :=
       Some {| Db.seq_columns := ["task_id"; "event"; "timestamp"; "end_timestamp"]%string;
               Db.seq_rows := [] |} |}.

Definition team_env : env := env_of [("team.db"%string, store_team)].

(** Paths of the form [dir/tasks.db], looked up in a table. *)
Definition sample_paths : pathlib :=
  {| stem := fun db => if String.eqb db "b/tasks.db" then "tasks"%string
                       else if String.eqb db "a/tasks.db" then "tasks"%string
                       else db;
     parent_name := fun db => if String.eqb db "b/tasks.db" then "b"%string
                              else if String.eqb db "a/tasks.db" then "a"%string
                              else EmptyString;
     strip := fun s => s |}.

(* ===================================================================== *)
(** * Properties *)
(* ===================================================================== *)

(** ** Binary64 rounding *)

Example fl_tenth :
  Float.fl (1 # 10) = (3602879701896397 # 36028797018963968)%Q.
Proof. vm_compute. reflexivity. Qed.

Example fl_one_twentieth_above :
  (1 # 20 < Float.fl (1 # 20))%Q /\ Float.round_float (Float.fl (1 # 20)) 1 = Float.fl (1 # 10).
Proof. split; vm_compute; reflexivity. Qed.

Example round_quarter_even : Float.round_float (1 # 4) 1 = Float.fl (2 # 10).
Proof. vm_compute. reflexivity. Qed.

Example round_035 : Float.round_float (Float.fl (35 # 100)) 1 = Float.fl (3 # 10).
Proof. vm_compute. reflexivity. Qed.

Example round_2675 : Float.round_float (Float.fl (2675 # 1000)) 2 = Float.fl (267 # 100).
Proof. vm_compute. reflexivity. Qed.

Example fl_subnormal_min : Float.fl (1 # (2 ^ 1075 + 1)) = 0%Q /\ Float.fl (3 # (2 ^ 1075)) = (1 # 2 ^ 1073)%Q.
Proof. split; vm_compute; reflexivity. Qed.

Import Float.

Lemma rne_div_err n d : 0 < d -> 2 * Z.abs (rne_div n d * d - n) <= d.
Proof.
  intros Hd. unfold rne_div.
  pose proof (Z.div_mod n d ltac:(lia)) as E.
  pose proof (Z.mod_pos_bound n d Hd) as B.
  destruct (Z.compare_spec (2 * (n mod d)) d) as [H|H|H];
    [destruct (Z.even (n / d))| |]; nia.
Qed.

(** The nearest integer is within one half. *)
Lemma rne_err q : (Qabs (inject_Z (rne q) - q) <= 1 # 2)%Q.
Proof.
  destruct q as [n d]. unfold rne. cbn [Qnum Qden].
  pose proof (rne_div_err n (Zpos d) ltac:(lia)) as H.
  set (k := rne_div n (Zpos d)) in *.
  apply Qabs_Qle_condition.
  unfold Qle, Qminus, Qplus, Qopp, inject_Z; cbn.
  split; nia.
Qed.

(** An integer is its own nearest integer, whatever fraction denotes it. *)
Lemma rne_exact q k : (q == inject_Z k)%Q -> rne q = k.
Proof.
  destruct q as [n d]. unfold Qeq, rne, rne_div. cbn. intros H.
  assert (E : n = k * Zpos d) by lia. subst n.
  rewrite Z.div_mul, Z.mod_mul by lia. cbn. reflexivity.
Qed.

Lemma pow2_pos e : (0 < 2 ^ e)%Q.
Proof. apply Qpower_0_lt. reflexivity. Qed.

(** The exponent found by [ilog2] is not above the number. *)
Lemma ilog2_le q : ~ (q == 0)%Q -> (2 ^ ilog2 q <= Qabs q)%Q.
Proof.
  intros Hq. unfold ilog2.
  set (a := Z.log2 (Z.abs (Qnum q))). set (b := Z.log2 (Zpos (Qden q))).
  destruct (Qle_bool (2 ^ (a - b)) (Qabs q)) eqn:E.
  - now apply Qle_bool_iff.
  - clear E.
    assert (Hn : 0 < Z.abs (Qnum q)).
    { destruct q as [n d]. unfold Qeq in Hq. cbn in *. lia. }
    pose proof (Z.log2_spec _ Hn) as [Ha _]. fold a in Ha.
    pose proof (Z.log2_spec (Zpos (Qden q)) ltac:(lia)) as [_ Hb]. fold b in Hb.
    assert (Ha0 : 0 <= a) by apply Z.log2_nonneg.
    assert (Hb0 : 0 <= b) by apply Z.log2_nonneg.
    replace (a - b - 1) with (a - (b + 1)) by lia.
    rewrite Qpower_minus by (intro H; discriminate H).
    rewrite <- (Zpower_Qpower 2 a) by lia.
    rewrite <- (Zpower_Qpower 2 (b + 1)) by lia.
    replace (Z.succ b) with (b + 1) in Hb by lia.
    destruct q as [n d]. cbn [Qnum Qden Qabs] in *.
    clearbody a b. clear Hq.
    remember (2 ^ a) as A. remember (2 ^ (b + 1)) as B.
    destruct B as [|B|B]; try lia.
    unfold Qle, Qdiv, Qmult, Qinv, inject_Z. cbn.
    nia.
Qed.

Lemma fl_zero q : (q == 0)%Q -> fl q = 0%Q.
Proof. intros H. unfold fl. apply Qeq_bool_iff in H. now rewrite H. Qed.

(** Rounding to binary64 moves a number by at most half a unit in the last
    place: a relative [2 ^ -53], or half the subnormal spacing. *)
Lemma fl_err q :
  (Qabs (fl q - q) <= Qabs q * (1 # 2 ^ 53) + (1 # 2 ^ 1075))%Q.
Proof.
  unfold fl. destruct (Qeq_bool q 0) eqn:E.
  - apply Qeq_bool_iff in E. rewrite E. vm_compute. discriminate.
  - assert (Hq : ~ (q == 0)%Q) by (intro H; apply Qeq_bool_iff in H; congruence).
    pose proof (ilog2_le q Hq) as He.
    set (e := ilog2 q) in *. set (s := 52 - Z.max e emin).
    pose proof (pow2_pos s) as Hp.
    pose proof (rne_err (q * 2 ^ s)) as Hr.
    rewrite Qred_correct.
    set (k := inject_Z (rne (q * 2 ^ s))) in *.
    assert (Hd : (Qabs (k / 2 ^ s - q) <= (1 # 2) * 2 ^ (- s))%Q).
    { setoid_replace (k / 2 ^ s - q)%Q with ((k - q * 2 ^ s) * / 2 ^ s)%Q
        by (field; intro H0; rewrite H0 in Hp; inversion Hp).
      rewrite Qabs_Qmult, Qpower_opp.
      rewrite (Qabs_pos (/ 2 ^ s)) by (apply Qlt_le_weak, Qinv_lt_0_compat, Hp).
      apply Qmult_le_compat_r; [exact Hr|].
      apply Qlt_le_weak, Qinv_lt_0_compat, Hp. }
    eapply Qle_trans; [exact Hd|].
    unfold s, emin. destruct (Z.max_spec e (-1022)) as [[Hlt ->]|[Hge ->]].
    + replace (- (52 - -1022)) with (-1074) by lia.
      assert ((1 # 2) * 2 ^ (-1074) <= 1 # 2 ^ 1075)%Q by (vm_compute; discriminate).
      pose proof (Qabs_nonneg q).
      assert (0 <= Qabs q * (1 # 2 ^ 53))%Q
        by (apply Qmult_le_0_compat; [assumption|discriminate]).
      lra.
    + replace (- (52 - e)) with (e + -52) by lia.
      rewrite Qpower_plus by (intro H; discriminate H).
      assert (E53 : ((1 # 2) * 2 ^ (-52) == 1 # 2 ^ 53)%Q) by (vm_compute; reflexivity).
      setoid_replace ((1 # 2) * (2 ^ e * 2 ^ (-52)))%Q with (2 ^ e * (1 # 2 ^ 53))%Q
        by (rewrite <- E53; ring).
      assert (2 ^ e * (1 # 2 ^ 53) <= Qabs q * (1 # 2 ^ 53))%Q
        by (apply Qmult_le_compat_r; [exact He|discriminate]).
      assert (0 <= 1 # 2 ^ 1075)%Q by discriminate.
      lra.
Qed.


(** ** Percentages and means rounded to one decimal *)

Lemma Qabs_le_split x y : (Qabs x <= y)%Q -> (- y <= x /\ x <= y)%Q.
Proof. apply Qabs_Qle_condition. Qed.

Lemma quotient_bounds n T :
  0 <= n <= T -> 0 < T ->
  (0 <= inject_Z (n * 100) / inject_Z T <= 100)%Q.
Proof.
  intros Hn HT.
  assert (HTq : (0 < inject_Z T)%Q) by (change 0%Q with (inject_Z 0); rewrite <- Zlt_Qlt; lia).
  split.
  - apply Qle_shift_div_l; [exact HTq|]. rewrite Qmult_0_l.
    change 0%Q with (inject_Z 0). rewrite <- Zle_Qle. lia.
  - apply Qle_shift_div_r; [exact HTq|].
    change 100%Q with (inject_Z 100). rewrite <- inject_Z_mult, <- Zle_Qle. lia.
Qed.

Lemma pct_steps_near n T :
  0 <= n <= T -> 0 < T ->
  (Qabs (inject_Z (pct_steps n T) - 10 * (inject_Z (n * 100) / inject_Z T)) <= 51 # 100)%Q.
Proof.
  intros Hn HT. unfold pct_steps, round_steps.
  pose proof (quotient_bounds n T Hn HT) as [Q0 Q1].
  set (q := (inject_Z (n * 100) / inject_Z T)%Q) in *.
  pose proof (fl_err q) as Hf. rewrite (Qabs_pos q Q0) in Hf.
  apply Qabs_le_split in Hf. destruct Hf as [F1 F2].
  pose proof (rne_err (fl q * inject_Z (10 ^ 1))) as Hr.
  apply Qabs_le_split in Hr. destruct Hr as [R1 R2].
  change (inject_Z (10 ^ 1)) with 10%Q in *.
  set (k := inject_Z (rne (fl q * 10))) in *.
  assert (T1 : (1 # 2 ^ 53 <= 1 # 1000000)%Q) by (vm_compute; discriminate).
  assert (T2 : (1 # 2 ^ 1075 <= 1 # 1000000)%Q) by (vm_compute; discriminate).
  assert (T3 : (q * (1 # 2 ^ 53) <= 100 * (1 # 1000000))%Q).
  { apply Qle_trans with (q * (1 # 1000000))%Q.
    - rewrite !(Qmult_comm q). apply Qmult_le_compat_r; assumption.
    - apply Qmult_le_compat_r; [assumption|discriminate]. }
  apply Qabs_Qle_condition. split; lra.
Qed.

Lemma quotient_add a b T :
  0 < T ->
  (inject_Z (a * 100) / inject_Z T + inject_Z (b * 100) / inject_Z T
   == inject_Z ((a + b) * 100) / inject_Z T)%Q.
Proof.
  intros HT.
  assert (HTq : ~ (inject_Z T == 0)%Q).
  { change 0%Q with (inject_Z 0). rewrite inject_Z_injective. lia. }
  rewrite !inject_Z_mult, inject_Z_plus. field. exact HTq.
Qed.

Lemma Z_of_Q_lt (k m : Z) : (inject_Z k < inject_Z m)%Q -> k < m.
Proof. now rewrite <- Zlt_Qlt. Qed.

Lemma pct_steps_range n T :
  0 <= n <= T -> 0 < T -> 0 <= pct_steps n T <= 1000.
Proof.
  intros Hn HT.
  pose proof (pct_steps_near n T Hn HT) as H. apply Qabs_le_split in H.
  pose proof (quotient_bounds n T Hn HT) as [Q0 Q1].
  destruct H as [H1 H2].
  assert (-1 < pct_steps n T)
    by (apply Z_of_Q_lt; change (inject_Z (-1)) with (-1 # 1)%Q; lra).
  assert (pct_steps n T < 1001)
    by (apply Z_of_Q_lt; change (inject_Z 1001) with 1001%Q; lra).
  lia.
Qed.

Lemma pct_steps_sum c f T :
  0 <= c -> 0 <= f -> c + f <= T -> 0 < T ->
  pct_steps c T + pct_steps f T <= 1001.
Proof.
  intros Hc Hf Hs HT.
  pose proof (pct_steps_near c T ltac:(lia) HT) as Hc'. apply Qabs_le_split in Hc'.
  pose proof (pct_steps_near f T ltac:(lia) HT) as Hf'. apply Qabs_le_split in Hf'.
  pose proof (quotient_bounds (c + f) T ltac:(lia) HT) as [_ Q1].
  rewrite <- (quotient_add c f T HT) in Q1.
  assert (pct_steps c T + pct_steps f T < 1002).
  { apply Z_of_Q_lt. rewrite inject_Z_plus. change (inject_Z 1002) with 1002%Q. lra. }
  lia.
Qed.

Lemma pct_steps_complement r N :
  0 <= r <= N -> 0 < N ->
  999 <= pct_steps r N + pct_steps (N - r) N <= 1001.
Proof.
  intros Hr HN.
  pose proof (pct_steps_near r N ltac:(lia) HN) as H1. apply Qabs_le_split in H1.
  pose proof (pct_steps_near (N - r) N ltac:(lia) HN) as H2. apply Qabs_le_split in H2.
  pose proof (quotient_add r (N - r) N HN) as E.
  replace (r + (N - r)) with N in E by lia.
  assert (E1 : (inject_Z (N * 100) / inject_Z N == 100)%Q).
  { rewrite inject_Z_mult. change (inject_Z 100) with 100%Q. field.
    change 0%Q with (inject_Z 0). rewrite inject_Z_injective. lia. }
  rewrite E1 in E.
  assert (998 < pct_steps r N + pct_steps (N - r) N).
  { apply Z_of_Q_lt. rewrite inject_Z_plus. change (inject_Z 998) with 998%Q. lra. }
  assert (pct_steps r N + pct_steps (N - r) N < 1002).
  { apply Z_of_Q_lt. rewrite inject_Z_plus. change (inject_Z 1002) with 1002%Q. lra. }
  lia.
Qed.

(** A mean of values that are all at least 2, rounded to one decimal. *)
Lemma round_mean_ge_2 S L :
  0 < L -> 2 * L <= S ->
  (2 <= round_float (fl (inject_Z S / inject_Z L)) 1)%Q.
Proof.
  intros HL HS. unfold round_float.
  change (inject_Z (10 ^ 1)) with 10%Q.
  set (q := (inject_Z S / inject_Z L)%Q).
  assert (Hq : (2 <= q)%Q).
  { unfold q. apply Qle_shift_div_l.
    - change 0%Q with (inject_Z 0). rewrite <- Zlt_Qlt. lia.
    - change 2%Q with (inject_Z 2). rewrite <- inject_Z_mult, <- Zle_Qle. lia. }
  pose proof (fl_err q) as Hf. rewrite (Qabs_pos q) in Hf by lra.
  apply Qabs_le_split in Hf. destruct Hf as [F1 _].
  pose proof (rne_err (fl q * 10)) as Hr.
  apply Qabs_le_split in Hr. destruct Hr as [R1 _].
  set (k := rne (fl q * 10)) in *.
  assert (T1 : (1 # 2 ^ 53 <= 1 # 1000000)%Q) by (vm_compute; discriminate).
  assert (T2 : (1 # 2 ^ 1075 <= 1 # 1000000)%Q) by (vm_compute; discriminate).
  assert (T3 : (q * (1 # 2 ^ 53) <= q * (1 # 1000000))%Q).
  { rewrite !(Qmult_comm q). apply Qmult_le_compat_r; [assumption|lra]. }
  assert (Hk : 19 < k).
  { apply Z_of_Q_lt. change (inject_Z 19) with 19%Q. lra. }
  destruct (Z.eq_dec k 20) as [->|Hne].
  - vm_compute. discriminate.
  - assert (Hk21 : (21 <= inject_Z k)%Q).
    { change 21%Q with (inject_Z 21). rewrite <- Zle_Qle. lia. }
    set (y := (inject_Z k / 10)%Q).
    assert (Hy : (21 # 10 <= y)%Q) by (unfold y; apply Qle_shift_div_l; lra).
    pose proof (fl_err y) as Hf'. rewrite (Qabs_pos y) in Hf' by lra.
    apply Qabs_le_split in Hf'. destruct Hf' as [F1' _].
    assert (T3' : (y * (1 # 2 ^ 53) <= y * (1 # 1000000))%Q).
    { rewrite !(Qmult_comm y). apply Qmult_le_compat_r; [assumption|lra]. }
    lra.
Qed.

(** ** Operators on numbers *)

Lemma rbind_ok {A B} (r : result A) (k : A -> result B) b :
  rbind r k = Ok b -> exists a, r = Ok a /\ k a = Ok b.
Proof. destruct r; cbn; [eauto | discriminate]. Qed.

Lemma non_null_map_Some {A B} (f : A -> B) l :
  non_null (map (fun r => Some (f r)) l) = map f l.
Proof. induction l; cbn; congruence. Qed.

Lemma fold_left_indicator {A} (c : A -> bool) rows a :
  fold_left Z.add (map (fun r => if c r then 1 else 0) rows) a = a + count_if c rows.
Proof.
  unfold count_if. revert a. induction rows as [|x rows IH]; intros a; cbn.
  - lia.
  - rewrite IH. destruct (c x); cbn [List.length]; lia.
Qed.

Lemma sum_case_nil {A} (c : A -> bool) : sum_case c [] = None.
Proof. reflexivity. Qed.

Lemma sum_case_count {A} (c : A -> bool) rows :
  rows <> [] -> sum_case c rows = Some (count_if c rows).
Proof.
  intros H. unfold sum_case, sql_sum. rewrite non_null_map_Some.
  destruct rows as [|x rows]; [congruence|]. cbn [map].
  rewrite fold_left_indicator. f_equal.
  unfold count_if. cbn [filter]. destruct (c x); cbn [List.length]; lia.
Qed.

Lemma round_float_0 n : round_float 0 n = 0%Q.
Proof.
  unfold round_float. apply fl_zero.
  rewrite (rne_exact _ 0) by (rewrite Qmult_0_l; reflexivity).
  unfold Qdiv. apply Qmult_0_l.
Qed.

(** A non-zero integer stays non-zero when converted to binary64. *)
Lemma fl_int_nonzero z : z <> 0 -> ~ (fl (inject_Z z) == 0)%Q.
Proof.
  intros Hz H0. pose proof (fl_err (inject_Z z)) as H. rewrite H0 in H.
  assert (Ha : (1 <= Qabs (inject_Z z))%Q).
  { unfold inject_Z, Qabs. change 1%Q with (inject_Z 1). unfold inject_Z, Qle. cbn. lia. }
  setoid_replace (0 - inject_Z z)%Q with (- inject_Z z)%Q in H by ring.
  rewrite Qabs_opp in H.
  assert (T1 : (1 # 2 ^ 53 <= 1 # 4)%Q) by (vm_compute; discriminate).
  assert (T2 : (1 # 2 ^ 1075 <= 1 # 4)%Q) by (vm_compute; discriminate).
  assert (T3 : (Qabs (inject_Z z) * (1 # 2 ^ 53) <= Qabs (inject_Z z) * (1 # 4))%Q).
  { rewrite !(Qmult_comm (Qabs _)). apply Qmult_le_compat_r; [assumption|lra]. }
  lra.
Qed.

Lemma truthy_num v : truthy v = true -> is_num v /\ ~ (num_val v == 0)%Q.
Proof.
  destruct v as [|z|x]; cbn; [discriminate| |].
  - intros H. split; [exact I|]. apply negb_true_iff, Z.eqb_neq in H.
    change 0%Q with (inject_Z 0). rewrite inject_Z_injective. exact H.
  - intros H. split; [exact I|]. apply negb_true_iff in H.
    intro E. apply Qeq_bool_iff in E. congruence.
Qed.

(** *** Integers and the binary64 range *)

Lemma overflows_false q : (Qabs q < overflow_threshold)%Q -> overflows q = false.
Proof.
  intros H. unfold overflows. destruct (Qle_bool overflow_threshold (Qabs q)) eqn:E;
    [|reflexivity].
  apply Qle_bool_iff in E. exfalso. apply (Qlt_not_le _ _ H E).
Qed.

Lemma overflows_true q : (overflow_threshold <= Qabs q)%Q -> overflows q = true.
Proof. intros H. unfold overflows. now apply Qle_bool_iff. Qed.

Lemma threshold_large : (inject_Z (2 ^ 1000) < overflow_threshold)%Q.
Proof. unfold overflow_threshold. rewrite <- Zlt_Qlt. reflexivity. Qed.

(** Numbers up to [2 ^ 1000] in magnitude are within the range. *)
Lemma overflows_bounded q : (Qabs q <= inject_Z (2 ^ 1000))%Q -> overflows q = false.
Proof.
  intros H. apply overflows_false. eapply Qle_lt_trans; [exact H|apply threshold_large].
Qed.

(** A quotient of integers is no larger than its numerator. *)
Lemma Qabs_quotient_le n T :
  T <> 0 -> (Qabs (inject_Z n / inject_Z T) <= inject_Z (Z.abs n))%Q.
Proof.
  intros HT. unfold Qdiv. rewrite Qabs_Qmult.
  assert (Hn : (Qabs (inject_Z n) == inject_Z (Z.abs n))%Q) by reflexivity.
  rewrite Hn.
  assert (Hi : (Qabs (/ inject_Z T) <= 1)%Q).
  { unfold inject_Z, Qinv, Qabs. cbn [Qnum].
    destruct T as [|t|t]; [contradiction| |]; cbn; unfold Qle; cbn; lia. }
  assert (H0 : (0 <= inject_Z (Z.abs n))%Q)
    by (change 0%Q with (inject_Z 0); rewrite <- Zle_Qle; lia).
  rewrite <- (Qmult_1_r (inject_Z (Z.abs n))) at 2.
  rewrite !(Qmult_comm (inject_Z (Z.abs n))).
  apply Qmult_le_compat_r; assumption.
Qed.

Lemma overflows_quotient n T :
  T <> 0 -> Z.abs n <= 2 ^ 1000 -> overflows (inject_Z n / inject_Z T) = false.
Proof.
  intros HT Hn. apply overflows_bounded.
  eapply Qle_trans; [apply Qabs_quotient_le; exact HT|]. now rewrite <- Zle_Qle.
Qed.

Lemma overflows_int z : Z.abs z <= 2 ^ 1000 -> overflows (inject_Z z) = false.
Proof.
  intros H. apply overflows_bounded.
  assert (Hn : (Qabs (inject_Z z) == inject_Z (Z.abs z))%Q) by reflexivity.
  rewrite Hn. now rewrite <- Zle_Qle.
Qed.

(** *** The operators on numbers *)

Lemma ok_or_overflow_bind {A B} (P : A -> Prop) (Q : B -> Prop) r (k : A -> result B) :
  ok_or_overflow P r -> (forall a, P a -> ok_or_overflow Q (k a)) ->
  ok_or_overflow Q (rbind r k).
Proof.
  intros [(a & -> & Ha)| ->] Hk; [now apply Hk|right; reflexivity].
Qed.

Lemma to_float_num v : is_num v -> ok_or_overflow (fun _ => True) (to_float v).
Proof.
  destruct v as [|z|x]; cbn; intros H; [contradiction| |left; eauto].
  destruct (overflows (inject_Z z)); [right; reflexivity|left; eauto].
Qed.

Lemma py_add_num a b : is_num a -> is_num b -> ok_or_overflow is_num (py_add a b).
Proof.
  destruct a as [|x|x], b as [|y|y]; cbn; intros; try contradiction;
    try (left; eexists; split; [reflexivity|exact I]);
    destruct (overflows _); cbn; try (right; reflexivity);
    left; eexists; (split; [reflexivity|exact I]).
Qed.

Lemma py_sub_num a b : is_num a -> is_num b -> ok_or_overflow is_num (py_sub a b).
Proof.
  destruct a as [|x|x], b as [|y|y]; cbn; intros; try contradiction;
    try (left; eexists; split; [reflexivity|exact I]);
    destruct (overflows _); cbn; try (right; reflexivity);
    left; eexists; (split; [reflexivity|exact I]).
Qed.

Lemma py_mul_num a b : is_num a -> is_num b -> ok_or_overflow is_num (py_mul a b).
Proof.
  destruct a as [|x|x], b as [|y|y]; cbn; intros; try contradiction;
    try (left; eexists; split; [reflexivity|exact I]);
    destruct (overflows _); cbn; try (right; reflexivity);
    left; eexists; (split; [reflexivity|exact I]).
Qed.

Lemma py_round_num a n : is_num a -> succeeds (py_round a n).
Proof. destruct a; cbn; intros; try contradiction; eexists; split; try reflexivity; exact I. Qed.

Lemma py_abs_num a : is_num a -> succeeds (py_abs a).
Proof. destruct a; cbn; intros; try contradiction; eexists; split; try reflexivity; exact I. Qed.

Lemma py_lt_num a b : is_num a -> is_num b -> exists c, py_lt a b = Ok c.
Proof. destruct a, b; cbn; intros; try contradiction; eauto. Qed.

Lemma Qeq_bool_false q : ~ (q == 0)%Q -> Qeq_bool q 0 = false.
Proof.
  intros Hq. destruct (Qeq_bool q 0) eqn:E; [|reflexivity].
  apply Qeq_bool_iff in E. contradiction.
Qed.

(** A division by a non-zero number returns a float or overflows; it
    raises nothing else. *)
Lemma py_truediv_num a b :
  is_num a -> is_num b -> ~ (num_val b == 0)%Q ->
  ok_or_overflow (fun v => exists q, v = PyFloat q) (py_truediv a b).
Proof.
  intros Ha Hb Hz.
  destruct a as [|x|x], b as [|y|y]; cbn in *; try contradiction.
  - destruct (Z.eqb_spec y 0) as [->|_]; [exfalso; apply Hz; reflexivity|].
    destruct (overflows _); [right; reflexivity|left; eauto].
  - destruct (overflows _); cbn; [right; reflexivity|].
    rewrite (Qeq_bool_false y Hz). left; eauto.
  - destruct (overflows _); cbn; [right; reflexivity|].
    rewrite Qeq_bool_false; [left; eauto|].
    apply fl_int_nonzero. intros ->. apply Hz. reflexivity.
  - rewrite (Qeq_bool_false y Hz). left; eauto.
Qed.

Lemma safe_div_num x y d :
  is_num x -> is_num d -> ok_or_overflow is_num (_safe_div x y d).
Proof.
  intros Hx Hd. unfold _safe_div. destruct (truthy y) eqn:E.
  - apply truthy_num in E. destruct E as [Hy Hz].
    destruct (py_truediv_num x y Hx Hy Hz) as [(v & -> & q & ->)| ->];
      [left; eexists; split; [reflexivity|exact I]|right; reflexivity].
  - left. exists d. split; [reflexivity|assumption].
Qed.

(** ** 1. Task distribution *)

Ltac inv_bind H :=
  repeat match type of H with
         | rbind ?r ?k = Ok _ =>
             let a := fresh "a" in
             let E := fresh "E" in
             apply rbind_ok in H; destruct H as (a & E & H)
         end.

Lemma count_if_nonneg {A} (c : A -> bool) rows : 0 <= count_if c rows.
Proof. unfold count_if. lia. Qed.

(** [_safe_div(a, T)] on two integers: the default for [T = 0], else the
    rounded quotient; [OverflowError] is the only exception. *)
Lemma safe_div_int a T :
  _safe_div (PyInt a) (PyInt T) default_0
  = if T =? 0 then Ok (PyFloat 0)
    else if overflows (inject_Z a / inject_Z T) then Raise OverflowError
    else Ok (PyFloat (fl (inject_Z a / inject_Z T))).
Proof.
  unfold _safe_div, truthy, py_truediv, default_0.
  destruct (T =? 0); reflexivity.
Qed.

(** When [round(_safe_div(a, T), nd)] returns, it returns the rounded
    quotient, [0.0] for [T = 0]. *)
Lemma round_safe_div_int a T nd q r :
  _safe_div (PyInt a) (PyInt T) default_0 = Ok q -> py_round q nd = Ok r ->
  r = if T =? 0 then PyFloat 0
      else PyFloat (round_float (fl (inject_Z a / inject_Z T)) nd).
Proof.
  rewrite safe_div_int. destruct (T =? 0).
  - intros [= <-]. cbn [py_round]. rewrite round_float_0. now intros [= <-].
  - destruct (overflows _); [discriminate|]. intros [= <-]. cbn [py_round].
    now intros [= <-].
Qed.

Lemma rate_pct_inv n T q r :
  _safe_div (PyInt (n * 100)) (PyInt T) default_0 = Ok q -> py_round q 1 = Ok r ->
  r = rate_pct n T.
Proof. apply round_safe_div_int. Qed.

(** A share of a total is a quotient of at most 100: it never overflows. *)
Lemma rate_pct_safe_div n T :
  0 <= n <= T ->
  (q <- _safe_div (PyInt (n * 100)) (PyInt T) default_0 ;; py_round q 1)%result
  = Ok (rate_pct n T).
Proof.
  intros Hn. rewrite safe_div_int. unfold rate_pct.
  destruct (Z.eqb_spec T 0) as [->|HT]; cbn [rbind py_round].
  - now rewrite round_float_0.
  - rewrite overflows_bounded; [reflexivity|].
    destruct (quotient_bounds n T Hn ltac:(lia)) as [H0 H1].
    rewrite Qabs_pos by exact H0.
    eapply Qle_trans; [exact H1|]. change 100%Q with (inject_Z 100).
    rewrite <- Zle_Qle. lia.
Qed.

Lemma task_distribution_live conn tbl :
  Db.tasks_tbl conn = Some tbl -> live tbl <> [] ->
  task_distribution conn = Ok (distribution_of (live tbl)).
Proof.
  intros Ht Hl. unfold task_distribution, from_tasks. rewrite Ht. cbn [rbind].
  rewrite !(sum_case_count _ _ Hl). cbn [cell_int py_add py_mul rbind].
  pose proof (count_if_nonneg (has_status "completed") (live tbl)) as Hc.
  pose proof (count_if_nonneg (has_status "failed") (live tbl)) as Hf.
  pose proof (count_if_nonneg (has_status "working") (live tbl)) as Hw.
  set (T := count_if (has_status "completed") (live tbl) + count_if (has_status "failed") (live tbl) + count_if (has_status "working") (live tbl)).
  pose proof (rate_pct_safe_div (count_if (has_status "completed") (live tbl)) T
                ltac:(unfold T; lia)) as R1.
  pose proof (rate_pct_safe_div (count_if (has_status "failed") (live tbl)) T
                ltac:(unfold T; lia)) as R2.
  unfold rbind in R1, R2 |- *.
  destruct (_safe_div (PyInt (count_if (has_status "completed") (live tbl) * 100)) (PyInt T) default_0); [|discriminate].
  rewrite R1.
  destruct (_safe_div (PyInt (count_if (has_status "failed") (live tbl) * 100)) (PyInt T) default_0); [|discriminate].
  rewrite R2. reflexivity.
Qed.

Lemma task_distribution_empty conn tbl :
  Db.tasks_tbl conn = Some tbl -> live tbl = [] ->
  task_distribution conn = Raise TypeError.
Proof.
  intros Ht Hl. unfold task_distribution, from_tasks. rewrite Ht. cbn [rbind].
  rewrite Hl. reflexivity.
Qed.

Lemma task_distribution_inv conn td :
  task_distribution conn = Ok td ->
  exists tbl, Db.tasks_tbl conn = Some tbl /\ live tbl <> [] /\ td = distribution_of (live tbl).
Proof.
  intros H. destruct (Db.tasks_tbl conn) as [tbl|] eqn:Ht.
  - exists tbl. destruct (live tbl) eqn:Hl.
    + rewrite (task_distribution_empty conn tbl Ht Hl) in H. discriminate.
    + assert (Hne : live tbl <> []) by (rewrite Hl; discriminate).
      rewrite (task_distribution_live conn tbl Ht Hne) in H. rewrite <- Hl.
      repeat split; congruence.
  - unfold task_distribution, from_tasks in H. rewrite Ht in H. discriminate.
Qed.

(** ** Extraction as a whole *)

Lemma extract_metrics_missing E p l s :
  fs E p = None ->
  extract_metrics E p l s
  = (Raise (SystemExit 1), s ++ [Stderr ("Error: database file not found: " ++ p)]).
Proof.
  intros H. unfold extract_metrics, path_exists. rewrite H. reflexivity.
Qed.

Lemma extract_metrics_present E p l s conn :
  fs E p = Some conn ->
  extract_metrics E p l s
  = match extract_body E conn l p with
    | Ok r => (Ok r, s ++ [Connect p; Close p])
    | Raise e => (Raise e, s ++ [Connect p])
    end.
Proof.
  intros H. unfold extract_metrics, path_exists, sqlite3_connect. rewrite H.
  cbn. unfold bind, emit, lift, ret. cbn.
  destruct (extract_body E conn l p); [|reflexivity].
  now rewrite <- app_assoc.
Qed.

Lemma extract_metrics_inv E p l s r s' :
  extract_metrics E p l s = (Ok r, s') ->
  exists conn, fs E p = Some conn /\ extract_body E conn l p = Ok r
               /\ s' = s ++ [Connect p; Close p].
Proof.
  intros H. destruct (fs E p) as [conn|] eqn:Hfs.
  - rewrite (extract_metrics_present _ _ _ _ _ Hfs) in H.
    exists conn. destruct (extract_body E conn l p); inversion H; auto.
  - rewrite (extract_metrics_missing _ _ _ _ Hfs) in H. discriminate.
Qed.

Lemma extract_body_inv E conn l p r :
  extract_body E conn l p = Ok r ->
  task_distribution conn = Ok (tasks r) /\
  time_metrics E conn (_get_sequence_table conn) = Ok (time r) /\
  token_metrics conn = Ok (tokens r) /\
  cost_metrics E conn = Ok (cost r) /\
  quality_metrics conn (_get_sequence_table conn) = Ok (quality r) /\
  agent_stats E conn = Ok (agents r) /\
  label r = l /\ db_path r = p.
Proof.
  unfold extract_body. intros H. inv_bind H. inversion H; subst; cbn.
  repeat split; assumption.
Qed.

Lemma rate_pct_tenths n T : T <> 0 -> rate_pct n T = tenths (pct_steps n T).
Proof.
  intros H. unfold rate_pct, tenths, pct_steps.
  destruct (Z.eqb_spec T 0); [contradiction|reflexivity].
Qed.

(** C1, as amended.  In every snapshot [extract_metrics] returns, the counts
    [completed], [failed] and [working] are those of the non-deleted rows,
    the claimed total is their sum, and each rate is [round(n * 100 /
    claimed_total, 1)] computed in binary64, [0.0] when the claimed total is
    zero.  When the claimed total is positive the two rates are the doubles
    nearest to [kc / 10] and [kf / 10] for integers [0 <= kc], [0 <= kf] with
    [kc + kf <= 1001]: the two roundings can put the sum one tenth above
    100, not more.  Seven completed, two failed and one working give a
    claimed total of 10 and the rates 70.0 and 20.0. *)
Theorem claimed_total_rates E p l s r s' :
  extract_metrics E p l s = (Ok r, s') ->
  exists conn tbl,
    fs E p = Some conn /\ Db.tasks_tbl conn = Some tbl /\
    let c := count_if (has_status "completed") (live tbl) in
    let f := count_if (has_status "failed") (live tbl) in
    let w := count_if (has_status "working") (live tbl) in
    let claimed_total := c + f + w in
    completed (tasks r) = PyInt c /\ failed (tasks r) = PyInt f /\
    working (tasks r) = PyInt w /\
    completion_rate_pct (tasks r) = rate_pct c claimed_total /\
    failure_rate_pct (tasks r) = rate_pct f claimed_total /\
    (claimed_total = 0 ->
       completion_rate_pct (tasks r) = PyFloat 0 /\
       failure_rate_pct (tasks r) = PyFloat 0) /\
    (0 < claimed_total ->
       completion_rate_pct (tasks r) = tenths (pct_steps c claimed_total) /\
       failure_rate_pct (tasks r) = tenths (pct_steps f claimed_total) /\
       0 <= pct_steps c claimed_total /\ 0 <= pct_steps f claimed_total /\
       pct_steps c claimed_total + pct_steps f claimed_total <= 1001) /\
    (c = 7 -> f = 2 -> w = 1 ->
       claimed_total = 10 /\
       completion_rate_pct (tasks r) = PyFloat 70 /\
       failure_rate_pct (tasks r) = PyFloat 20).
Proof.
  intros H.
  apply extract_metrics_inv in H. destruct H as (conn & Hfs & Hb & _).
  apply extract_body_inv in Hb. destruct Hb as (Htd & _).
  apply task_distribution_inv in Htd. destruct Htd as (tbl & Ht & _ & ->).
  exists conn, tbl. split; [exact Hfs|]. split; [exact Ht|].
  cbn zeta. unfold distribution_of. cbn [completed failed working completion_rate_pct failure_rate_pct].
  set (c := count_if (has_status "completed") (live tbl)).
  set (f := count_if (has_status "failed") (live tbl)).
  set (w := count_if (has_status "working") (live tbl)).
  pose proof (count_if_nonneg (has_status "completed") (live tbl)) as Hc. fold c in Hc.
  pose proof (count_if_nonneg (has_status "failed") (live tbl)) as Hf. fold f in Hf.
  pose proof (count_if_nonneg (has_status "working") (live tbl)) as Hw. fold w in Hw.
  split; [reflexivity|]. split; [reflexivity|]. split; [reflexivity|].
  split; [reflexivity|]. split; [reflexivity|]. split; [|split].
  - intros ->. split; reflexivity.
  - intros HT. rewrite !rate_pct_tenths by lia.
    split; [reflexivity|]. split; [reflexivity|].
    split; [apply pct_steps_range; lia|].
    split; [apply pct_steps_range; lia|].
    apply pct_steps_sum; lia.
  - intros -> -> ->. split; [reflexivity|]. split; vm_compute; reflexivity.
Qed.

Lemma claimed_total_rates_witness :
  exists r,
    extract_metrics (env_of [("run.db"%string, store_7_2_1)]) "run.db" "run" []
    = (Ok r, [Connect "run.db"; Close "run.db"]) /\
    completion_rate_pct (tasks r) = PyFloat 70 /\
    failure_rate_pct (tasks r) = PyFloat 20.
Proof.
  eexists. split; [vm_compute; reflexivity|].
  match goal with
  | |- completion_rate_pct (tasks ?r) = _ /\ _ =>
      destruct (claimed_total_rates (env_of [("run.db"%string, store_7_2_1)])
                  "run.db" "run" [] r [Connect "run.db"; Close "run.db"]
                  ltac:(vm_compute; reflexivity))
        as (conn & tbl & Hfs & Ht & _ & _ & _ & _ & _ & _ & _ & H)
  end.
  vm_compute in Hfs. injection Hfs as <-.
  vm_compute in Ht. injection Ht as <-.
  destruct H as (_ & H1 & H2); [vm_compute; reflexivity..|].
  split; assumption.
Defined.

(** With tasks but no claimed task both rates are [0.0]. *)
Example unclaimed_rates_zero :
  exists r,
    extract_metrics (env_of [("run.db"%string, store_unclaimed)]) "run.db" "run" []
    = (Ok r, [Connect "run.db"; Close "run.db"]) /\
    total_tasks (tasks r) = PyInt 3 /\
    completion_rate_pct (tasks r) = PyFloat 0 /\
    failure_rate_pct (tasks r) = PyFloat 0.
Proof. eexists. split; [vm_compute; reflexivity|]. repeat split. Qed.

(** C1, counterexample.  With one completed and 1999 failed tasks the rates
    are [round(0.05, 1) = 0.1] (the double [100 / 2000] lies above 0.05)
    and [round(99.95, 1) = 100.0]: their sum exceeds 100. *)
Lemma rates_sum_above_100 :
  exists r,
    extract_metrics (env_of [("run.db"%string, store_1_1999)]) "run.db" "run" []
    = (Ok r, [Connect "run.db"; Close "run.db"]) /\
    completed (tasks r) = PyInt 1 /\ failed (tasks r) = PyInt 1999 /\
    working (tasks r) = PyInt 0 /\
    completion_rate_pct (tasks r) = tenths 1 /\
    failure_rate_pct (tasks r) = tenths 1000 /\
    ~ (num_val (completion_rate_pct (tasks r)) + num_val (failure_rate_pct (tasks r))
       <= 100)%Q.
Proof.
  eexists. split; [vm_compute; reflexivity|].
  repeat split; try (vm_compute; reflexivity).
  vm_compute. intros H. apply H. reflexivity.
Qed.

(** ** Safe division *)

(** With a truthy denominator the quotient is Python's [x / y]. *)
Lemma safe_div_truthy x y d : truthy y = true -> _safe_div x y d = py_truediv x y.
Proof. intros H. unfold _safe_div. now rewrite H. Qed.

(** C3, as amended.  For every numerator [x], denominator [y] and default
    [d]: [_safe_div x y d] is [d] when [y] is zero or [None] (exactly when
    [y] is falsy), whatever [x] is, and it never raises
    [ZeroDivisionError].  With a non-zero [y] it is Python's [x / y]: for
    two integers the correctly rounded binary64 quotient, and
    [OverflowError] when the exact quotient is beyond the binary64 range;
    for two floats the rounded quotient (while that is in range), and no
    exception; with one integer and one float the integer is converted
    first, and [OverflowError] is raised when it has no float.  A [None]
    numerator over a non-zero denominator raises [TypeError].  These are
    the only exceptions. *)
Theorem safe_div_spec x y d :
  (truthy y = false <-> y = PyNone \/ (num_val y == 0)%Q) /\
  (truthy y = false -> _safe_div x y d = Ok d) /\
  _safe_div x y d <> Raise ZeroDivisionError /\
  (forall a b, x = PyInt a -> y = PyInt b -> b <> 0 ->
     _safe_div x y d
     = if overflows (inject_Z a / inject_Z b) then Raise OverflowError
       else Ok (PyFloat (fl (inject_Z a / inject_Z b)))) /\
  (forall a b, x = PyFloat a -> y = PyFloat b ->
     (exists v, _safe_div x y d = Ok v) /\
     (~ (b == 0)%Q -> overflows (a / b) = false ->
      _safe_div x y d = Ok (PyFloat (fl (a / b))))) /\
  (forall a b, x = PyInt a -> y = PyFloat b -> ~ (b == 0)%Q ->
     (overflows (inject_Z a) = true -> _safe_div x y d = Raise OverflowError) /\
     (overflows (inject_Z a) = false -> overflows (fl (inject_Z a) / b) = false ->
      _safe_div x y d = Ok (PyFloat (fl (fl (inject_Z a) / b))))) /\
  (forall a b, x = PyFloat a -> y = PyInt b -> b <> 0 ->
     (overflows (inject_Z b) = true -> _safe_div x y d = Raise OverflowError) /\
     (overflows (inject_Z b) = false -> overflows (a / fl (inject_Z b)) = false ->
      _safe_div x y d = Ok (PyFloat (fl (a / fl (inject_Z b)))))) /\
  (x = PyNone -> truthy y = true -> _safe_div x y d = Raise TypeError) /\
  (forall e, _safe_div x y d = Raise e ->
     (e = TypeError /\ x = PyNone) \/
     (e = OverflowError /\ exists a, x = PyInt a \/ y = PyInt a)).
Proof.
  pose proof Qeq_bool_false as Hq.
  split; [|split; [|split; [|split; [|split; [|split; [|split; [|split]]]]]]].
  - split.
    + destruct y as [|b|b]; cbn; intros H; [now left|right..].
      * apply negb_false_iff, Z.eqb_eq in H. subst. reflexivity.
      * apply negb_false_iff in H. now apply Qeq_bool_iff.
    + intros [->|H]; [reflexivity|]. destruct y as [|b|b]; cbn in *; [reflexivity| |].
      * change 0%Q with (inject_Z 0) in H. rewrite inject_Z_injective in H. now subst.
      * apply Qeq_bool_iff in H. now rewrite H.
  - intros H. unfold _safe_div. now rewrite H.
  - unfold _safe_div. destruct (truthy y) eqn:Et; [|discriminate].
    apply truthy_num in Et. destruct Et as [Hy Hz].
    destruct x as [|a|a]; [destruct y; cbn; discriminate|..].
    + destruct (py_truediv_num (PyInt a) y I Hy Hz) as [(v & -> & _)| ->]; discriminate.
    + destruct (py_truediv_num (PyFloat a) y I Hy Hz) as [(v & -> & _)| ->]; discriminate.
  - intros a b -> -> Hb. unfold _safe_div. cbn.
    destruct (Z.eqb_spec b 0); [contradiction|reflexivity].
  - intros a b -> ->. unfold _safe_div. cbn. split.
    + destruct (Qeq_bool b 0); cbn; eauto.
    + intros Hb _. rewrite (Hq b Hb). reflexivity.
  - intros a b -> -> Hb. unfold _safe_div. cbn [truthy py_truediv to_float].
    rewrite (Hq b Hb). cbn [negb]. split.
    + intros ->. reflexivity.
    + intros -> _. cbn [rbind]. rewrite (Hq b Hb). reflexivity.
  - intros a b -> -> Hb. unfold _safe_div. cbn [truthy py_truediv to_float rbind].
    destruct (Z.eqb_spec b 0) as [|_]; [contradiction|]. cbn [negb]. split.
    + intros ->. reflexivity.
    + intros -> _. cbn [rbind]. rewrite Hq; [reflexivity|]. now apply fl_int_nonzero.
  - intros -> Ht. unfold _safe_div. rewrite Ht. destruct y; [discriminate|reflexivity..].
  - intros e. unfold _safe_div. destruct (truthy y) eqn:Et; [|discriminate].
    apply truthy_num in Et. destruct Et as [Hy Hz].
    destruct x as [|a|a].
    + destruct y; cbn; intros [= <-]; left; auto.
    + intros H. right.
      destruct (py_truediv_num (PyInt a) y I Hy Hz) as [(v & E & _)|E];
        rewrite E in H; [discriminate|]. injection H as <-. eauto.
    + intros H. right.
      destruct (py_truediv_num (PyFloat a) y I Hy Hz) as [(v & E & _)|E];
        rewrite E in H; [discriminate|]. injection H as <-.
      split; [reflexivity|]. destruct y as [|b|b]; [contradiction|eauto|].
      cbn in E. rewrite (Hq b Hz) in E. discriminate.
Qed.

Lemma safe_div_spec_witness :
  _safe_div (PyInt 700) (PyInt 10) default_0 = Ok (PyFloat 70) /\
  _safe_div (PyInt 700) (PyInt 0) default_0 = Ok default_0 /\
  _safe_div (PyInt 700) PyNone default_0 = Ok default_0 /\
  _safe_div PyNone PyNone default_0 = Ok default_0.
Proof.
  split; [|split; [|split]].
  - destruct (safe_div_spec (PyInt 700) (PyInt 10) default_0) as (_ & _ & _ & H & _).
    rewrite (H 700 10 eq_refl eq_refl ltac:(discriminate)). vm_compute. reflexivity.
  - destruct (safe_div_spec (PyInt 700) (PyInt 0) default_0) as (_ & H & _).
    apply H. reflexivity.
  - destruct (safe_div_spec (PyInt 700) PyNone default_0) as (_ & H & _).
    apply H. reflexivity.
  - destruct (safe_div_spec PyNone PyNone default_0) as (_ & H & _).
    apply H. reflexivity.
Defined.

(** C3, counterexample.  [_safe_div(10 ** 400, 1)] raises [OverflowError]:
    the quotient of the two integers has no float; and [_safe_div(None, 1)]
    raises [TypeError].  The primitive does raise. *)
Lemma safe_div_can_raise :
  _safe_div (PyInt (10 ^ 400)) (PyInt 1) default_0 = Raise OverflowError /\
  _safe_div PyNone (PyInt 1) default_0 = Raise TypeError.
Proof. split; vm_compute; reflexivity. Qed.

(** ** Deltas *)

Lemma inject_Z_0 z : (inject_Z z == 0)%Q -> z = 0.
Proof. change 0%Q with (inject_Z 0). now rewrite inject_Z_injective. Qed.

Lemma py_lt_0 v : is_num v -> py_lt v (PyInt 0) = Ok (negb (Qle_bool 0 (num_val v))).
Proof. destruct v; cbn; [contradiction|reflexivity..]. Qed.

Lemma py_gt_0 v : is_num v -> py_gt v (PyInt 0) = Ok (negb (Qle_bool (num_val v) 0)).
Proof. destruct v; cbn; [contradiction|reflexivity..]. Qed.

Lemma py_ne_0 v : is_num v -> py_ne v (PyInt 0) = negb (Qeq_bool (num_val v) 0).
Proof. destruct v; cbn; [contradiction|reflexivity..]. Qed.

Lemma marker_lower q :
  (if negb (Qeq_bool q 0)
   then if negb (Qle_bool 0 q) then improvement else regression
   else no_marker) = marker_spec true q.
Proof.
  unfold marker_spec. destruct (Qcompare_spec q 0) as [H|H|H].
  - apply Qeq_bool_iff in H. now rewrite H.
  - rewrite Qeq_bool_false by lra.
    destruct (Qle_bool 0 q) eqn:E; [apply Qle_bool_iff in E; lra|reflexivity].
  - rewrite Qeq_bool_false by lra.
    destruct (Qle_bool 0 q) eqn:E; [reflexivity|].
    assert (Qle_bool 0 q = true) by (apply Qle_bool_iff; lra). congruence.
Qed.

Lemma marker_higher q :
  (if negb (Qeq_bool q 0)
   then if negb (Qle_bool q 0) then improvement else regression
   else no_marker) = marker_spec false q.
Proof.
  unfold marker_spec. destruct (Qcompare_spec q 0) as [H|H|H].
  - apply Qeq_bool_iff in H. now rewrite H.
  - rewrite Qeq_bool_false by lra.
    destruct (Qle_bool q 0) eqn:E; [reflexivity|].
    assert (Qle_bool q 0 = true) by (apply Qle_bool_iff; lra). congruence.
  - rewrite Qeq_bool_false by lra.
    destruct (Qle_bool q 0) eqn:E; [apply Qle_bool_iff in E; lra|reflexivity].
Qed.

Lemma direction_lower q :
  (if negb (Qle_bool 0 q) then "lower" else "higher")%string = direction_spec q.
Proof.
  unfold direction_spec. destruct (Qcompare_spec q 0) as [H|H|H].
  - assert (E : Qle_bool 0 q = true) by (apply Qle_bool_iff; lra). now rewrite E.
  - destruct (Qle_bool 0 q) eqn:E; [apply Qle_bool_iff in E; lra|reflexivity].
  - assert (E : Qle_bool 0 q = true) by (apply Qle_bool_iff; lra). now rewrite E.
Qed.

(** [_delta] once its difference and its percentage are known. *)
Lemma delta_shape va vb lb df p :
  py_sub vb va = Ok df -> is_num df ->
  (if truthy va
   then (d100 <- py_mul df (PyInt 100) ;; a <- py_abs va ;;
         _safe_div d100 a default_0)%result
   else Ok (PyInt 0)) = Ok p ->
  _delta va vb lb
  = Ok {| diff := df; pct := p; direction := direction_spec (num_val df);
          indicator := marker_spec lb (num_val df) |}.
Proof.
  intros Ed Nd Ep. unfold _delta. rewrite Ed. cbn [rbind]. rewrite Ep. cbn [rbind].
  rewrite (py_lt_0 df Nd). cbn [rbind]. rewrite (py_ne_0 df Nd).
  rewrite direction_lower.
  destruct lb.
  - rewrite <- marker_lower.
    destruct (negb (Qeq_bool (num_val df) 0)); cbn [rbind]; reflexivity.
  - rewrite (py_gt_0 df Nd), <- marker_higher.
    destruct (negb (Qeq_bool (num_val df) 0)); cbn [rbind]; reflexivity.
Qed.

(** The delta of two integer metrics: the one of the specification, and
    [OverflowError] when the percentage has no float. *)
Lemma delta_int a b lb :
  _delta (PyInt a) (PyInt b) lb
  = if int_delta_in_range a b then Ok (int_delta a b lb) else Raise OverflowError.
Proof.
  unfold int_delta_in_range. destruct (Z.eqb_spec a 0) as [->|Ha]; cbn [orb].
  - erewrite delta_shape; [|reflexivity|exact I|reflexivity]. reflexivity.
  - destruct (overflows _) eqn:Eo; cbn [negb].
    + unfold _delta. cbn [py_sub rbind truthy py_mul py_abs].
      destruct (Z.eqb_spec a 0) as [|_]; [contradiction|]. cbn [negb].
      rewrite safe_div_int. destruct (Z.eqb_spec (Z.abs a) 0) as [|_]; [lia|].
      rewrite Eo. reflexivity.
    + erewrite delta_shape; [|reflexivity|exact I|].
      * unfold int_delta. destruct (Z.eqb_spec a 0) as [|_]; [contradiction|]. reflexivity.
      * cbn [truthy py_mul py_abs rbind].
        destruct (Z.eqb_spec a 0) as [|_]; [contradiction|]. cbn [negb].
        rewrite safe_div_int. destruct (Z.eqb_spec (Z.abs a) 0) as [|_]; [lia|].
        rewrite Eo. reflexivity.
Qed.

Lemma overflows_100 : overflows (inject_Z 100) = false.
Proof. vm_compute. reflexivity. Qed.

Lemma fl_100 : fl (inject_Z 100) = 100%Q.
Proof. vm_compute. reflexivity. Qed.

Lemma Qabs_nonzero q : ~ (q == 0)%Q -> ~ (Qabs q == 0)%Q.
Proof.
  intros H E. apply H. destruct q as [n d]. unfold Qeq, Qabs in *. cbn in *. lia.
Qed.

(** The delta of two float metrics whose percentage is computed. *)
Lemma delta_float a b lb :
  _delta (PyFloat a) (PyFloat b) lb = Ok (float_delta a b lb).
Proof.
  erewrite delta_shape; [|reflexivity|exact I|].
  - reflexivity.
  - unfold float_delta. cbn [truthy py_mul to_float rbind py_abs].
    rewrite overflows_100, fl_100. cbn [rbind].
    destruct (Qeq_bool a 0) eqn:Ea; cbn [negb]; [reflexivity|].
    unfold _safe_div. cbn [truthy py_truediv to_float rbind].
    assert (Hz : Qeq_bool (Qabs a) 0 = false).
    { apply Qeq_bool_false, Qabs_nonzero. intros E. apply Qeq_bool_iff in E. congruence. }
    rewrite Hz. reflexivity.
Qed.

Lemma is_int_val v : is_int v = true -> v = PyInt (int_val v).
Proof. destruct v; cbn; intros; congruence. Qed.

Lemma is_float_val v : is_float v = true -> v = PyFloat (num_val v).
Proof. destruct v; cbn; intros; congruence. Qed.

Lemma delta_int_row va vb lb :
  is_int va = true -> is_int vb = true ->
  int_delta_in_range (int_val va) (int_val vb) = true ->
  _delta va vb lb = Ok (int_delta (int_val va) (int_val vb) lb).
Proof.
  intros Ha Hb Hr. rewrite (is_int_val va Ha), (is_int_val vb Hb) at 1.
  rewrite delta_int, Hr. reflexivity.
Qed.

Lemma delta_float_row va vb lb :
  is_float va = true -> is_float vb = true ->
  _delta va vb lb = Ok (float_delta (num_val va) (num_val vb) lb).
Proof.
  intros Ha Hb. rewrite (is_float_val va Ha), (is_float_val vb Hb) at 1.
  apply delta_float.
Qed.

Lemma overflows_zero q : (q == 0)%Q -> overflows q = false.
Proof.
  intros H. apply overflows_false. rewrite H. reflexivity.
Qed.

Lemma int_delta_same a lb :
  int_delta_in_range a a = true /\ delta_null (int_delta a a lb).
Proof.
  assert (Hq : (inject_Z ((a - a) * 100) / inject_Z (Z.abs a) == 0)%Q).
  { rewrite Z.sub_diag. reflexivity. }
  split.
  - unfold int_delta_in_range. rewrite (overflows_zero _ Hq). apply orb_true_r.
  - unfold delta_null, int_delta. cbn [diff pct indicator num_val].
    rewrite Z.sub_diag in *. split; [reflexivity|]. split; [|reflexivity].
    destruct (a =? 0); cbn [num_val]; [reflexivity|].
    rewrite fl_zero; [reflexivity|exact Hq].
Qed.

Lemma float_delta_same a lb :
  float_delta_in_range a a = true /\ delta_null (float_delta a a lb).
Proof.
  assert (Hd : fl (a - a) = 0%Q) by (apply fl_zero; ring).
  assert (H1 : fl (0 * 100) = 0%Q) by (apply fl_zero; reflexivity).
  assert (H2 : (0 / Qabs a == 0)%Q) by reflexivity.
  split.
  - unfold float_delta_in_range. rewrite Hd, H1.
    rewrite (overflows_zero (a - a)) by ring.
    rewrite (overflows_zero (0 * 100)) by reflexivity.
    rewrite (overflows_zero _ H2). cbn [negb andb]. apply orb_true_r.
  - unfold delta_null, float_delta. cbn zeta. cbn [diff pct indicator num_val].
    rewrite Hd, H1. split; [reflexivity|]. split; [|reflexivity].
    destruct (Qeq_bool a 0); cbn [num_val]; [reflexivity|].
    rewrite fl_zero; [reflexivity|exact H2].
Qed.

Ltac delta_row tac :=
  match goal with
  | |- context [_delta ?x ?y ?l] =>
      first [rewrite (delta_int_row x y l) by tac
            |rewrite (delta_float_row x y l) by tac]
  end; cbn [rbind].

(** C2.  For two snapshots with the types [extract_metrics] gives the
    tracked metrics, and whose percentages are within binary64, the delta
    table is the one of the specification, row by row and in this order:
    total duration, total cost, rework rate, total billable tokens and
    blocking ratio with lower-is-better, tasks completed, completion rate
    and tasks/hour with higher-is-better.  Each row holds
    [diff = b - a], the percentage [diff * 100 / |a|] (the integer 0 when
    [a] is zero) and the marker of [marker_spec]: none for a zero
    difference, improvement when the sign of the difference is the
    favourable one, regression otherwise.  A snapshot compared with itself
    gives a zero difference, a zero percentage and no marker in each of
    the eight rows. *)
Theorem comparison_deltas a b :
  typed_snapshot a = true -> typed_snapshot b = true -> deltas_in_range a b = true ->
  map (fun m => (fst (fst m), snd m)) tracked_metrics = polarity_table /\
  delta_rows a b = Ok (spec_delta_table a b) /\
  delta_analysis [a; b] = Ok (Some (spec_delta_table a b)) /\
  delta_rows a a = Ok (spec_delta_table a a) /\
  List.length (spec_delta_table a a) = 8%nat /\
  Forall (fun row => delta_null (snd row)) (spec_delta_table a a).
Proof.
  intros Ha Hb Hr. split; [reflexivity|].
  unfold typed_snapshot in Ha, Hb. unfold deltas_in_range in Hr.
  repeat (match goal with
          | H : _ && _ = true |- _ => apply andb_prop in H; destruct H
          end).
  assert (Hab : delta_rows a b = Ok (spec_delta_table a b)).
  { unfold delta_rows, tracked_metrics, spec_delta_table. cbn [map sequence].
    repeat delta_row assumption. reflexivity. }
  split; [exact Hab|]. split; [cbn [delta_analysis]; now rewrite Hab|].
  split; [|split; [reflexivity|]].
  - unfold delta_rows, tracked_metrics, spec_delta_table. cbn [map sequence].
    repeat delta_row ltac:(assumption || (apply int_delta_same; exact true)).
    reflexivity.
  - unfold spec_delta_table.
    repeat constructor; cbn [snd]; first [apply int_delta_same|apply float_delta_same].
Qed.

(** A negative duration, [-4000] against [-2000] ms: the percentage is
    taken over [|a|], [+50.0], and the longer run is a regression; the
    cost falls from 10 to 8, [-20.0] per cent, an improvement. *)
Lemma comparison_deltas_witness :
  exists rows,
    delta_rows (snapshot_with "A" 10 (-4000)) (snapshot_with "B" 8 (-2000)) = Ok rows /\
    nth_error rows 0
    = Some ("Total Duration"%string,
            {| diff := PyInt 2000; pct := PyFloat 50; direction := "higher";
               indicator := regression |}) /\
    nth_error rows 1
    = Some ("Total Cost"%string,
            {| diff := PyFloat (-2); pct := PyFloat (-20); direction := "lower";
               indicator := improvement |}) /\
    nth_error rows 2
    = Some ("Tasks Completed"%string,
            {| diff := PyInt 0; pct := PyInt 0; direction := "higher";
               indicator := no_marker |}).
Proof.
  destruct (comparison_deltas (snapshot_with "A" 10 (-4000)) (snapshot_with "B" 8 (-2000)))
    as (_ & Hr & _); [vm_compute; reflexivity..|].
  eexists. split; [exact Hr|]. vm_compute. repeat split.
Defined.

(** ** Exact halves *)

(** Below [2 ^ 52] the binary exponent is below 52. *)
Lemma ilog2_lt_52 q : ~ (q == 0)%Q -> (Qabs q < inject_Z (2 ^ 52))%Q -> ilog2 q <= 51.
Proof.
  intros Hq Hlt. pose proof (ilog2_le q Hq) as He.
  destruct (Z_le_gt_dec (ilog2 q) 51) as [H|H]; [exact H|exfalso].
  assert (H52 : (2 ^ 52 <= 2 ^ ilog2 q)%Q).
  { apply Qpower_le_compat_l; [lia|discriminate]. }
  rewrite <- (Zpower_Qpower 2 52) in H52 by lia.
  change (inject_Z 2) with 2%Q in H52.
  lra.
Qed.

(** Halves of integers below [2 ^ 53] are binary64 numbers. *)
Lemma fl_half_exact n :
  Z.abs n < 2 ^ 53 -> (fl (inject_Z n / inject_Z 2) == inject_Z n / inject_Z 2)%Q.
Proof.
  intros Hn. set (q := (inject_Z n / inject_Z 2)%Q).
  destruct (Z.eq_dec n 0) as [->|Hn0].
  { rewrite fl_zero; reflexivity. }
  assert (Hq : ~ (q == 0)%Q).
  { unfold q. intros H. apply Hn0.
    assert (E : (inject_Z n == 0)%Q).
    { setoid_replace (inject_Z n) with (inject_Z n / inject_Z 2 * 2)%Q by (change (inject_Z 2) with 2%Q; field).
      rewrite H. ring. }
    now apply inject_Z_0. }
  assert (Habs : (Qabs q < inject_Z (2 ^ 52))%Q).
  { unfold q. unfold Qdiv. rewrite Qabs_Qmult.
    change (Qabs (/ inject_Z 2)) with (1 # 2)%Q.
    assert (Qabs (inject_Z n) < inject_Z (2 ^ 53))%Q.
    { unfold inject_Z, Qabs, Qlt. cbn [Qnum Qden]. lia. }
    change (inject_Z (2 ^ 53)) with (2 * inject_Z (2 ^ 52))%Q in H. lra. }
  pose proof (ilog2_lt_52 q Hq Habs) as He.
  unfold fl. rewrite Qeq_bool_false by exact Hq.
  set (s := 52 - Z.max (ilog2 q) emin).
  assert (Hs : 1 <= s) by (unfold s, emin; lia).
  pose proof (pow2_pos s) as Hp.
  assert (E2 : (2 ^ s == 2 * inject_Z (2 ^ (s - 1)))%Q).
  { rewrite (Zpower_Qpower 2 (s - 1)) by lia. change (inject_Z 2) with 2%Q.
    replace s with (1 + (s - 1)) at 1 by lia.
    rewrite Qpower_plus by (intro H; discriminate H). reflexivity. }
  rewrite Qred_correct.
  rewrite (rne_exact _ (n * 2 ^ (s - 1))).
  - unfold q. rewrite inject_Z_mult, E2. change (inject_Z 2) with 2%Q. field.
    intros H0. rewrite E2 in Hp. rewrite H0 in Hp. lra.
  - unfold q. rewrite inject_Z_mult, E2. change (inject_Z 2) with 2%Q. field.
Qed.

(** ** 2. Median task time *)

Lemma insert_asc_perm x l : Permutation (x :: l) (insert_asc x l).
Proof.
  induction l as [|y l IH]; cbn; [reflexivity|].
  destruct (x <=? y); [reflexivity|].
  rewrite perm_swap. now constructor.
Qed.

Lemma order_by_asc_perm l : Permutation l (order_by_asc l).
Proof.
  induction l as [|x l IH]; cbn; [constructor|].
  rewrite <- insert_asc_perm. now constructor.
Qed.

Lemma insert_asc_sorted x l : Sorted Z.le l -> Sorted Z.le (insert_asc x l).
Proof.
  induction l as [|y l IH]; intros Hs; cbn.
  - repeat constructor.
  - destruct (Z.leb_spec x y) as [Hxy|Hxy].
    + constructor; [exact Hs|]. constructor. exact Hxy.
    + inversion Hs as [|? ? Hs' Hhd]; subst. constructor; [apply IH, Hs'|].
      destruct l as [|z l]; cbn.
      * constructor. lia.
      * destruct (x <=? z); constructor; [lia|]. inversion Hhd; subst. assumption.
Qed.

Lemma order_by_asc_sorted l : Sorted Z.le (order_by_asc l).
Proof.
  induction l as [|x l IH]; cbn; [constructor|]. now apply insert_asc_sorted.
Qed.

Lemma positive_time_durations tbl :
  non_null (map positive_time (live tbl)) = positive_durations tbl.
Proof.
  unfold positive_durations. induction (live tbl) as [|t l IH]; cbn; [reflexivity|].
  unfold positive_time at 1. destruct (Db.time_actual_ms t) as [x|]; cbn; [|exact IH].
  destruct (0 <? x); cbn; now rewrite IH.
Qed.

Lemma nat_even_mod n : Nat.even n = (n mod 2 =? 0)%nat.
Proof.
  rewrite <- Nat.bit0_mod.
  destruct (Nat.even n) eqn:E.
  - rewrite Nat.bit0_odd. rewrite <- Nat.negb_even, E. reflexivity.
  - rewrite Nat.bit0_odd. rewrite <- Nat.negb_even, E. reflexivity.
Qed.

(** The median is the midpoint of the specification; the quotient of an
    even length raises [OverflowError] when the two central durations add
    up beyond the binary64 range. *)
Lemma median_task_time_cases s :
  median_task_time s = Ok (median_value s) \/ median_task_time s = Raise OverflowError.
Proof.
  unfold median_task_time, median_value. destruct s as [|x s]; [now left|].
  rewrite nat_even_mod. destruct (_ mod 2 =? 0)%nat; [|now left].
  cbn [py_add rbind py_truediv]. cbn [Z.eqb].
  destruct (overflows _); [now right|now left].
Qed.

Lemma median_task_time_value s m : median_task_time s = Ok m -> m = median_value s.
Proof.
  destruct (median_task_time_cases s) as [-> | ->]; [now intros [= <-]|discriminate].
Qed.

Lemma time_metrics_median E conn seq tm :
  time_metrics E conn seq = Ok tm ->
  exists tbl, Db.tasks_tbl conn = Some tbl /\
              median_task_time_ms tm = median_value (order_by_asc (positive_durations tbl)).
Proof.
  unfold time_metrics, from_tasks. intros H.
  destruct (Db.tasks_tbl conn) as [tbl|]; [|discriminate]. cbn [rbind] in H.
  exists tbl. split; [reflexivity|].
  inv_bind H. rewrite positive_time_durations in E2.
  apply median_task_time_value in E2.
  destruct a2 as [[[? ?] ?] ?]. cbn beta iota in H. inversion H; subst. cbn.
  reflexivity.
Qed.

Lemma median_value_odd s k :
  List.length s = (2 * k + 1)%nat -> median_value s = PyInt (nth k s 0).
Proof.
  intros H. unfold median_value. destruct s as [|x s]; [cbn in H; lia|].
  rewrite H. replace (Nat.even (2 * k + 1)) with false.
  - replace ((2 * k + 1) / 2)%nat with k; [reflexivity|].
    symmetry. rewrite Nat.add_comm, Nat.mul_comm. rewrite Nat.div_add by lia. reflexivity.
  - symmetry. rewrite Nat.add_1_r. rewrite Nat.even_succ, <- Nat.negb_even.
    rewrite Nat.even_mul. reflexivity.
Qed.

Lemma median_value_even s k :
  List.length s = (2 * k + 2)%nat ->
  median_value s
  = PyFloat (fl (inject_Z (nth k s 0 + nth (S k) s 0) / inject_Z 2)).
Proof.
  intros H. unfold median_value. destruct s as [|x s]; [cbn in H; lia|].
  rewrite H. replace (Nat.even (2 * k + 2)) with true.
  - replace ((2 * k + 2) / 2)%nat with (S k).
    + replace (S k - 1)%nat with k by lia. reflexivity.
    + symmetry. replace (2 * k + 2)%nat with (0 + (S k) * 2)%nat by lia.
      rewrite Nat.div_add by lia. reflexivity.
  - symmetry. replace (2 * k + 2)%nat with (2 * (S k))%nat by lia.
    rewrite Nat.even_mul. reflexivity.
Qed.

(** C4.  In every snapshot [extract_metrics] returns, the median task time
    is taken from the sorted list of the strictly positive actual durations
    of the non-deleted tasks: [0.0] when there is none, the middle element
    for an odd length, and for an even length the binary64 quotient of the
    sum of the two central elements by 2, which is their exact average when
    the sum is below [2 ^ 53].  [10, 20, 30] gives 20 and
    [10, 20, 30, 40] gives 25.0. *)
Theorem median_of_positive_durations E p l s r s' :
  extract_metrics E p l s = (Ok r, s') ->
  exists conn tbl sorted,
    fs E p = Some conn /\ Db.tasks_tbl conn = Some tbl /\
    Permutation (positive_durations tbl) sorted /\ Sorted Z.le sorted /\
    let m := median_task_time_ms (time r) in
    (sorted = [] -> m = PyFloat 0) /\
    (forall k, List.length sorted = (2 * k + 1)%nat -> m = PyInt (nth k sorted 0)) /\
    (forall k, List.length sorted = (2 * k + 2)%nat ->
       let a := nth k sorted 0 in
       let b := nth (S k) sorted 0 in
       m = PyFloat (fl (inject_Z (a + b) / inject_Z 2)) /\
       (Z.abs (a + b) < 2 ^ 53 -> (num_val m == inject_Z (a + b) / inject_Z 2)%Q)) /\
    (sorted = [10; 20; 30] -> m = PyInt 20) /\
    (sorted = [10; 20; 30; 40] -> m = PyFloat 25).
Proof.
  intros H.
  apply extract_metrics_inv in H. destruct H as (conn & Hfs & Hb & _).
  apply extract_body_inv in Hb. destruct Hb as (_ & Htm & _).
  apply time_metrics_median in Htm. destruct Htm as (tbl & Ht & Hm).
  exists conn, tbl, (order_by_asc (positive_durations tbl)).
  split; [exact Hfs|]. split; [exact Ht|].
  split; [apply order_by_asc_perm|]. split; [apply order_by_asc_sorted|].
  cbn zeta. rewrite Hm. clear Hm.
  set (sorted := order_by_asc (positive_durations tbl)).
  split; [intros ->; reflexivity|].
  split; [intros k Hk; now apply median_value_odd|].
  split.
  - intros k Hk. rewrite (median_value_even sorted k Hk). split; [reflexivity|].
    intros Hsmall. cbn [num_val]. now apply fl_half_exact.
  - split; intros ->; vm_compute; reflexivity.
Qed.

Lemma median_of_positive_durations_witness :
  exists r,
    extract_metrics (env_of [("odd.db"%string, store_odd)]) "odd.db" "odd" []
    = (Ok r, [Connect "odd.db"; Close "odd.db"]) /\
    median_task_time_ms (time r) = PyInt 20.
Proof.
  eexists. split; [vm_compute; reflexivity|].
  match goal with
  | |- median_task_time_ms (time ?r) = _ =>
      destruct (median_of_positive_durations (env_of [("odd.db"%string, store_odd)])
                  "odd.db" "odd" [] r [Connect "odd.db"; Close "odd.db"]
                  ltac:(vm_compute; reflexivity))
        as (conn & tbl & sorted & _ & _ & _ & _ & _ & H & _)
  end.
  vm_compute. reflexivity.
Defined.

(** ** 5. Quality *)

Lemma mean_1dp_safe_div S n q r :
  _safe_div (PyInt S) (PyInt n) default_0 = Ok q -> py_round q 1 = Ok r ->
  r = mean_1dp S n.
Proof. apply round_safe_div_int. Qed.

Lemma round_float_num q n : ok_or_overflow is_num q -> 
  ok_or_overflow is_num (v <- q ;; py_round v n)%result.
Proof.
  intros H. eapply ok_or_overflow_bind; [exact H|]. intros a Ha. left.
  destruct a; [contradiction|..]; eexists; (split; [reflexivity|exact I]).
Qed.

(** The quality figures are those of the specification; the mean number
    of cycles can raise [OverflowError], the two rates cannot. *)
Lemma quality_of_cases periods :
  quality_of periods = Ok (quality_spec periods) \/
  quality_of periods = Raise OverflowError.
Proof.
  unfold quality_of, quality_spec. cbn [py_mul py_sub rbind].
  set (N := Z.of_nat (List.length periods)).
  set (cycles := filter (fun p => 1 <? p) periods).
  set (R := Z.of_nat (List.length cycles)).
  assert (HR : 0 <= R <= N).
  { unfold R, N, cycles. pose proof (filter_length_le (fun p => 1 <? p) periods). lia. }
  pose proof (rate_pct_safe_div R N HR) as H1.
  pose proof (rate_pct_safe_div (N - R) N ltac:(lia)) as H3.
  pose proof (round_safe_div_int (fold_left Z.add cycles 0) R 1) as H2.
  fold (mean_1dp (fold_left Z.add cycles 0) R) in H2.
  unfold rbind in *.
  destruct (_safe_div (PyInt (R * 100)) (PyInt N) default_0); [|discriminate].
  rewrite H1.
  destruct (safe_div_num (PyInt (fold_left Z.add cycles 0)) (PyInt R) default_0 I I)
    as [(q & Eq & Nq)|Eq]; rewrite Eq; [|now right].
  destruct (py_round_num q 1 Nq) as (r & Er & _). rewrite Er.
  rewrite (H2 q r Eq Er).
  destruct (_safe_div (PyInt ((N - R) * 100)) (PyInt N) default_0); [|discriminate].
  rewrite H3. now left.
Qed.

Lemma quality_of_spec periods qm : quality_of periods = Ok qm -> qm = quality_spec periods.
Proof.
  destruct (quality_of_cases periods) as [-> | ->]; [now intros [= <-]|discriminate].
Qed.

Lemma quality_metrics_inv conn seq qm :
  quality_metrics conn (Some seq) = Ok qm ->
  exists status_col wrows,
    status_column conn seq = Ok status_col /\
    select_intervals conn seq status_col ["working"%string] = Ok wrows /\
    qm = quality_spec (working_periods wrows).
Proof.
  unfold quality_metrics. intros H. inv_bind H.
  apply quality_of_spec in H. eauto.
Qed.

(** The keys of [GROUP BY]: every key of the rows, each once. *)
Lemma distinct_In ks k : In k (distinct ks) <-> In k ks.
Proof.
  induction ks as [|x ks IH]; cbn; [tauto|].
  rewrite filter_In, IH. destruct (String.eqb_spec k x) as [->|Hne]; cbn.
  - tauto.
  - split; [tauto|]. intros [->|H]; [contradiction|auto].
Qed.

Lemma distinct_NoDup ks : NoDup (distinct ks).
Proof.
  induction ks as [|x ks IH]; cbn; constructor.
  - rewrite filter_In. intros [_ H]. now rewrite String.eqb_refl in H.
  - now apply NoDup_filter.
Qed.

(** One entry per task that has a working interval: the number of its
    working intervals. *)
Lemma working_periods_spec wrows :
  working_periods wrows
  = map (fun k => count_if (fun r => String.eqb (Db.task_id r) k) wrows)
        (distinct (map Db.task_id wrows)).
Proof.
  unfold working_periods, group_by. rewrite map_map. reflexivity.
Qed.

Lemma working_periods_nonempty wrows :
  wrows <> [] -> 0 < Z.of_nat (List.length (working_periods wrows)).
Proof.
  intros H. destruct wrows as [|r rs]; [congruence|].
  unfold working_periods, group_by. cbn. lia.
Qed.

Lemma tenths_near k :
  0 <= k <= 1001 ->
  (Qabs (num_val (tenths k) - inject_Z k / inject_Z 10) <= 1 # 1000000)%Q.
Proof.
  intros Hk. unfold tenths. cbn [num_val].
  set (y := (inject_Z k / inject_Z 10)%Q).
  assert (Hy : (0 <= y <= 1001 # 10)%Q).
  { unfold y. change (inject_Z 10) with 10%Q. split.
    - apply Qle_shift_div_l; [lra|]. rewrite Qmult_0_l.
      change 0%Q with (inject_Z 0). rewrite <- Zle_Qle. lia.
    - apply Qle_shift_div_r; [lra|].
      setoid_replace ((1001 # 10) * 10)%Q with (inject_Z 1001) by reflexivity.
      rewrite <- Zle_Qle. lia. }
  pose proof (fl_err y) as H. rewrite (Qabs_pos y) in H by lra.
  assert (T1 : (1 # 2 ^ 53 <= 1 # 1000000000)%Q) by (vm_compute; discriminate).
  assert (T2 : (1 # 2 ^ 1075 <= 1 # 1000000000)%Q) by (vm_compute; discriminate).
  assert (T3 : (y * (1 # 2 ^ 53) <= y * (1 # 1000000000))%Q).
  { rewrite !(Qmult_comm y). apply Qmult_le_compat_r; [assumption|lra]. }
  eapply Qle_trans; [exact H|]. lra.
Qed.

(** C5.  In every snapshot built from a sequence table, with [N] the number
    of tasks that have a working interval and [R] the number of those with
    more than one: the rework rate is [round(R * 100 / N, 1)] and the
    first-pass success [round((N - R) * 100 / N, 1)].  When some task has a
    working interval, the two are the doubles nearest to [kr / 10] and
    [kf / 10] with [999 <= kr + kf <= 1001], so their sum is 100 within the
    two roundings to one decimal. *)
Theorem rework_and_first_pass_complementary E p l s r s' :
  extract_metrics E p l s = (Ok r, s') ->
  exists conn,
    fs E p = Some conn /\
    forall seq, _get_sequence_table conn = Some seq ->
    exists status_col wrows,
      status_column conn seq = Ok status_col /\
      select_intervals conn seq status_col ["working"%string] = Ok wrows /\
      let periods := working_periods wrows in
      let tasks_with_work := Z.of_nat (List.length periods) in
      let reworked := Z.of_nat (List.length (filter (fun n => 1 <? n) periods)) in
      rework_count (quality r) = PyInt reworked /\
      rework_rate_pct (quality r) = rate_pct reworked tasks_with_work /\
      first_pass_success_pct (quality r)
      = rate_pct (tasks_with_work - reworked) tasks_with_work /\
      (wrows <> [] ->
         0 <= reworked <= tasks_with_work /\ 0 < tasks_with_work /\
         let kr := pct_steps reworked tasks_with_work in
         let kf := pct_steps (tasks_with_work - reworked) tasks_with_work in
         rework_rate_pct (quality r) = tenths kr /\
         first_pass_success_pct (quality r) = tenths kf /\
         999 <= kr + kf <= 1001 /\
         (Qabs (num_val (rework_rate_pct (quality r))
                + num_val (first_pass_success_pct (quality r)) - 100)
          <= (1 # 10) + (1 # 100000))%Q).
Proof.
  intros H.
  apply extract_metrics_inv in H. destruct H as (conn & Hfs & Hb & _).
  apply extract_body_inv in Hb. destruct Hb as (_ & _ & _ & _ & Hq & _).
  exists conn. split; [exact Hfs|]. intros seq Hseq. rewrite Hseq in Hq.
  apply quality_metrics_inv in Hq. destruct Hq as (col & wrows & Hc & Hw & ->).
  exists col, wrows. split; [exact Hc|]. split; [exact Hw|].
  cbn zeta. unfold quality_spec.
  cbn [rework_count rework_rate_pct first_pass_success_pct].
  set (periods := working_periods wrows).
  set (N := Z.of_nat (List.length periods)).
  set (R := Z.of_nat (List.length (filter (fun n => 1 <? n) periods))).
  split; [reflexivity|]. split; [reflexivity|]. split; [reflexivity|].
  intros Hne.
  assert (HN : 0 < N) by (apply working_periods_nonempty; exact Hne).
  assert (HR : 0 <= R <= N).
  { unfold R, N. split; [lia|]. apply inj_le, filter_length_le. }
  pose proof (pct_steps_complement R N HR HN) as Hsum.
  pose proof (pct_steps_range R N HR HN) as Hr1.
  pose proof (pct_steps_range (N - R) N ltac:(lia) HN) as Hr2.
  split; [exact HR|]. split; [exact HN|].
  rewrite !rate_pct_tenths by lia.
  split; [reflexivity|]. split; [reflexivity|]. split; [exact Hsum|].
  pose proof (tenths_near (pct_steps R N) ltac:(lia)) as T1.
  pose proof (tenths_near (pct_steps (N - R) N) ltac:(lia)) as T2.
  apply Qabs_le_split in T1. apply Qabs_le_split in T2.
  set (kr := pct_steps R N) in *. set (kf := pct_steps (N - R) N) in *.
  assert (Hk : (999 <= inject_Z kr + inject_Z kf <= 1001)%Q).
  { rewrite <- inject_Z_plus. change 999%Q with (inject_Z 999).
    change 1001%Q with (inject_Z 1001). rewrite <- !Zle_Qle. exact Hsum. }
  change (inject_Z 10) with 10%Q in *.
  assert (Er : (inject_Z kr / 10 == inject_Z kr * (1 # 10))%Q) by (field).
  assert (Ef : (inject_Z kf / 10 == inject_Z kf * (1 # 10))%Q) by (field).
  rewrite Er in T1. rewrite Ef in T2.
  apply Qabs_Qle_condition. split; lra.
Qed.

Lemma rework_and_first_pass_complementary_witness :
  exists r,
    extract_metrics (env_of [("rework.db"%string, store_rework)]) "rework.db" "rework" []
    = (Ok r, [Connect "rework.db"; Close "rework.db"]) /\
    rework_count (quality r) = PyInt 2 /\
    rework_rate_pct (quality r) = tenths 667 /\
    first_pass_success_pct (quality r) = tenths 333.
Proof.
  eexists. split; [vm_compute; reflexivity|].
  match goal with
  | |- rework_count (quality ?r) = _ /\ _ =>
      destruct (rework_and_first_pass_complementary
                  (env_of [("rework.db"%string, store_rework)])
                  "rework.db" "rework" [] r [Connect "rework.db"; Close "rework.db"]
                  ltac:(vm_compute; reflexivity))
        as (conn & Hfs & H)
  end.
  vm_compute in Hfs. injection Hfs as <-.
  destruct (H "task_sequence"%string eq_refl) as (col & wrows & Hc & Hw & H1 & H2 & H3 & _).
  vm_compute in Hc. injection Hc as <-.
  vm_compute in Hw. injection Hw as <-.
  repeat split; vm_compute; reflexivity.
Defined.

Lemma fold_left_add_acc l a : fold_left Z.add l a = a + fold_left Z.add l 0.
Proof.
  revert a. induction l as [|x l IH]; intros a; cbn; [lia|].
  rewrite (IH (a + x)), (IH x). lia.
Qed.

Lemma sum_at_least_twice l :
  Forall (fun n => 2 <= n) l -> 2 * Z.of_nat (List.length l) <= fold_left Z.add l 0.
Proof.
  induction 1 as [|x l Hx _ IH]; cbn [fold_left List.length]; [lia|].
  rewrite fold_left_add_acc. lia.
Qed.

(** C10.  In every snapshot built from a sequence table,
    [avg_rework_cycles] is the mean, rounded to one decimal, of the
    working-interval counts of the reworked tasks, each at least 2: it is
    [0.0] when [rework_count] is 0 and at least 2 when [rework_count] is
    positive. *)
Theorem avg_rework_cycles_bounds E p l s r s' :
  extract_metrics E p l s = (Ok r, s') ->
  exists conn,
    fs E p = Some conn /\
    forall seq, _get_sequence_table conn = Some seq ->
    exists status_col wrows,
      status_column conn seq = Ok status_col /\
      select_intervals conn seq status_col ["working"%string] = Ok wrows /\
      let rework_cycles := filter (fun n => 1 <? n) (working_periods wrows) in
      let reworked := Z.of_nat (List.length rework_cycles) in
      rework_count (quality r) = PyInt reworked /\
      Forall (fun n => 2 <= n) rework_cycles /\
      avg_rework_cycles (quality r) = mean_1dp (fold_left Z.add rework_cycles 0) reworked /\
      (reworked = 0 -> avg_rework_cycles (quality r) = PyFloat 0) /\
      (0 < reworked -> (2 <= num_val (avg_rework_cycles (quality r)))%Q).
Proof.
  intros H.
  apply extract_metrics_inv in H. destruct H as (conn & Hfs & Hb & _).
  apply extract_body_inv in Hb. destruct Hb as (_ & _ & _ & _ & Hq & _).
  exists conn. split; [exact Hfs|]. intros seq Hseq. rewrite Hseq in Hq.
  apply quality_metrics_inv in Hq. destruct Hq as (col & wrows & Hc & Hw & ->).
  exists col, wrows. split; [exact Hc|]. split; [exact Hw|].
  cbn zeta. unfold quality_spec. cbn [rework_count avg_rework_cycles].
  set (cycles := filter (fun n => 1 <? n) (working_periods wrows)).
  assert (Hall : Forall (fun n => 2 <= n) cycles).
  { apply Forall_forall. intros n Hn. apply filter_In in Hn. destruct Hn as [_ Hn].
    apply Z.ltb_lt in Hn. lia. }
  split; [reflexivity|]. split; [exact Hall|]. split; [reflexivity|].
  split.
  - intros ->. reflexivity.
  - intros Hpos. unfold mean_1dp.
    destruct (Z.eqb_spec (Z.of_nat (List.length cycles)) 0) as [E0|_]; [lia|].
    cbn [num_val]. apply round_mean_ge_2; [exact Hpos|].
    now apply sum_at_least_twice.
Qed.

Lemma avg_rework_cycles_bounds_witness :
  exists r,
    extract_metrics (env_of [("rework.db"%string, store_rework)]) "rework.db" "rework" []
    = (Ok r, [Connect "rework.db"; Close "rework.db"]) /\
    rework_count (quality r) = PyInt 2 /\
    avg_rework_cycles (quality r) = tenths 25 /\
    (2 <= num_val (avg_rework_cycles (quality r)))%Q.
Proof.
  eexists. split; [vm_compute; reflexivity|].
  match goal with
  | |- rework_count (quality ?r) = _ /\ _ =>
      destruct (avg_rework_cycles_bounds
                  (env_of [("rework.db"%string, store_rework)])
                  "rework.db" "rework" [] r [Connect "rework.db"; Close "rework.db"]
                  ltac:(vm_compute; reflexivity))
        as (conn & Hfs & H)
  end.
  vm_compute in Hfs. injection Hfs as <-.
  destruct (H "task_sequence"%string eq_refl) as (col & wrows & Hc & Hw & H1 & _ & _ & _ & H5).
  vm_compute in Hc. injection Hc as <-.
  vm_compute in Hw. injection Hw as <-.
  split; [vm_compute; reflexivity|]. split; [vm_compute; reflexivity|].
  apply H5. vm_compute. reflexivity.
Defined.

(** ** Extraction on a readable store with a live task *)

(** On such a store every query runs and every operand is a number: the
    extraction returns a snapshot, unless an integer is too large for the
    float a quotient needs. *)

Ltac use_ok H :=
  let v := fresh "v" in
  let E := fresh "E" in
  let N := fresh "N" in
  destruct H as (v & E & N); rewrite E; cbn [rbind].

Ltac use_oo H :=
  let v := fresh "v" in
  let E := fresh "E" in
  let N := fresh "N" in
  destruct H as [(v & E & N)|E]; rewrite E; cbn [rbind]; [|right; reflexivity].

Lemma py_or_num a b : is_num b -> is_num (py_or a b).
Proof.
  intros Hb. unfold py_or. destruct (truthy a) eqn:E; [|exact Hb].
  now apply truthy_num in E.
Qed.

Lemma round_safe_div_ok x y n :
  is_num x -> ok_or_overflow is_num (q <- _safe_div x y default_0 ;; py_round q n)%result.
Proof.
  intros Hx. use_oo (safe_div_num x y default_0 Hx I).
  left. now apply py_round_num.
Qed.

Lemma select_intervals_readable conn seq labels :
  _get_sequence_table conn = Some seq -> seq_readable conn = true ->
  exists col tbl,
    status_column conn seq = Ok col /\
    select_intervals conn seq col labels = Ok (where_label col labels (Db.seq_rows tbl)) /\
    reads_columns conn seq ["end_timestamp"; "timestamp"]%string = Ok tt /\
    reads_columns conn seq ["task_id"]%string = Ok tt.
Proof.
  unfold seq_readable, status_column, select_intervals, reads_columns. intros -> H.
  destruct (from_seq conn seq) as [tbl|]; [|discriminate]. cbn [rbind].
  eexists _, tbl. split; [reflexivity|].
  cbn [forallb] in H |- *.
  repeat (match type of H with
          | _ && _ = true => let H' := fresh "H" in apply andb_prop in H; destruct H as [H' H]
          end).
  rewrite H0, H1, H2, H3. repeat split; reflexivity.
Qed.

Lemma interval_times_ok E conn tbl :
  Db.tasks_tbl conn = Some tbl -> seq_readable conn = true ->
  ok_or_overflow
    (fun iv => _get_sequence_table conn = None -> iv = (int_0, int_0, float_0, float_0))
    (interval_times E conn (_get_sequence_table conn)).
Proof.
  intros Ht Hr. unfold interval_times.
  destruct (_get_sequence_table conn) as [seq|] eqn:Hs.
  - destruct (select_intervals_readable conn seq ["working"%string] Hs Hr)
      as (col & st & Hc & Hw & He & _).
    destruct (select_intervals_readable conn seq ["pending"%string; "assigned"%string] Hs Hr)
      as (col' & st' & Hc' & Hb & _).
    rewrite Hc in Hc'. injection Hc' as <-.
    rewrite Hc. cbn [rbind]. rewrite He. cbn [rbind]. rewrite Hw. cbn [rbind].
    rewrite Hb. cbn [rbind py_add py_mul].
    match goal with
    | |- context [_safe_div ?x ?y default_0] =>
        use_oo (safe_div_num x y default_0 I I)
    end.
    use_ok (py_round_num v 1 N).
    unfold from_tasks. rewrite Ht. cbn [rbind].
    match goal with
    | |- context [py_round ?x 1] =>
        destruct (py_round_num x 1) as (v' & Ev' & Nv'); [apply py_or_num; exact I|]
    end.
    rewrite Ev'. left. eexists. split; [reflexivity|discriminate].
  - left. eexists. split; [reflexivity|reflexivity].
Qed.

Lemma time_metrics_ok E conn tbl :
  Db.tasks_tbl conn = Some tbl -> seq_readable conn = true ->
  ok_or_overflow
    (fun tm => is_num (total_duration_ms tm) /\
               (_get_sequence_table conn = None ->
                  total_working_ms tm = int_0 /\ total_blocked_ms tm = int_0 /\
                  blocking_ratio_pct tm = float_0 /\ avg_queue_wait_ms tm = float_0))
    (time_metrics E conn (_get_sequence_table conn)).
Proof.
  intros Ht Hr. unfold time_metrics, from_tasks. rewrite Ht. cbn [rbind].
  set (first := cell_int (sql_min (map Db.created_at (live tbl)))).
  set (last := cell_int (sql_max (map Db.completed_at (live tbl)))).
  assert (Hd : ok_or_overflow is_num
                 (if truthy first && truthy last then py_sub last first else Ok int_0)).
  { destruct (truthy first) eqn:E1, (truthy last) eqn:E2; cbn [andb];
      try (left; exists int_0; split; [reflexivity|exact I]).
    apply truthy_num in E1, E2. apply py_sub_num; tauto. }
  use_oo Hd.
  match goal with
  | |- context [py_round ?x 1] =>
      destruct (py_round_num x 1) as (v' & Ev' & Nv'); [apply py_or_num; exact I|]
  end.
  rewrite Ev'. cbn [rbind].
  destruct (median_task_time_cases
              (order_by_asc (non_null (map positive_time (live tbl))))) as [Em|Em];
    rewrite Em; cbn [rbind]; [|right; reflexivity].
  destruct (interval_times_ok E conn tbl Ht Hr) as [(iv & Ei & Hi)|Ei];
    rewrite Ei; cbn [rbind]; [|right; reflexivity].
  destruct iv as [[[w b] br] qw].
  left. eexists. split; [reflexivity|]. cbn. split; [exact N|].
  intros Hn. specialize (Hi Hn). inversion Hi. auto.
Qed.

Lemma bind_round_safe_div {B} x y n (k : pyval -> result B) (P : B -> Prop) :
  is_num x ->
  (forall v, is_num v -> ok_or_overflow P (k v)) ->
  ok_or_overflow P (q <- _safe_div x y default_0 ;; r <- py_round q n ;; k r)%result.
Proof.
  intros Hx Hk. use_oo (safe_div_num x y default_0 Hx I).
  use_ok (py_round_num v n N). now apply Hk.
Qed.

Lemma token_metrics_ok conn tbl :
  Db.tasks_tbl conn = Some tbl -> ok_or_overflow (fun _ => True) (token_metrics conn).
Proof.
  intros Ht.
  unfold token_metrics, from_tasks. rewrite Ht. cbn [rbind py_add py_mul].
  apply bind_round_safe_div; [exact I|intros v1 N1].
  apply bind_round_safe_div; [exact I|intros v2 N2].
  apply bind_round_safe_div; [exact I|intros v3 N3].
  left. eauto.
Qed.

Lemma cost_metrics_ok E conn tbl :
  Db.tasks_tbl conn = Some tbl -> live tbl <> [] ->
  ok_or_overflow (fun _ => True) (cost_metrics E conn).
Proof.
  intros Ht Hl.
  unfold cost_metrics, from_tasks. rewrite Ht. cbn [rbind py_round].
  rewrite (sum_case_count _ _ Hl). cbn [cell_int].
  apply bind_round_safe_div; [exact I|intros v1 N1].
  apply bind_round_safe_div; [exact I|intros v2 N2].
  apply bind_round_safe_div; [exact I|intros v3 N3].
  left. eauto.
Qed.

Lemma quality_metrics_ok conn :
  seq_readable conn = true ->
  ok_or_overflow (fun qm => _get_sequence_table conn = None -> qm = QualityMetrics_default)
                 (quality_metrics conn (_get_sequence_table conn)).
Proof.
  intros Hr. unfold quality_metrics.
  destruct (_get_sequence_table conn) as [seq|] eqn:Hs.
  - destruct (select_intervals_readable conn seq ["working"%string] Hs Hr)
      as (col & st & Hc & Hw & _ & Hi).
    rewrite Hc. cbn [rbind]. rewrite Hi. cbn [rbind]. rewrite Hw. cbn [rbind].
    destruct (quality_of_cases (working_periods (where_label col ["working"%string]
                                                   (Db.seq_rows st)))) as [-> | ->];
      [left|right; reflexivity].
    eexists. split; [reflexivity|discriminate].
  - left. eexists. split; reflexivity.
Qed.

Lemma throughput_metrics_ok tm td :
  is_num (total_duration_ms tm) -> is_num (completed td) -> is_num (completed_points td) ->
  ok_or_overflow (fun dt => is_num (fst dt)) (throughput_metrics tm td).
Proof.
  intros H1 H2 H3. unfold throughput_metrics.
  use_oo (safe_div_num (total_duration_ms tm) (PyInt 3600000) default_0 H1 I).
  apply (bind_round_safe_div (completed td) v 2 _ (fun dt => is_num (fst dt)));
    [exact H2|intros v1 N1].
  apply (bind_round_safe_div (completed_points td) v 2 _ (fun dt => is_num (fst dt)));
    [exact H3|intros v2 N2].
  left. eexists. split; [reflexivity|exact N].
Qed.

Lemma per_agent_throughput_ok td dh n tp :
  is_num (completed td) -> is_num dh ->
  ok_or_overflow (fun _ => True) (per_agent_throughput td dh (PyInt n) tp).
Proof.
  intros H1 H2. unfold per_agent_throughput.
  destruct (py_lt_num (PyInt 0) (PyInt n) I I) as (c & Ec). unfold py_gt. rewrite Ec.
  cbn [rbind]. destruct c.
  - destruct (py_lt_num (PyInt 0) dh I H2) as (c' & Ec'). rewrite Ec'. cbn [rbind].
    destruct c'; cbn [andb]; [|left; eauto].
    use_oo (py_mul_num dh (PyInt n) H2 I).
    use_oo (safe_div_num (completed td) v default_0 H1 I).
    use_ok (py_round_num v0 2 N0). left. eauto.
  - cbn [rbind andb]. left. eauto.
Qed.

Lemma sequence_ok {A} (l : list (result A)) :
  Forall (fun x => exists a, x = Ok a) l -> exists r, sequence l = Ok r.
Proof.
  induction 1 as [|x l (a & ->) _ (r & IH)]; cbn; [eauto|].
  rewrite IH. cbn. eauto.
Qed.

Lemma insert_desc_In {A} (key : A -> Q) x y l :
  In y (insert_desc key x l) -> y = x \/ In y l.
Proof.
  induction l as [|z l IH]; cbn; [intuition auto|].
  destruct (Qle_bool (key z) (key x)); cbn; [intuition auto|].
  intros [->|H]; [tauto|]. apply IH in H. tauto.
Qed.

Lemma order_by_desc_In {A} (key : A -> Q) y l : In y (order_by_desc key l) -> In y l.
Proof.
  induction l as [|x l IH]; cbn; [tauto|].
  intros H. apply insert_desc_In in H. destruct H as [->|H]; auto.
Qed.

Lemma agent_stats_ok E conn tbl :
  Db.tasks_tbl conn = Some tbl -> exists ag, agent_stats E conn = Ok ag.
Proof.
  intros Ht. unfold agent_stats, from_tasks. rewrite Ht. cbn [rbind].
  apply sequence_ok. apply Forall_forall. intros x Hx.
  apply in_map_iff in Hx. destruct Hx as (y & <- & Hy).
  apply order_by_desc_In in Hy. apply in_map_iff in Hy. destruct Hy as (g & <- & _).
  unfold agent_row. cbn. eauto.
Qed.

Lemma distribution_of_num rows :
  is_num (completed (distribution_of rows)) /\ is_num (completed_points (distribution_of rows)).
Proof. split; exact I. Qed.

Lemma extract_body_ok E conn tbl l p :
  Db.tasks_tbl conn = Some tbl -> live tbl <> [] -> seq_readable conn = true ->
  ok_or_overflow
    (fun r => tasks r = distribution_of (live tbl) /\
              (_get_sequence_table conn = None ->
                 quality r = QualityMetrics_default /\
                 total_working_ms (time r) = int_0 /\ total_blocked_ms (time r) = int_0 /\
                 blocking_ratio_pct (time r) = float_0 /\ avg_queue_wait_ms (time r) = float_0))
    (extract_body E conn l p).
Proof.
  intros Ht Hl Hr. unfold extract_body.
  rewrite (task_distribution_live conn tbl Ht Hl). cbn [rbind].
  destruct (time_metrics_ok E conn tbl Ht Hr) as [(tm & Etm & Ntm & Htm)|Etm];
    rewrite Etm; cbn [rbind]; [|right; reflexivity].
  destruct (token_metrics_ok conn tbl Ht) as [(tk & Etk & _)|Etk];
    rewrite Etk; cbn [rbind]; [|right; reflexivity].
  destruct (cost_metrics_ok E conn tbl Ht Hl) as [(cm & Ecm & _)|Ecm];
    rewrite Ecm; cbn [rbind]; [|right; reflexivity].
  destruct (quality_metrics_ok conn Hr) as [(qm & Eqm & Hqm)|Eqm];
    rewrite Eqm; cbn [rbind]; [|right; reflexivity].
  destruct (throughput_metrics_ok tm (distribution_of (live tbl)) Ntm I I)
    as [(dt & Edt & Ndt)|Edt]; rewrite Edt; cbn [rbind]; [|right; reflexivity].
  destruct (agent_stats_ok E conn tbl Ht) as (ag & Eag). rewrite Eag. cbn [rbind].
  destruct (per_agent_throughput_ok (distribution_of (live tbl)) (fst dt)
              (Z.of_nat (List.length ag)) (snd dt) I Ndt) as [(tp & Etp & _)|Etp];
    rewrite Etp; cbn [rbind]; [|right; reflexivity].
  left. eexists. split; [reflexivity|]. cbn. split; [reflexivity|].
  intros Hn. split; [now apply Hqm|now apply Htm].
Qed.

(** A readable store with at least one non-deleted task yields a snapshot,
    through one connection that is opened and closed; the one exception
    left is the [OverflowError] of an integer beyond the binary64 range,
    which leaves the connection open. *)
Lemma extract_metrics_succeeds E p l s conn tbl :
  fs E p = Some conn -> Db.tasks_tbl conn = Some tbl -> live tbl <> [] ->
  seq_readable conn = true ->
  (exists r, extract_metrics E p l s = (Ok r, s ++ [Connect p; Close p]) /\
             tasks r = distribution_of (live tbl) /\
             (_get_sequence_table conn = None ->
                quality r = QualityMetrics_default /\
                total_working_ms (time r) = int_0 /\ total_blocked_ms (time r) = int_0 /\
                blocking_ratio_pct (time r) = float_0 /\ avg_queue_wait_ms (time r) = float_0))
  \/ extract_metrics E p l s = (Raise OverflowError, s ++ [Connect p]).
Proof.
  intros Hfs Ht Hl Hr. rewrite (extract_metrics_present E p l s conn Hfs).
  destruct (extract_body_ok E conn tbl l p Ht Hl Hr) as [(r & Er & H)|Er]; rewrite Er.
  - left. eauto.
  - right. reflexivity.
Qed.

(** Without a non-deleted task the status counts are [None] and their sum
    raises. *)
Lemma extract_metrics_no_live_task E p l s conn tbl :
  fs E p = Some conn -> Db.tasks_tbl conn = Some tbl -> live tbl = [] ->
  extract_metrics E p l s = (Raise TypeError, s ++ [Connect p]).
Proof.
  intros Hfs Ht Hl. rewrite (extract_metrics_present E p l s conn Hfs).
  unfold extract_body. rewrite (task_distribution_empty conn tbl Ht Hl). reflexivity.
Qed.

(** ** The types of the tracked metrics of a returned snapshot *)

Lemma py_truediv_returns_float a b q : py_truediv a b = Ok q -> is_float q = true.
Proof.
  destruct a as [|x|x], b as [|y|y]; cbn; try discriminate.
  - destruct (y =? 0); [discriminate|]. destruct (overflows _); [discriminate|].
    now intros [= <-].
  - destruct (overflows _); cbn; [discriminate|].
    destruct (Qeq_bool y 0); [discriminate|]. now intros [= <-].
  - destruct (overflows _); cbn; [discriminate|].
    destruct (Qeq_bool _ 0); [discriminate|]. now intros [= <-].
  - destruct (Qeq_bool y 0); [discriminate|]. now intros [= <-].
Qed.

Lemma safe_div_returns_float x y q : _safe_div x y default_0 = Ok q -> is_float q = true.
Proof.
  unfold _safe_div. destruct (truthy y); [apply py_truediv_returns_float|].
  now intros [= <-].
Qed.

Lemma py_round_returns_float v n r :
  is_float v = true -> py_round v n = Ok r -> is_float r = true.
Proof. destruct v; cbn; try discriminate. now intros _ [= <-]. Qed.

Lemma rate_pct_float n T : is_float (rate_pct n T) = true.
Proof. unfold rate_pct. destruct (T =? 0); reflexivity. Qed.

Lemma cell_int_sub a b r :
  (if truthy (cell_int a) && truthy (cell_int b)
   then py_sub (cell_int b) (cell_int a) else Ok int_0) = Ok r ->
  is_int r = true.
Proof.
  destruct a as [x|], b as [y|]; cbn [cell_int truthy andb].
  - destruct (negb (x =? 0) && negb (y =? 0)); cbn [py_sub]; now intros [= <-].
  - rewrite andb_false_r. now intros [= <-].
  - now intros [= <-].
  - now intros [= <-].
Qed.

Lemma time_metrics_returns_typed E conn seq tm :
  time_metrics E conn seq = Ok tm ->
  is_int (total_duration_ms tm) = true /\ is_float (blocking_ratio_pct tm) = true.
Proof.
  unfold time_metrics. intros H. inv_bind H.
  match goal with
  | Hi : interval_times _ _ _ = Ok ?iv |- _ =>
      destruct iv as [[[w b] br] qw]; cbn beta iota in H; inversion H; subst; cbn;
      unfold interval_times in Hi
  end.
  split.
  - match goal with
    | Hd : (if _ then py_sub _ _ else Ok int_0) = Ok _ |- _ =>
        now apply cell_int_sub in Hd
    end.
  - destruct seq as [seq|].
    + match goal with
      | Hi : rbind _ _ = Ok _ |- _ => inv_bind Hi; inversion Hi; subst
      end.
      match goal with
      | Hs : _safe_div _ _ default_0 = Ok ?q, Hp : py_round ?q 1 = Ok _ |- _ =>
          apply safe_div_returns_float in Hs;
          exact (py_round_returns_float _ _ _ Hs Hp)
      end.
    + match goal with
      | Hi : Ok _ = Ok _ |- _ => inversion Hi; reflexivity
      end.
Qed.

Lemma quality_metrics_returns_float conn seq qm :
  quality_metrics conn seq = Ok qm -> is_float (rework_rate_pct qm) = true.
Proof.
  destruct seq as [seq|]; intros H.
  - apply quality_metrics_inv in H. destruct H as (col & wrows & _ & _ & ->).
    apply rate_pct_float.
  - inversion H. reflexivity.
Qed.

Lemma per_agent_throughput_keeps td dh n tp tp' :
  per_agent_throughput td dh n tp = Ok tp' -> tasks_per_hour tp' = tasks_per_hour tp.
Proof.
  unfold per_agent_throughput. intros H. inv_bind H.
  destruct (_ && _).
  - inv_bind H. inversion H. reflexivity.
  - inversion H. reflexivity.
Qed.

(** In every snapshot [extract_metrics] returns, the duration, the
    completed count and the billable tokens are integers and the cost, the
    rates, the throughput and the blocking ratio are floats. *)
Lemma extract_metrics_typed E p l s r s' :
  extract_metrics E p l s = (Ok r, s') -> typed_snapshot r = true.
Proof.
  intros H. apply extract_metrics_inv in H. destruct H as (conn & _ & Hb & _).
  unfold extract_body in Hb. inv_bind Hb. inversion Hb; subst; clear Hb.
  unfold typed_snapshot. cbn [time cost tasks throughput quality tokens].
  apply task_distribution_inv in E0. destruct E0 as (tbl & _ & _ & Ea). subst a.
  apply time_metrics_returns_typed in E1. destruct E1 as [Hdur Hblk].
  apply quality_metrics_returns_float in E4.
  apply per_agent_throughput_keeps in E7.
  unfold throughput_metrics in E5. inv_bind E5. inversion E5; subst; clear E5.
  unfold token_metrics in E2. inv_bind E2. inversion E2; subst; clear E2.
  unfold cost_metrics in E3. inv_bind E3. inversion E3; subst; clear E3.
  cbn in E7. rewrite E7, Hdur, Hblk, E4. cbn [total_cost_usd total_billable].
  unfold distribution_of. cbn [completed completion_rate_pct]. rewrite rate_pct_float.
  cbn [is_int andb].
  repeat match goal with
         | Hs : _safe_div _ _ default_0 = Ok ?q, Hp : py_round ?q _ = Ok _ |- _ =>
             apply safe_div_returns_float in Hs;
             rewrite (py_round_returns_float _ _ _ Hs Hp); clear Hp
         end.
  repeat match goal with
         | Hp : py_round (PyFloat ?x) ?n = Ok ?r |- _ =>
             rewrite (py_round_returns_float (PyFloat x) n r eq_refl Hp); clear Hp
         end.
  repeat match goal with
         | Hp : py_add (PyInt _) (PyInt _) = Ok _ |- _ =>
             cbn [py_add] in Hp; injection Hp as <-
         end.
  reflexivity.
Qed.

(** ** Soft-deleted rows *)

Lemma drops_deleted_live rows rows' : drops_deleted rows rows' -> live rows' = live rows.
Proof.
  unfold live.
  induction 1 as [|t rows rows' _ IH|t rows rows' Hd _ IH]; cbn [filter];
    [reflexivity| |].
  - now rewrite IH.
  - destruct (Db.deleted_at t); [exact IH|contradiction].
Qed.

Section TasksTable.

(** Two tables of tasks with the same rows once the soft-deleted ones are
    filtered out, in a store that has a [tasks] table. *)
Variables (conn : Db.database) (tbl tbl' : list Db.task).
Hypothesis Ht : Db.tasks_tbl conn = Some tbl.
Hypothesis Hl : live tbl' = live tbl.

Lemma get_sequence_table_tasks :
  _get_sequence_table (with_tasks conn tbl') = _get_sequence_table conn.
Proof.
  unfold _get_sequence_table, _table_exists, table_names, with_tasks.
  cbn [Db.tasks_tbl Db.task_sequence_tbl Db.task_state_sequence_tbl].
  now rewrite Ht.
Qed.

Ltac same_tasks :=
  unfold from_tasks, with_tasks; cbn [Db.tasks_tbl]; rewrite Ht; cbn [rbind];
  rewrite ?Hl; try reflexivity.

Lemma task_distribution_tasks :
  task_distribution (with_tasks conn tbl') = task_distribution conn.
Proof. unfold task_distribution. same_tasks. Qed.

Lemma token_metrics_tasks : token_metrics (with_tasks conn tbl') = token_metrics conn.
Proof. unfold token_metrics. same_tasks. Qed.

Lemma cost_metrics_tasks E : cost_metrics E (with_tasks conn tbl') = cost_metrics E conn.
Proof. unfold cost_metrics. same_tasks. Qed.

Lemma agent_stats_tasks E : agent_stats E (with_tasks conn tbl') = agent_stats E conn.
Proof. unfold agent_stats. same_tasks. Qed.

Lemma interval_times_tasks E seq :
  interval_times E (with_tasks conn tbl') seq = interval_times E conn seq.
Proof.
  unfold interval_times. destruct seq as [seq|]; [|reflexivity].
  change (status_column (with_tasks conn tbl') seq) with (status_column conn seq).
  destruct (status_column conn seq) as [col|]; [|reflexivity]. cbn [rbind].
  change (reads_columns (with_tasks conn tbl') seq) with (reads_columns conn seq).
  change (select_intervals (with_tasks conn tbl') seq col)
    with (select_intervals conn seq col).
  destruct (reads_columns conn seq _); [|reflexivity]. cbn [rbind].
  destruct (select_intervals conn seq col ["working"%string]); [|reflexivity]. cbn [rbind].
  destruct (select_intervals conn seq col _); [|reflexivity]. cbn [rbind].
  destruct (py_add _ _); [|reflexivity]. cbn [rbind].
  destruct (py_mul _ _); [|reflexivity]. cbn [rbind].
  destruct (_safe_div _ _ _); [|reflexivity]. cbn [rbind].
  destruct (py_round _ _); [|reflexivity]. cbn [rbind].
  same_tasks.
Qed.

Lemma time_metrics_tasks E seq :
  time_metrics E (with_tasks conn tbl') seq = time_metrics E conn seq.
Proof. unfold time_metrics. rewrite interval_times_tasks. same_tasks. Qed.

Lemma extract_body_tasks E l p :
  extract_body E (with_tasks conn tbl') l p = extract_body E conn l p.
Proof.
  unfold extract_body.
  rewrite get_sequence_table_tasks, task_distribution_tasks, time_metrics_tasks,
    token_metrics_tasks, cost_metrics_tasks, agent_stats_tasks.
  reflexivity.
Qed.

End TasksTable.

Lemma extract_body_with_file E p conn' conn l q :
  extract_body (with_file E p conn') conn l q = extract_body E conn l q.
Proof. reflexivity. Qed.

Lemma with_file_same E p conn : fs (with_file E p conn) p = Some conn.
Proof. cbn. now rewrite String.eqb_refl. Qed.

Lemma time_metrics_intervals E conn seq tm :
  time_metrics E conn (Some seq) = Ok tm ->
  exists col wrows brows,
    status_column conn seq = Ok col /\
    select_intervals conn seq col ["working"%string] = Ok wrows /\
    select_intervals conn seq col ["pending"%string; "assigned"%string] = Ok brows /\
    total_working_ms tm = PyInt (sum_durations (now_working E) wrows) /\
    total_blocked_ms tm = PyInt (sum_durations (now_blocked E) brows).
Proof.
  unfold time_metrics. intros H. inv_bind H.
  match goal with
  | Hi : interval_times _ _ _ = Ok ?iv |- _ =>
      destruct iv as [[[w b] br] qw]; cbn beta iota in H; inversion H; subst; cbn;
      unfold interval_times in Hi; inv_bind Hi; inversion Hi; subst
  end.
  eauto 10.
Qed.

(** The three interval fields of a snapshot, read off [interval_times]. *)
Lemma time_metrics_interval_fields E conn seq tm :
  time_metrics E conn seq = Ok tm ->
  exists qw,
    interval_times E conn seq
    = Ok (total_working_ms tm, total_blocked_ms tm, blocking_ratio_pct tm, qw).
Proof.
  unfold time_metrics. intros H. inv_bind H.
  match goal with
  | Hi : interval_times _ _ _ = Ok ?iv |- _ =>
      destruct iv as [[[w b] br] qw]; cbn beta iota in H; inversion H; subst; cbn;
      rewrite Hi
  end.
  eauto.
Qed.

(** The blocking ratio is a function of the two interval totals. *)
Lemma interval_times_ratio E conn seq w b br qw :
  interval_times E conn (Some seq) = Ok (w, b, br, qw) ->
  exists W B q,
    w = PyInt W /\ b = PyInt B /\
    _safe_div (PyInt (B * 100)) (PyInt (W + B)) default_0 = Ok q /\
    py_round q 1 = Ok br.
Proof.
  unfold interval_times. intros H. inv_bind H. cbn [py_add py_mul] in *.
  repeat match goal with
         | Hx : Ok (PyInt _) = Ok _ |- _ => injection Hx as <-
         end.
  injection H as <- <- <- <-. eauto 10.
Qed.

Lemma time_metrics_ratio_of_totals E1 c1 E2 c2 s1 s2 tm1 tm2 :
  time_metrics E1 c1 s1 = Ok tm1 -> time_metrics E2 c2 s2 = Ok tm2 ->
  total_working_ms tm1 = total_working_ms tm2 ->
  total_blocked_ms tm1 = total_blocked_ms tm2 ->
  (s1 = None <-> s2 = None) ->
  blocking_ratio_pct tm1 = blocking_ratio_pct tm2.
Proof.
  intros H1 H2 Hw Hb Hs.
  apply time_metrics_interval_fields in H1, H2.
  destruct H1 as (q1 & H1). destruct H2 as (q2 & H2).
  destruct s1 as [s1|], s2 as [s2|];
    try (exfalso; destruct Hs as [Ha Hb'];
         first [discriminate (Ha eq_refl)|discriminate (Hb' eq_refl)]).
  - apply interval_times_ratio in H1, H2.
    destruct H1 as (W1 & B1 & x1 & Ew1 & Eb1 & Es1 & Er1).
    destruct H2 as (W2 & B2 & x2 & Ew2 & Eb2 & Es2 & Er2).
    rewrite Ew1, Ew2 in Hw. rewrite Eb1, Eb2 in Hb.
    injection Hw as ->. injection Hb as ->.
    rewrite Es1 in Es2. injection Es2 as <-. rewrite Er1 in Er2. now injection Er2.
  - unfold interval_times in H1, H2. inversion H1. inversion H2. congruence.
Qed.

(** C6, as amended.  In a store with a [tasks] table, taking soft-deleted
    rows ([deleted_at] set) out of that table changes nothing in what
    [extract_metrics] does or returns: no aggregate over [tasks] sees
    them.  The interval aggregates (total working time, total blocked
    time, blocking ratio and the quality group) do not read the [tasks]
    table at all: with any other [tasks] table, and so whether or not the
    tasks that own the intervals are soft-deleted, a returned snapshot
    holds the same interval aggregates. *)
Theorem soft_deleted_tasks_excluded E p l s conn tbl :
  fs E p = Some conn -> Db.tasks_tbl conn = Some tbl ->
  (forall tbl', drops_deleted tbl tbl' ->
     extract_metrics (with_file E p (with_tasks conn tbl')) p l s
     = extract_metrics E p l s) /\
  (forall tbl' r r' s1 s2,
     extract_metrics E p l s = (Ok r, s1) ->
     extract_metrics (with_file E p (with_tasks conn tbl')) p l s = (Ok r', s2) ->
     total_working_ms (time r') = total_working_ms (time r) /\
     total_blocked_ms (time r') = total_blocked_ms (time r) /\
     blocking_ratio_pct (time r') = blocking_ratio_pct (time r) /\
     quality r' = quality r).
Proof.
  intros Hfs Ht. split.
  - intros tbl' Hd. apply drops_deleted_live in Hd.
    rewrite (extract_metrics_present E p l s conn Hfs).
    rewrite (extract_metrics_present (with_file E p (with_tasks conn tbl')) p l s
               (with_tasks conn tbl') (with_file_same _ _ _)).
    now rewrite extract_body_with_file, (extract_body_tasks conn tbl tbl' Ht Hd).
  - intros tbl' r r' s1 s2 H H'.
    apply extract_metrics_inv in H. destruct H as (conn1 & Hfs1 & Hb & _).
    rewrite Hfs in Hfs1. injection Hfs1 as <-.
    apply extract_metrics_inv in H'. destruct H' as (conn2 & Hfs2 & Hb' & _).
    rewrite with_file_same in Hfs2. injection Hfs2 as <-.
    rewrite extract_body_with_file in Hb'.
    apply extract_body_inv in Hb. destruct Hb as (_ & Htm & _ & _ & Hq & _).
    apply extract_body_inv in Hb'. destruct Hb' as (_ & Htm' & _ & _ & Hq' & _).
    assert (Hseq : _get_sequence_table (with_tasks conn tbl') = _get_sequence_table conn).
    { unfold _get_sequence_table, _table_exists, table_names, with_tasks.
      cbn [Db.tasks_tbl Db.task_sequence_tbl Db.task_state_sequence_tbl].
      now rewrite Ht. }
    rewrite Hseq in Htm', Hq'.
    change (quality_metrics (with_tasks conn tbl') (_get_sequence_table conn))
      with (quality_metrics conn (_get_sequence_table conn)) in Hq'.
    rewrite Hq in Hq'. injection Hq' as Hq'.
    assert (Hwb : total_working_ms (time r') = total_working_ms (time r) /\
                  total_blocked_ms (time r') = total_blocked_ms (time r)).
    { destruct (_get_sequence_table conn) as [seq|].
      - apply time_metrics_intervals in Htm, Htm'.
        destruct Htm as (col & wrows & brows & Hc & Hw & Hb & -> & ->).
        destruct Htm' as (col' & wrows' & brows' & Hc' & Hw' & Hb' & -> & ->).
        change (status_column (with_tasks conn tbl') seq)
          with (status_column conn seq) in Hc'.
        rewrite Hc in Hc'. injection Hc' as <-.
        change (select_intervals (with_tasks conn tbl') seq col)
          with (select_intervals conn seq col) in Hw', Hb'.
        rewrite Hw in Hw'. injection Hw' as <-.
        rewrite Hb in Hb'. injection Hb' as <-. split; reflexivity.
      - unfold time_metrics in Htm, Htm'. inv_bind Htm. inv_bind Htm'.
        repeat match goal with
               | Hi : interval_times _ _ None = Ok ?iv |- _ =>
                   cbn in Hi; injection Hi as <-
               end.
        cbn beta iota in Htm, Htm'. inversion Htm. inversion Htm'. split; reflexivity. }
    destruct Hwb as [Hw Hb]. split; [exact Hw|]. split; [exact Hb|].
    split; [|now symmetry].
    eapply time_metrics_ratio_of_totals; [exact Htm'|exact Htm|exact Hw|exact Hb|tauto].
Qed.

(** The soft-deleted task [d] of [store_deleted_worked] taken out of the
    table, and the live task [a] marked as deleted in its place. *)
Lemma soft_deleted_tasks_excluded_witness :
  let E := env_of [("run.db"%string, store_deleted_worked)] in
  extract_metrics
    (with_file E "run.db"
       (with_tasks store_deleted_worked [sample_task "a" "completed" (Some 10) None]))
    "run.db" "run" []
  = extract_metrics E "run.db" "run" [] /\
  exists r r',
    extract_metrics E "run.db" "run" [] = (Ok r, [Connect "run.db"; Close "run.db"]) /\
    extract_metrics
      (with_file E "run.db"
         (with_tasks store_deleted_worked
            [sample_task "a" "completed" (Some 10) (Some 7000);
             sample_task "d" "completed" (Some 10) None]))
      "run.db" "run" []
    = (Ok r', [Connect "run.db"; Close "run.db"]) /\
    total_working_ms (time r') = total_working_ms (time r) /\
    quality r' = quality r.
Proof.
  cbn zeta.
  destruct (soft_deleted_tasks_excluded
              (env_of [("run.db"%string, store_deleted_worked)])
              "run.db" "run" [] store_deleted_worked _ eq_refl eq_refl) as [H1 H2].
  split.
  - apply H1. apply drops_keep. apply drops_skip; [discriminate|]. apply drops_nil.
  - eexists. eexists. split; [vm_compute; reflexivity|].
    split; [vm_compute; reflexivity|].
    match goal with
    | |- total_working_ms (time ?r') = total_working_ms (time ?r) /\ _ =>
        destruct (H2 [sample_task "a" "completed" (Some 10) (Some 7000);
                      sample_task "d" "completed" (Some 10) None]
                    r r' [Connect "run.db"; Close "run.db"]
                    [Connect "run.db"; Close "run.db"]
                    ltac:(vm_compute; reflexivity) ltac:(vm_compute; reflexivity))
          as (Hw & _ & _ & Hq)
    end.
    split; assumption.
Defined.

(** C6, counterexample.  A store with one live task and one soft-deleted
    task that has two working intervals: the intervals of the deleted task
    are counted in the total working time and make it a reworked task;
    without them the figures differ. *)
Lemma deleted_task_intervals_counted :
  exists r r',
    extract_metrics (env_of [("run.db"%string, store_deleted_worked)]) "run.db" "run" []
    = (Ok r, [Connect "run.db"; Close "run.db"]) /\
    extract_metrics (env_of [("run.db"%string, purge_deleted store_deleted_worked)])
                    "run.db" "run" []
    = (Ok r', [Connect "run.db"; Close "run.db"]) /\
    total_tasks (tasks r) = PyInt 1 /\ total_tasks (tasks r') = PyInt 1 /\
    total_working_ms (time r) = PyInt 210 /\ total_working_ms (time r') = PyInt 10 /\
    rework_count (quality r) = PyInt 1 /\ rework_count (quality r') = PyInt 0 /\
    rework_rate_pct (quality r) = PyFloat 50 /\ rework_rate_pct (quality r') = PyFloat 0 /\
    r <> r'.
Proof.
  eexists. eexists.
  split; [vm_compute; reflexivity|]. split; [vm_compute; reflexivity|].
  repeat split; try (vm_compute; reflexivity).
  intros H. apply (f_equal (fun x => rework_count (quality x))) in H.
  vm_compute in H. discriminate H.
Qed.

(** ** Failing extractions *)

(** C7.  A store without a sequence table whose [tasks] table has no
    non-deleted row: [SUM(CASE ...)] over no row is NULL, the sum of the
    counts raises [TypeError], and no snapshot is returned. *)
Theorem extract_raises_on_fresh_store :
  _get_sequence_table store_fresh = None /\
  extract_metrics (env_of [("fresh.db"%string, store_fresh)]) "fresh.db" "fresh" []
  = (Raise TypeError, [Connect "fresh.db"]).
Proof. split; vm_compute; reflexivity. Qed.

(** What [extract_metrics] does to connections, path by path. *)
Lemma extract_metrics_connections E p l s :
  match fs E p, extract_metrics E p l s with
  | None, (Raise (SystemExit 1), s') =>
      s' = s ++ [Stderr ("Error: database file not found: " ++ p)]
  | Some _, (Ok _, s') => s' = s ++ [Connect p; Close p]
  | Some _, (Raise _, s') => s' = s ++ [Connect p]
  | _, _ => False
  end.
Proof.
  destruct (fs E p) as [conn|] eqn:Hfs.
  - rewrite (extract_metrics_present E p l s conn Hfs).
    destruct (extract_body E conn l p); reflexivity.
  - rewrite (extract_metrics_missing E p l s Hfs). reflexivity.
Qed.

(** C9.  A database file without a [tasks] table: the first aggregate
    query raises [sqlite3.OperationalError] after the connection was opened,
    and [conn.close()] is never reached. *)
Theorem connection_left_open_on_query_failure :
  extract_metrics (env_of [("bare.db"%string, store_no_tasks)]) "bare.db" "bare" []
  = (Raise OperationalError, [Connect "bare.db"]).
Proof. vm_compute. reflexivity. Qed.

(** ** The extraction loop of [main] *)

Lemma extract_all_app E pre post acc s :
  extract_all E (pre ++ post) acc s
  = match extract_all E pre acc s with
    | (Ok rs, s1) => extract_all E post rs s1
    | (Raise e, s1) => (Raise e, s1)
    end.
Proof.
  revert acc s. induction pre as [|[p l] pre IH]; intros acc s; cbn; [reflexivity|].
  unfold bind. destruct (extract_metrics E p l s) as [[r|e] s1]; [apply IH|reflexivity].
Qed.

Lemma combine_fst_snd {A B} (l : list (A * B)) : combine (map fst l) (map snd l) = l.
Proof. induction l as [|[a b] l IH]; cbn; congruence. Qed.

Lemma extract_all_ok E runs acc s rs s' :
  extract_all E runs acc s = (Ok rs, s') ->
  Forall (fun run => fs E (fst run) <> None) runs /\
  List.length rs = (List.length acc + List.length runs)%nat.
Proof.
  revert acc s. induction runs as [|[p l] runs IH]; intros acc s; cbn.
  - intros H. inversion H; subst. split; [constructor|lia].
  - unfold bind. destruct (extract_metrics E p l s) as [[r|e] s1] eqn:Ex; [|discriminate].
    intros H. apply IH in H. destruct H as [HF HL]. split.
    + constructor; [|exact HF]. cbn. intros Hn.
      rewrite (extract_metrics_missing E p l s Hn) in Ex. discriminate.
    + rewrite HL, length_app. cbn. lia.
Qed.

(** C8, as amended.  On a store that does not exist [extract_metrics]
    writes the error line and raises [SystemExit(1)], without a snapshot and
    without opening a connection.  In the loop of [main] this ends the
    program at the first missing store: the runs before it have been
    extracted, the runs after it are not, and no list of snapshots is
    produced; whenever [main] does get its snapshots, every store existed
    and there is one snapshot per run. *)
Theorem missing_store_aborts_extraction E pre p l post s rs s1 :
  fs E p = None ->
  extract_all E pre [] s = (Ok rs, s1) ->
  let msg := Stderr ("Error: database file not found: " ++ p) in
  let runs := pre ++ (p, l) :: post in
  extract_metrics E p l s1 = (Raise (SystemExit 1), s1 ++ [msg]) /\
  main E (map fst runs) (map snd runs) s = (Raise (SystemExit 1), s1 ++ [msg]) /\
  (forall dbs labels s0 out s',
     main E dbs labels s0 = (Ok out, s') ->
     Forall (fun run => fs E (fst run) <> None) (combine dbs labels) /\
     List.length out = List.length (combine dbs labels)).
Proof.
  intros Hfs Hpre. cbn zeta. split; [|split].
  - apply extract_metrics_missing. exact Hfs.
  - unfold main. rewrite combine_fst_snd, extract_all_app, Hpre. cbn [extract_all].
    unfold bind. rewrite (extract_metrics_missing E p l s1 Hfs). reflexivity.
  - intros dbs labels s0 out s' H. unfold main in H.
    apply extract_all_ok in H. exact H.
Qed.

Lemma missing_store_aborts_extraction_witness :
  main (env_of [("good.db"%string, store_7_2_1)])
       ["good.db"; "gone.db"; "good.db"]%string ["a"; "b"; "c"]%string []
  = (Raise (SystemExit 1),
     [Connect "good.db"; Close "good.db";
      Stderr "Error: database file not found: gone.db"]).
Proof.
  destruct (extract_metrics (env_of [("good.db"%string, store_7_2_1)]) "good.db" "a" [])
    as [[r|e] s1] eqn:Ex.
  - assert (Hs : s1 = [Connect "good.db"; Close "good.db"]).
    { vm_compute in Ex. now inversion Ex. }
    subst s1.
    destruct (missing_store_aborts_extraction
                (env_of [("good.db"%string, store_7_2_1)])
                [("good.db", "a")]%string "gone.db" "b" [("good.db", "c")]%string
                [] [r] [Connect "good.db"; Close "good.db"] eq_refl) as (_ & H & _).
    + cbn [extract_all]. unfold bind. rewrite Ex. reflexivity.
    + exact H.
  - vm_compute in Ex. discriminate Ex.
Defined.

(** C8, counterexample.  [good.db] can be extracted by itself, but listed
    after a missing store it is never opened: [main] ends with
    [SystemExit(1)] and no snapshot for the run that would succeed. *)
Lemma later_runs_not_extracted :
  extract_metrics (env_of [("good.db"%string, store_7_2_1)]) "good.db" "good" []
  <> (Raise (SystemExit 1), []) /\
  (exists r, extract_metrics (env_of [("good.db"%string, store_7_2_1)]) "good.db" "good" []
             = (Ok r, [Connect "good.db"; Close "good.db"])) /\
  main (env_of [("good.db"%string, store_7_2_1)])
       ["gone.db"; "good.db"]%string ["gone"; "good"]%string []
  = (Raise (SystemExit 1), [Stderr "Error: database file not found: gone.db"]).
Proof.
  split; [|split].
  - vm_compute. discriminate.
  - eexists. vm_compute. reflexivity.
  - vm_compute. reflexivity.
Qed.

(* ===================================================================== *)
(** * Further properties of the extractor, the formatter and the labels *)
(* ===================================================================== *)

Ltac team_run r Ex :=
  destruct (extract_metrics team_env "team.db" "team" []) as [[r|?] ?] eqn:Ex;
  [|vm_compute in Ex; discriminate Ex].

Ltac team_store Hfs Ht :=
  vm_compute in Hfs; injection Hfs as <-; vm_compute in Ht; injection Ht as <-.

(** Evaluate the list a goal speaks of. *)
Ltac eval_list :=
  match goal with
  | |- In _ ?l => let l' := eval vm_compute in l in change l with l'
  | |- Forall _ ?l => let l' := eval vm_compute in l in change l with l'
  end.

Ltac in_list := cbn [In]; repeat (first [left; reflexivity | right]).

(** ** Every outcome of an extraction *)

Lemma from_seq_raises conn seq e : from_seq conn seq = Raise e -> e = OperationalError.
Proof.
  unfold from_seq.
  destruct (if String.eqb seq "task_sequence" then _ else _); intros H; inversion H; reflexivity.
Qed.

Lemma raises_only_ok {A} es (a : A) : raises_only es (Ok a).
Proof. intros e H. discriminate. Qed.

Lemma raises_only_bind {A B} es (r : result A) (k : A -> result B) :
  raises_only es r -> (forall a, r = Ok a -> raises_only es (k a)) ->
  raises_only es (rbind r k).
Proof.
  intros Hr Hk e. destruct r as [a|e']; cbn [rbind].
  - now apply Hk.
  - intros [= <-]. now apply Hr.
Qed.

Lemma raises_overflow {A} :
  raises_only [OperationalError; OverflowError] (@Raise A OverflowError).
Proof. intros e [= <-]. cbn. auto. Qed.

Lemma raises_operational {A} :
  raises_only [OperationalError; OverflowError] (@Raise A OperationalError).
Proof. intros e [= <-]. cbn. auto. Qed.

Lemma oo_raises {A} (P : A -> Prop) r :
  ok_or_overflow P r -> raises_only [OperationalError; OverflowError] r.
Proof. intros [(a & -> & _)| ->]; [apply raises_only_ok|apply raises_overflow]. Qed.

Ltac oo_step H :=
  let v := fresh "v" in
  let E := fresh "E" in
  let N := fresh "N" in
  destruct H as [(v & E & N)|E]; rewrite E; cbn [rbind]; [|apply raises_overflow].

Lemma from_seq_only conn seq :
  raises_only [OperationalError; OverflowError] (from_seq conn seq).
Proof. intros e H. apply from_seq_raises in H. subst. cbn. auto. Qed.

Lemma status_column_only conn seq :
  raises_only [OperationalError; OverflowError] (status_column conn seq).
Proof.
  unfold status_column. apply raises_only_bind; [apply from_seq_only|].
  intros tbl _. apply raises_only_ok.
Qed.

Lemma reads_columns_only conn seq cols :
  raises_only [OperationalError; OverflowError] (reads_columns conn seq cols).
Proof.
  unfold reads_columns. apply raises_only_bind; [apply from_seq_only|].
  intros tbl _. destruct (forallb _ _); [apply raises_only_ok|apply raises_operational].
Qed.

Lemma select_intervals_only conn seq col labels :
  raises_only [OperationalError; OverflowError] (select_intervals conn seq col labels).
Proof.
  unfold select_intervals. apply raises_only_bind; [apply from_seq_only|].
  intros tbl _. destruct (existsb _ _); [apply raises_only_ok|apply raises_operational].
Qed.

Lemma interval_times_only E conn seq tbl :
  Db.tasks_tbl conn = Some tbl ->
  raises_only [OperationalError; OverflowError] (interval_times E conn seq).
Proof.
  intros Ht. destruct seq as [seq|]; [|apply raises_only_ok]. unfold interval_times.
  apply raises_only_bind; [apply status_column_only|intros col _].
  apply raises_only_bind; [apply reads_columns_only|intros _ _].
  apply raises_only_bind; [apply select_intervals_only|intros wrows _].
  apply raises_only_bind; [apply reads_columns_only|intros _ _].
  apply raises_only_bind; [apply select_intervals_only|intros brows _].
  cbn [rbind py_add py_mul].
  match goal with
  | |- context [_safe_div ?x ?y default_0] => oo_step (safe_div_num x y default_0 I I)
  end.
  use_ok (py_round_num v 1 N).
  unfold from_tasks. rewrite Ht. cbn [rbind].
  match goal with
  | |- context [py_round ?x 1] =>
      destruct (py_round_num x 1) as (v' & Ev' & Nv'); [apply py_or_num; exact I|]
  end.
  rewrite Ev'. apply raises_only_ok.
Qed.

Lemma time_metrics_only E conn seq tbl :
  Db.tasks_tbl conn = Some tbl ->
  raises_only [OperationalError; OverflowError] (time_metrics E conn seq).
Proof.
  intros Ht. unfold time_metrics, from_tasks. rewrite Ht. cbn [rbind].
  set (first := cell_int (sql_min (map Db.created_at (live tbl)))).
  set (last := cell_int (sql_max (map Db.completed_at (live tbl)))).
  assert (Hd : ok_or_overflow is_num
                 (if truthy first && truthy last then py_sub last first else Ok int_0)).
  { destruct (truthy first) eqn:E1, (truthy last) eqn:E2; cbn [andb];
      try (left; exists int_0; split; [reflexivity|exact I]).
    apply truthy_num in E1, E2. apply py_sub_num; tauto. }
  oo_step Hd.
  match goal with
  | |- context [py_round ?x 1] =>
      destruct (py_round_num x 1) as (v' & Ev' & Nv'); [apply py_or_num; exact I|]
  end.
  rewrite Ev'. cbn [rbind].
  destruct (median_task_time_cases
              (order_by_asc (non_null (map positive_time (live tbl))))) as [Em|Em];
    rewrite Em; cbn [rbind]; [|apply raises_overflow].
  apply raises_only_bind; [now apply (interval_times_only E conn seq tbl)|].
  intros [[[w b] br] qw] _. apply raises_only_ok.
Qed.

Lemma quality_metrics_only conn seq :
  raises_only [OperationalError; OverflowError] (quality_metrics conn seq).
Proof.
  destruct seq as [seq|]; [|apply raises_only_ok]. unfold quality_metrics.
  apply raises_only_bind; [apply status_column_only|intros col _].
  apply raises_only_bind; [apply reads_columns_only|intros _ _].
  apply raises_only_bind; [apply select_intervals_only|intros wrows _].
  destruct (quality_of_cases (working_periods wrows)) as [-> | ->];
    [apply raises_only_ok|apply raises_overflow].
Qed.

Lemma is_int_num v : is_int v = true -> is_num v.
Proof. destruct v; cbn; [discriminate|auto..]. Qed.

(** With a live task no statement and no operator raises anything but
    [sqlite3.OperationalError] and [OverflowError]. *)
Lemma extract_body_only E conn tbl l p :
  Db.tasks_tbl conn = Some tbl -> live tbl <> [] ->
  raises_only [OperationalError; OverflowError] (extract_body E conn l p).
Proof.
  intros Ht Hl. unfold extract_body.
  rewrite (task_distribution_live conn tbl Ht Hl). cbn [rbind].
  apply raises_only_bind; [now apply (time_metrics_only E conn _ tbl)|intros tm Htm].
  apply time_metrics_returns_typed in Htm. destruct Htm as [Hdur _].
  apply is_int_num in Hdur.
  oo_step (token_metrics_ok conn tbl Ht).
  oo_step (cost_metrics_ok E conn tbl Ht Hl).
  apply raises_only_bind; [apply quality_metrics_only|intros qm _].
  destruct (throughput_metrics_ok tm (distribution_of (live tbl)) Hdur I I)
    as [(dt & Edt & Ndt)|Edt]; rewrite Edt; cbn [rbind]; [|apply raises_overflow].
  destruct (agent_stats_ok E conn tbl Ht) as (ag & Eag). rewrite Eag. cbn [rbind].
  oo_step (per_agent_throughput_ok (distribution_of (live tbl)) (fst dt)
             (Z.of_nat (List.length ag)) (snd dt) I Ndt).
  apply raises_only_ok.
Qed.

(** A snapshot is returned only when every statement on the sequence
    table found its columns. *)
Lemma extract_body_readable E conn l p r :
  extract_body E conn l p = Ok r -> seq_readable conn = true.
Proof.
  intros H. apply extract_body_inv in H. destruct H as (_ & Htm & _ & _ & Hq & _).
  unfold seq_readable. destruct (_get_sequence_table conn) as [seq|]; [|reflexivity].
  unfold time_metrics in Htm. inv_bind Htm.
  match goal with
  | Hi : interval_times _ _ _ = Ok _ |- _ => unfold interval_times in Hi; inv_bind Hi
  end.
  unfold quality_metrics in Hq. inv_bind Hq.
  repeat match goal with
         | Hs : status_column _ _ = Ok _ |- _ => unfold status_column in Hs
         | Hs : reads_columns _ _ _ = Ok _ |- _ => unfold reads_columns in Hs
         | Hs : select_intervals _ _ _ _ = Ok _ |- _ => unfold select_intervals in Hs
         end.
  destruct (from_seq conn seq) as [tbl|]; [|discriminate].
  cbn [rbind] in *.
  repeat match goal with
         | Hs : Ok (if ?c then _ else _) = Ok ?col |- _ => injection Hs as Hs; subst col
         end.
  cbn [forallb] in *.
  repeat match goal with
         | Hs : (if ?c then _ else _) = Ok _ |- _ =>
             let Ec := fresh "Ec" in destruct c eqn:Ec; [clear Hs|discriminate Hs]
         end.
  repeat match goal with
         | Hs : _ && _ = true |- _ =>
             let H1 := fresh "Hc" in
             let H2 := fresh "Hc" in
             apply andb_prop in Hs; destruct Hs as [H1 H2]
         end.
  repeat (apply andb_true_intro; split); try assumption; reflexivity.
Qed.

(** X1.  What an extraction can end in, by the store it finds (a path the
    file system knows names a database that [connect] opens).  A missing
    file ends in [SystemExit(1)] after the error line, with no connection.
    A file without a [tasks] table ends in [sqlite3.OperationalError]; a
    [tasks] table without a non-deleted row ends in [TypeError].  With a
    non-deleted row and a sequence table that lacks a column the statements
    name (the state column, [timestamp], [end_timestamp] or [task_id]) the
    extraction raises: [sqlite3.OperationalError], or the [OverflowError]
    of a quotient computed before that statement.  With a readable
    sequence table these two are the only exceptions left.  A snapshot is
    returned only through a connection that is opened and closed, from a
    [tasks] table with a non-deleted row and a readable sequence table;
    every exception raised after [connect] leaves the connection open. *)
Theorem extract_metrics_outcome E p l s :
  match fs E p with
  | None =>
      extract_metrics E p l s
      = (Raise (SystemExit 1), s ++ [Stderr ("Error: database file not found: " ++ p)])
  | Some conn =>
      match Db.tasks_tbl conn with
      | None => extract_metrics E p l s = (Raise OperationalError, s ++ [Connect p])
      | Some tbl =>
          match live tbl with
          | [] => extract_metrics E p l s = (Raise TypeError, s ++ [Connect p])
          | _ :: _ =>
              if seq_readable conn
              then forall e s', extract_metrics E p l s = (Raise e, s') ->
                                (e = OperationalError \/ e = OverflowError) /\
                                s' = s ++ [Connect p]
              else extract_metrics E p l s = (Raise OperationalError, s ++ [Connect p]) \/
                   extract_metrics E p l s = (Raise OverflowError, s ++ [Connect p])
          end
      end /\
      (forall r s', extract_metrics E p l s = (Ok r, s') ->
                    s' = s ++ [Connect p; Close p] /\
                    seq_readable conn = true /\
                    exists tbl, Db.tasks_tbl conn = Some tbl /\ live tbl <> []) /\
      (forall e s', extract_metrics E p l s = (Raise e, s') -> s' = s ++ [Connect p])
  end.
Proof.
  destruct (fs E p) as [conn|] eqn:Hfs; [|now apply extract_metrics_missing].
  pose proof (extract_metrics_present E p l s conn Hfs) as Hp.
  split; [|split].
  - destruct (Db.tasks_tbl conn) as [tbl|] eqn:Ht.
    + destruct (live tbl) as [|t rows] eqn:Hl.
      * now apply (extract_metrics_no_live_task E p l s conn tbl).
      * assert (Hne : live tbl <> []) by (rewrite Hl; discriminate).
        pose proof (extract_body_only E conn tbl l p Ht Hne) as Ho.
        destruct (extract_body E conn l p) as [r|e] eqn:Hb.
        -- rewrite (extract_body_readable E conn l p r Hb).
           intros e s'. rewrite Hp. discriminate.
        -- specialize (Ho e eq_refl). cbn in Ho.
           destruct Ho as [<-|[<-|[]]]; rewrite Hp;
             destruct (seq_readable conn); auto;
             intros e s' [= <- <-]; auto.
    + rewrite Hp. unfold extract_body, task_distribution, from_tasks.
      rewrite Ht. reflexivity.
  - intros r s' H. rewrite Hp in H.
    destruct (extract_body E conn l p) as [r0|e] eqn:Hb; [|discriminate].
    injection H as <- <-. split; [reflexivity|].
    split; [exact (extract_body_readable E conn l p r0 Hb)|].
    apply extract_body_inv in Hb. destruct Hb as (Htd & _).
    apply task_distribution_inv in Htd. destruct Htd as (tbl & Ht & Hl & _). eauto.
  - intros e s' H. rewrite Hp in H.
    destruct (extract_body E conn l p); [discriminate|]. now injection H as _ <-.
Qed.

(** ** Counts by status *)

Lemma extract_metrics_distribution E p l s r s' :
  extract_metrics E p l s = (Ok r, s') ->
  exists conn tbl,
    fs E p = Some conn /\ Db.tasks_tbl conn = Some tbl /\ live tbl <> [] /\
    tasks r = distribution_of (live tbl).
Proof.
  intros H. apply extract_metrics_inv in H. destruct H as (conn & Hfs & Hb & _).
  apply extract_body_inv in Hb. destruct Hb as (Htd & _).
  apply task_distribution_inv in Htd. destruct Htd as (tbl & Ht & Hl & Htd).
  exists conn, tbl. auto.
Qed.

Lemma count_if_cons {A} (c : A -> bool) x rows :
  count_if c (x :: rows) = (if c x then 1 else 0) + count_if c rows.
Proof. unfold count_if. cbn [filter]. destruct (c x); cbn [List.length]; lia. Qed.

Lemma status_counts_partition rows :
  let n s := count_if (has_status s) rows in
  n "completed"%string + n "failed"%string + n "cancelled"%string
  + n "pending"%string + n "working"%string
  = count_if known_status rows.
Proof.
  cbn zeta. induction rows as [|t rows IH]; [reflexivity|].
  rewrite !count_if_cons, <- IH.
  generalize (count_if (has_status "completed") rows) (count_if (has_status "failed") rows)
    (count_if (has_status "cancelled") rows) (count_if (has_status "pending") rows)
    (count_if (has_status "working") rows).
  intros a b c d e. unfold known_status, has_status.
  destruct (String.eqb_spec (Db.status t) "completed") as [E|_]; [rewrite E; cbn -[Z.add]; lia|].
  destruct (String.eqb_spec (Db.status t) "failed") as [E|_]; [rewrite E; cbn -[Z.add]; lia|].
  destruct (String.eqb_spec (Db.status t) "cancelled") as [E|_]; [rewrite E; cbn -[Z.add]; lia|].
  destruct (String.eqb_spec (Db.status t) "pending") as [E|_]; [rewrite E; cbn -[Z.add]; lia|].
  destruct (String.eqb_spec (Db.status t) "working") as [E|_]; cbn -[Z.add]; lia.
Qed.

Lemma count_if_le {A} (c : A -> bool) rows : 0 <= count_if c rows <= sql_count rows.
Proof.
  unfold count_if, sql_count. split; [lia|]. apply inj_le, filter_length_le.
Qed.

Lemma count_if_all {A} (c : A -> bool) rows :
  count_if c rows = sql_count rows <-> Forall (fun x => c x = true) rows.
Proof.
  induction rows as [|x rows IH].
  - split; [constructor|reflexivity].
  - rewrite count_if_cons. unfold sql_count in *. cbn [List.length].
    pose proof (count_if_le c rows) as Hle. unfold sql_count in Hle.
    rewrite Nat2Z.inj_succ. split.
    + intros H. destruct (c x) eqn:E; [|lia]. constructor; [exact E|]. apply IH. lia.
    + intros H. inversion H as [|? ? Hx Hr]; subst. rewrite Hx. apply IH in Hr. lia.
Qed.

(** X2.  In every snapshot the five status counts are the numbers of
    non-deleted rows with that status, [total_tasks] is the number of
    non-deleted rows and is at least 1, and the five counts add up to at
    most [total_tasks], with equality exactly when every non-deleted row
    has one of the five statuses: a row with any other status is counted in
    the total and in no status count. *)
Theorem status_counts_within_total E p l s r s' :
  extract_metrics E p l s = (Ok r, s') ->
  exists conn tbl c f x pd w n,
    fs E p = Some conn /\ Db.tasks_tbl conn = Some tbl /\
    completed (tasks r) = PyInt c /\ failed (tasks r) = PyInt f /\
    cancelled (tasks r) = PyInt x /\ pending (tasks r) = PyInt pd /\
    working (tasks r) = PyInt w /\ total_tasks (tasks r) = PyInt n /\
    c = count_if (has_status "completed") (live tbl) /\
    f = count_if (has_status "failed") (live tbl) /\
    x = count_if (has_status "cancelled") (live tbl) /\
    pd = count_if (has_status "pending") (live tbl) /\
    w = count_if (has_status "working") (live tbl) /\
    n = Z.of_nat (List.length (live tbl)) /\
    0 <= c /\ 0 <= f /\ 0 <= x /\ 0 <= pd /\ 0 <= w /\ 1 <= n /\
    c + f + x + pd + w <= n /\
    (c + f + x + pd + w = n <-> Forall (fun t => known_status t = true) (live tbl)).
Proof.
  intros H. apply extract_metrics_distribution in H.
  destruct H as (conn & tbl & Hfs & Ht & Hl & ->).
  exists conn, tbl. do 6 eexists. unfold distribution_of.
  cbn [completed failed cancelled pending working total_tasks].
  split; [exact Hfs|]. split; [exact Ht|].
  do 6 (split; [reflexivity|]).
  pose proof (status_counts_partition (live tbl)) as Hp. cbn zeta in Hp.
  pose proof (count_if_le known_status (live tbl)) as Hk.
  pose proof (count_if_all known_status (live tbl)) as Ha.
  do 6 (split; [reflexivity|]).
  repeat (split; [apply count_if_nonneg|]).
  split; [unfold sql_count; destruct (live tbl); [congruence|cbn [List.length]; lia]|].
  rewrite Hp. split; [lia|exact Ha].
Qed.

Lemma status_counts_within_total_witness :
  match extract_metrics team_env "team.db" "team" [] with
  | (Ok r, _) =>
      total_tasks (tasks r) = PyInt 4 /\ completed (tasks r) = PyInt 2 /\
      failed (tasks r) = PyInt 1 /\ pending (tasks r) = PyInt 1
  | _ => False
  end.
Proof.
  team_run r Ex.
  destruct (status_counts_within_total _ _ _ _ _ _ Ex)
    as (conn & tbl & c & f & x & pd & w & n & Hfs & Ht & Hc & Hf & _ & Hpd & _ & Hn
        & -> & -> & _ & -> & _ & -> & _).
  team_store Hfs Ht. rewrite Hn, Hc, Hf, Hpd. repeat split.
Defined.

(** ** Points *)

Lemma coalesce_sql_sum l : coalesce (sql_sum l) 0 = total l.
Proof.
  unfold sql_sum, total. destruct (non_null l) as [|x r]; [reflexivity|].
  cbn [coalesce fold_left]. rewrite (fold_left_add_acc r (0 + x)), (fold_left_add_acc r x). lia.
Qed.

Lemma total_cons o l : total (o :: l) = coalesce o 0 + total l.
Proof.
  unfold total. destruct o as [x|]; cbn [non_null coalesce fold_left]; [|lia].
  rewrite fold_left_add_acc. lia.
Qed.

Lemma completed_points_bounds rows :
  Forall (fun t => 0 <= coalesce (Db.points t) 0) rows ->
  0 <= total (map (fun t => if has_status "completed" t then Db.points t else Some 0) rows)
    <= total (map Db.points rows).
Proof.
  induction 1 as [|t rows Ht _ IH]; cbn [map]; [unfold total; cbn; lia|].
  rewrite !total_cons. destruct (has_status "completed" t); cbn [coalesce]; lia.
Qed.

Lemma completed_points_filter rows :
  total (map (fun t => if has_status "completed" t then Db.points t else Some 0) rows)
  = total (map Db.points (filter (has_status "completed") rows)).
Proof.
  induction rows as [|t rows IH]; [reflexivity|]. cbn [map filter].
  rewrite total_cons, IH. destruct (has_status "completed" t).
  - cbn [map]. rewrite total_cons. reflexivity.
  - cbn [coalesce]. lia.
Qed.

(** X3.  [total_points] is the sum of the non-NULL points of the
    non-deleted rows and [completed_points] the sum over the completed ones
    among them; when no point value is negative,
    [0 <= completed_points <= total_points]. *)
Theorem completed_points_within_total E p l s r s' :
  extract_metrics E p l s = (Ok r, s') ->
  exists conn tbl tp cp,
    fs E p = Some conn /\ Db.tasks_tbl conn = Some tbl /\
    total_points (tasks r) = PyInt tp /\ completed_points (tasks r) = PyInt cp /\
    tp = total (map Db.points (live tbl)) /\
    cp = total (map Db.points (filter (has_status "completed") (live tbl))) /\
    (Forall (fun t => 0 <= coalesce (Db.points t) 0) (live tbl) -> 0 <= cp <= tp).
Proof.
  intros H. apply extract_metrics_distribution in H.
  destruct H as (conn & tbl & Hfs & Ht & Hl & ->).
  exists conn, tbl. do 2 eexists. unfold distribution_of.
  cbn [total_points completed_points]. rewrite !coalesce_sql_sum.
  split; [exact Hfs|]. split; [exact Ht|]. split; [reflexivity|]. split; [reflexivity|].
  split; [reflexivity|].
  pose proof (completed_points_filter (live tbl)) as E0.
  split; [exact E0|]. intros Hpos. now apply completed_points_bounds.
Qed.

Lemma completed_points_within_total_witness :
  match extract_metrics team_env "team.db" "team" [] with
  | (Ok r, _) => total_points (tasks r) = PyInt 11 /\ completed_points (tasks r) = PyInt 8
  | _ => False
  end.
Proof.
  team_run r Ex.
  destruct (completed_points_within_total _ _ _ _ _ _ Ex)
    as (conn & tbl & tp & cp & Hfs & Ht & Htp & Hcp & -> & -> & _).
  team_store Hfs Ht. rewrite Htp, Hcp. split; reflexivity.
Defined.

(** ** SQL MIN and MAX *)

Lemma fold_left_min_spec r x :
  let m := fold_left Z.min r x in
  In m (x :: r) /\ Forall (fun y => m <= y) (x :: r).
Proof.
  cbn zeta. revert x. induction r as [|y r IH]; intros x; cbn [fold_left].
  - split; [now left|]. constructor; [lia|constructor].
  - destruct (IH (Z.min x y)) as [Hin Hall]. split.
    + destruct Hin as [Hm|Hm]; [|right; right; exact Hm].
      rewrite <- Hm. destruct (Z.min_spec x y) as [[_ ->]|[_ ->]]; [now left|right; now left].
    + inversion Hall as [|? ? Hh Ht]; subst.
      constructor; [lia|]. constructor; [lia|exact Ht].
Qed.

Lemma fold_left_max_spec r x :
  let m := fold_left Z.max r x in
  In m (x :: r) /\ Forall (fun y => y <= m) (x :: r).
Proof.
  cbn zeta. revert x. induction r as [|y r IH]; intros x; cbn [fold_left].
  - split; [now left|]. constructor; [lia|constructor].
  - destruct (IH (Z.max x y)) as [Hin Hall]. split.
    + destruct Hin as [Hm|Hm]; [|right; right; exact Hm].
      rewrite <- Hm. destruct (Z.max_spec x y) as [[_ ->]|[_ ->]]; [right; now left|now left].
    + inversion Hall as [|? ? Hh Ht]; subst.
      constructor; [lia|]. constructor; [lia|exact Ht].
Qed.

(** [MIN] is NULL without a non-NULL input, and the least input otherwise. *)
Lemma sql_min_spec l :
  match sql_min l with
  | None => non_null l = []
  | Some m => In m (non_null l) /\ Forall (fun y => m <= y) (non_null l)
  end.
Proof.
  unfold sql_min. destruct (non_null l) as [|x r]; [reflexivity|].
  apply fold_left_min_spec.
Qed.

Lemma sql_max_spec l :
  match sql_max l with
  | None => non_null l = []
  | Some m => In m (non_null l) /\ Forall (fun y => y <= m) (non_null l)
  end.
Proof.
  unfold sql_max. destruct (non_null l) as [|x r]; [reflexivity|].
  apply fold_left_max_spec.
Qed.

(** ** Total duration *)

Lemma time_metrics_duration E conn seq tm tbl :
  Db.tasks_tbl conn = Some tbl ->
  time_metrics E conn seq = Ok tm ->
  total_duration_ms tm
  = PyInt (duration_between (sql_min (map Db.created_at (live tbl)))
                            (sql_max (map Db.completed_at (live tbl)))).
Proof.
  intros Ht H. unfold time_metrics, from_tasks in H. rewrite Ht in H. cbn [rbind] in H.
  set (first := sql_min (map Db.created_at (live tbl))) in *.
  set (last := sql_max (map Db.completed_at (live tbl))) in *.
  inv_bind H.
  match goal with
  | Hi : interval_times _ _ _ = Ok ?iv |- _ =>
      destruct iv as [[[w b] br] qw]; cbn beta iota in H; inversion H; subst; cbn
  end.
  match goal with
  | Hd : (if _ then _ else _) = Ok _ |- _ => revert Hd
  end.
  unfold duration_between.
  destruct first as [f|], last as [la|]; cbn; intros Hd;
    try (inversion Hd; reflexivity).
  - destruct (f =? 0), (la =? 0); cbn in *; inversion Hd; reflexivity.
  - destruct (f =? 0); cbn in *; inversion Hd; reflexivity.
Qed.

Lemma extract_metrics_time E p l s r s' :
  extract_metrics E p l s = (Ok r, s') ->
  exists conn tbl,
    fs E p = Some conn /\ Db.tasks_tbl conn = Some tbl /\ live tbl <> [] /\
    time_metrics E conn (_get_sequence_table conn) = Ok (time r).
Proof.
  intros H. apply extract_metrics_inv in H. destruct H as (conn & Hfs & Hb & _).
  apply extract_body_inv in Hb. destruct Hb as (Htd & Htm & _).
  apply task_distribution_inv in Htd. destruct Htd as (tbl & Ht & Hl & _).
  exists conn, tbl. auto.
Qed.

(** X4.  [total_duration_ms] is an integer: 0 when no non-deleted row has
    a creation time or none has a completion time, and otherwise, with
    [first] the least creation time and [last] the greatest completion
    time, [last - first], except that a bound equal to the timestamp 0 is
    taken as absent and gives 0 as well. *)
Theorem total_duration_between_bounds E p l s r s' :
  extract_metrics E p l s = (Ok r, s') ->
  exists conn tbl d,
    fs E p = Some conn /\ Db.tasks_tbl conn = Some tbl /\
    total_duration_ms (time r) = PyInt d /\
    let created := non_null (map Db.created_at (live tbl)) in
    let finished := non_null (map Db.completed_at (live tbl)) in
    (created = [] \/ finished = [] -> d = 0) /\
    (forall first last,
       In first created -> Forall (fun t => first <= t) created ->
       In last finished -> Forall (fun t => t <= last) finished ->
       d = if (first =? 0) || (last =? 0) then 0 else last - first).
Proof.
  intros H. apply extract_metrics_time in H.
  destruct H as (conn & tbl & Hfs & Ht & _ & Htm).
  exists conn, tbl. eexists. split; [exact Hfs|]. split; [exact Ht|].
  split; [apply (time_metrics_duration E conn _ _ tbl Ht Htm)|].
  cbn zeta.
  pose proof (sql_min_spec (map Db.created_at (live tbl))) as Hmin.
  pose proof (sql_max_spec (map Db.completed_at (live tbl))) as Hmax.
  unfold duration_between.
  destruct (sql_min _) as [f|], (sql_max _) as [la|].
  - destruct Hmin as [Hfi Hfa], Hmax as [Hli Hla]. split.
    + intros [Hc|Hc]; [rewrite Hc in Hfi|rewrite Hc in Hli]; contradiction.
    + intros first last H1 H2 H3 H4.
      rewrite Forall_forall in Hfa, Hla, H2, H4.
      assert (first = f) by (pose proof (Hfa _ H1); pose proof (H2 _ Hfi); lia).
      assert (last = la) by (pose proof (Hla _ H3); pose proof (H4 _ Hli); lia).
      subst. reflexivity.
  - split; [reflexivity|]. intros first last _ _ H3 _. rewrite Hmax in H3. contradiction.
  - split; [reflexivity|]. intros first last H1 _ _ _. rewrite Hmin in H1. contradiction.
  - split; [reflexivity|]. intros first last H1 _ _ _. rewrite Hmin in H1. contradiction.
Qed.

Lemma total_duration_between_bounds_witness :
  match extract_metrics team_env "team.db" "team" [] with
  | (Ok r, _) => total_duration_ms (time r) = PyInt 3600000
  | _ => False
  end.
Proof.
  team_run r Ex.
  destruct (total_duration_between_bounds _ _ _ _ _ _ Ex)
    as (conn & tbl & d & Hfs & Ht & Hd & _ & H).
  team_store Hfs Ht. rewrite Hd. f_equal.
  specialize (H 1000 3601000).
  match type of H with
  | ?A -> ?B -> ?C -> ?D -> _ =>
      assert (H1 : A) by (eval_list; in_list);
      assert (H2 : B) by (eval_list; repeat constructor; lia);
      assert (H3 : C) by (eval_list; in_list);
      assert (H4 : D) by (eval_list; repeat constructor; lia)
  end.
  rewrite (H H1 H2 H3 H4). reflexivity.
Defined.

(** ** Tokens *)

Lemma ratio_3dp_safe_div n d q r :
  _safe_div (PyInt n) (PyInt d) default_0 = Ok q -> py_round q 3 = Ok r ->
  r = ratio_3dp n d.
Proof. apply round_safe_div_int. Qed.

Ltac round_quotients :=
  repeat match goal with
         | Hs : _safe_div (PyInt ?a) (PyInt ?T) default_0 = Ok ?q,
           Hp : py_round ?q ?nd = Ok ?r |- _ =>
             pose proof (round_safe_div_int a T nd q r Hs Hp); subst r; clear Hs Hp
         end.

Lemma token_metrics_value conn tbl tk :
  Db.tasks_tbl conn = Some tbl -> token_metrics conn = Ok tk ->
  let m col := total (map col (live tbl)) in
  tk = {| tokens_in := PyInt (m Db.metric_0); tokens_out := PyInt (m Db.metric_1);
          tokens_cached := PyInt (m Db.metric_2); tokens_thinking := PyInt (m Db.metric_3);
          tokens_image := PyInt (m Db.metric_4); tokens_audio := PyInt (m Db.metric_5);
          metric_6 := PyInt (m Db.metric_6); metric_7 := PyInt (m Db.metric_7);
          total_billable := PyInt (m Db.metric_0 + m Db.metric_1 + m Db.metric_3);
          cache_hit_rate_pct := rate_pct (m Db.metric_2) (m Db.metric_0 + m Db.metric_2);
          output_ratio := ratio_3dp (m Db.metric_1) (m Db.metric_0);
          thinking_overhead := ratio_3dp (m Db.metric_3) (m Db.metric_1) |}.
Proof.
  intros Ht H. cbn zeta. unfold token_metrics, from_tasks in H. rewrite Ht in H.
  cbn [rbind py_add py_mul] in H. rewrite !coalesce_sql_sum in H.
  inv_bind H. injection H as <-. round_quotients. reflexivity.
Qed.

Lemma total_nonneg l : Forall (fun o => 0 <= coalesce o 0) l -> 0 <= total l.
Proof.
  induction 1 as [|o l Ho _ IH]; [unfold total; cbn; lia|]. rewrite total_cons. lia.
Qed.

(** X5.  The token group of a snapshot: the four totals are the sums of
    the non-NULL [metric_0] to [metric_3] of the non-deleted rows,
    [total_billable] is input + output + thinking (cached tokens are not
    billed), the cache hit rate is [round(cached * 100 / (input + cached),
    1)], the output ratio [round(output / input, 3)] and the thinking
    overhead [round(thinking / output, 3)]; each of the three is [0.0] when
    its denominator is zero, and with non-negative totals the cache hit
    rate is a number of tenths between 0 and 1000. *)
Theorem token_totals_and_ratios E p l s r s' :
  extract_metrics E p l s = (Ok r, s') ->
  exists conn tbl,
    fs E p = Some conn /\ Db.tasks_tbl conn = Some tbl /\
    let m col := total (map col (live tbl)) in
    let tin := m Db.metric_0 in
    let tout := m Db.metric_1 in
    let cached := m Db.metric_2 in
    let thinking := m Db.metric_3 in
    tokens_in (tokens r) = PyInt tin /\ tokens_out (tokens r) = PyInt tout /\
    tokens_cached (tokens r) = PyInt cached /\ tokens_thinking (tokens r) = PyInt thinking /\
    total_billable (tokens r) = PyInt (tin + tout + thinking) /\
    cache_hit_rate_pct (tokens r) = rate_pct cached (tin + cached) /\
    output_ratio (tokens r) = ratio_3dp tout tin /\
    thinking_overhead (tokens r) = ratio_3dp thinking tout /\
    (tin + cached = 0 -> cache_hit_rate_pct (tokens r) = PyFloat 0) /\
    (tin = 0 -> output_ratio (tokens r) = PyFloat 0) /\
    (tout = 0 -> thinking_overhead (tokens r) = PyFloat 0) /\
    (0 <= tin -> 0 <= cached -> 0 < tin + cached ->
       exists k, cache_hit_rate_pct (tokens r) = tenths k /\ 0 <= k <= 1000).
Proof.
  intros H. apply extract_metrics_inv in H. destruct H as (conn & Hfs & Hb & _).
  apply extract_body_inv in Hb. destruct Hb as (Htd & _ & Htk & _).
  apply task_distribution_inv in Htd. destruct Htd as (tbl & Ht & _ & _).
  exists conn, tbl. split; [exact Hfs|]. split; [exact Ht|].
  apply (token_metrics_value conn tbl _ Ht) in Htk. cbn zeta in *.
  rewrite Htk. cbn.
  repeat (split; [reflexivity|]).
  split; [intros ->; reflexivity|]. split; [intros ->; reflexivity|].
  split; [intros ->; reflexivity|].
  intros Hi Hc Hpos. eexists. split; [apply rate_pct_tenths; lia|].
  apply pct_steps_range; lia.
Qed.

Lemma token_totals_and_ratios_witness :
  match extract_metrics team_env "team.db" "team" [] with
  | (Ok r, _) =>
      total_billable (tokens r) = PyInt 5200 /\
      cache_hit_rate_pct (tokens r) = PyFloat 75 /\
      output_ratio (tokens r) = PyFloat (1 # 4)
  | _ => False
  end.
Proof.
  team_run r Ex.
  destruct (token_totals_and_ratios _ _ _ _ _ _ Ex)
    as (conn & tbl & Hfs & Ht & _ & _ & _ & _ & Hb & Hc & Ho & _).
  team_store Hfs Ht. rewrite Hb, Hc, Ho. repeat split; vm_compute; reflexivity.
Defined.

(** ** Blocking ratio *)

Lemma sum_durations_nonneg now_s rows :
  Forall (fun r => match Db.timestamp r with
                   | Some t => t <= coalesce (Db.end_timestamp r) (now_s * 1000)
                   | None => True
                   end) rows ->
  0 <= sum_durations now_s rows.
Proof.
  intros H. unfold sum_durations. rewrite coalesce_sql_sum. apply total_nonneg.
  induction H as [|r rows Hr _ IH]; cbn [map]; constructor; [|exact IH].
  destruct (Db.timestamp r); cbn [coalesce]; lia.
Qed.

Lemma time_metrics_blocking E conn seq tm :
  time_metrics E conn (Some seq) = Ok tm ->
  exists col wrows brows,
    status_column conn seq = Ok col /\
    select_intervals conn seq col ["working"%string] = Ok wrows /\
    select_intervals conn seq col ["pending"%string; "assigned"%string] = Ok brows /\
    let W := sum_durations (now_working E) wrows in
    let B := sum_durations (now_blocked E) brows in
    total_working_ms tm = PyInt W /\ total_blocked_ms tm = PyInt B /\
    blocking_ratio_pct tm = rate_pct B (W + B).
Proof.
  unfold time_metrics. intros H. inv_bind H.
  match goal with
  | Hi : interval_times _ _ _ = Ok ?iv |- _ =>
      destruct iv as [[[w b] br] qw]; cbn beta iota in H; inversion H; subst; cbn;
      unfold interval_times in Hi; inv_bind Hi; inversion Hi; subst
  end.
  do 3 eexists. split; [eassumption|]. split; [eassumption|]. split; [eassumption|].
  cbn zeta. split; [reflexivity|]. split; [reflexivity|].
  repeat match goal with
         | Hx : py_add (PyInt _) (PyInt _) = Ok _ |- _ => cbn in Hx; injection Hx as <-
         | Hx : py_mul (PyInt _) (PyInt _) = Ok _ |- _ => cbn in Hx; injection Hx as <-
         end.
  match goal with
  | Hs : _safe_div (PyInt (?B * 100)) (PyInt ?T) default_0 = Ok ?q,
    Hr : py_round ?q 1 = Ok ?br |- _ =>
      exact (rate_pct_inv B T q br Hs Hr)
  end.
Qed.

(** X6.  Without a sequence table the working time, the blocked time, the
    blocking ratio and the average queue wait keep their defaults, although
    the queue wait is read from the [tasks] table alone.  With a sequence
    table, the working time [W] sums the rows labelled [working], the
    blocked time [B] those labelled [pending] or [assigned], and the
    blocking ratio is [round(B * 100 / (W + B), 1)]: [0.0] when
    [W + B = 0], and a number of tenths between 0 and 1000 when neither sum
    is negative. *)
Theorem blocking_ratio_range E p l s r s' :
  extract_metrics E p l s = (Ok r, s') ->
  exists conn,
    fs E p = Some conn /\
    (_get_sequence_table conn = None ->
       total_working_ms (time r) = PyInt 0 /\ total_blocked_ms (time r) = PyInt 0 /\
       blocking_ratio_pct (time r) = PyFloat 0 /\ avg_queue_wait_ms (time r) = PyFloat 0) /\
    forall seq, _get_sequence_table conn = Some seq ->
    exists col wrows brows W B,
      status_column conn seq = Ok col /\
      select_intervals conn seq col ["working"%string] = Ok wrows /\
      select_intervals conn seq col ["pending"%string; "assigned"%string] = Ok brows /\
      W = sum_durations (now_working E) wrows /\
      B = sum_durations (now_blocked E) brows /\
      total_working_ms (time r) = PyInt W /\ total_blocked_ms (time r) = PyInt B /\
      blocking_ratio_pct (time r) = rate_pct B (W + B) /\
      (W + B = 0 -> blocking_ratio_pct (time r) = PyFloat 0) /\
      (0 <= W -> 0 <= B -> 0 < W + B ->
         exists k, blocking_ratio_pct (time r) = tenths k /\ 0 <= k <= 1000).
Proof.
  intros H. apply extract_metrics_inv in H. destruct H as (conn & Hfs & Hb & _).
  apply extract_body_inv in Hb. destruct Hb as (_ & Htm & _).
  exists conn. split; [exact Hfs|]. split.
  - intros Hn. rewrite Hn in Htm. unfold time_metrics in Htm. inv_bind Htm.
    match goal with
    | Hi : interval_times _ _ None = Ok ?iv |- _ =>
        cbn in Hi; injection Hi as <-; cbn in Htm; injection Htm as <-
    end.
    cbn. auto.
  - intros seq Hs. rewrite Hs in Htm. apply time_metrics_blocking in Htm.
    destruct Htm as (col & wrows & brows & Hc & Hw & Hbk & HW & HB & HR).
    exists col, wrows, brows. do 2 eexists.
    split; [exact Hc|]. split; [exact Hw|]. split; [exact Hbk|].
    split; [reflexivity|]. split; [reflexivity|].
    split; [exact HW|]. split; [exact HB|]. split; [exact HR|].
    rewrite HR. split.
    + intros ->. reflexivity.
    + intros H0 H1 H2. eexists. split; [apply rate_pct_tenths; lia|].
      apply pct_steps_range; lia.
Qed.

Lemma blocking_ratio_range_witness :
  match extract_metrics team_env "team.db" "team" [] with
  | (Ok r, _) =>
      total_working_ms (time r) = PyInt 210000 /\
      total_blocked_ms (time r) = PyInt 5000 /\
      blocking_ratio_pct (time r) = tenths 23
  | _ => False
  end.
Proof.
  team_run r Ex.
  destruct (blocking_ratio_range _ _ _ _ _ _ Ex) as (conn & Hfs & _ & H).
  vm_compute in Hfs. injection Hfs as <-.
  destruct (H "task_sequence"%string eq_refl)
    as (col & wrows & brows & W & B & Hc & Hw & Hb & -> & -> & HW & HB & HR & _).
  vm_compute in Hc. injection Hc as <-.
  vm_compute in Hw. injection Hw as <-.
  vm_compute in Hb. injection Hb as <-.
  rewrite HW, HB, HR. repeat split; vm_compute; reflexivity.
Defined.

(** ** Sign of a rounded number *)

Lemma fl_pos_half q : (1 # 2 ^ 1000 <= q)%Q -> (q * (1 # 2) <= fl q)%Q.
Proof.
  intros Hq. pose proof (fl_err q) as H.
  assert (Hq0 : (0 <= q)%Q).
  { apply Qle_trans with (1 # 2 ^ 1000)%Q; [vm_compute; discriminate|exact Hq]. }
  rewrite (Qabs_pos q Hq0) in H.
  apply Qabs_Qle_condition in H. destruct H as [H _].
  assert (T1 : (q * (1 # 2 ^ 53) <= q * (1 # 4))%Q).
  { rewrite !(Qmult_comm q). apply Qmult_le_compat_r; [vm_compute; discriminate|exact Hq0]. }
  assert (T2 : (1 # 2 ^ 1075 <= (1 # 2 ^ 1000) * (1 # 4))%Q) by (vm_compute; discriminate).
  assert (T3 : ((1 # 2 ^ 1000) * (1 # 4) <= q * (1 # 4))%Q).
  { apply Qmult_le_compat_r; [exact Hq|vm_compute; discriminate]. }
  lra.
Qed.

Lemma fl_neg_half q : (q <= - (1 # 2 ^ 1000))%Q -> (fl q <= q * (1 # 2))%Q.
Proof.
  intros Hq. pose proof (fl_err q) as H.
  assert (Hq0 : (q <= 0)%Q).
  { apply Qle_trans with (- (1 # 2 ^ 1000))%Q; [exact Hq|vm_compute; discriminate]. }
  rewrite (Qabs_neg q Hq0) in H.
  apply Qabs_Qle_condition in H. destruct H as [_ H].
  assert (T1 : (- q * (1 # 2 ^ 53) <= - q * (1 # 4))%Q).
  { rewrite !(Qmult_comm (- q)). apply Qmult_le_compat_r; [vm_compute; discriminate|lra]. }
  assert (T2 : (1 # 2 ^ 1075 <= (1 # 2 ^ 1000) * (1 # 4))%Q) by (vm_compute; discriminate).
  assert (T3 : ((1 # 2 ^ 1000) * (1 # 4) <= - q * (1 # 4))%Q).
  { apply Qmult_le_compat_r; [lra|vm_compute; discriminate]. }
  lra.
Qed.

Lemma hours_of_pos d : 0 < d -> (1 # 7200000 <= hours_of d)%Q.
Proof.
  intros Hd. unfold hours_of.
  change (inject_Z d / inject_Z 3600000)%Q with (inject_Z d * (1 # 3600000))%Q.
  assert (H1 : (inject_Z 1 <= inject_Z d)%Q) by (rewrite <- Zle_Qle; lia).
  change (inject_Z 1) with 1%Q in H1.
  assert (H2 : (1 # 2 ^ 1000 <= inject_Z d * (1 # 3600000))%Q).
  { apply Qle_trans with (1 * (1 # 3600000))%Q; [vm_compute; discriminate|].
    apply Qmult_le_compat_r; [exact H1|vm_compute; discriminate]. }
  pose proof (fl_pos_half _ H2) as H3.
  assert (H4 : (1 * (1 # 3600000) <= inject_Z d * (1 # 3600000))%Q).
  { apply Qmult_le_compat_r; [exact H1|vm_compute; discriminate]. }
  assert (H5 : (1 # 7200000 == 1 * (1 # 3600000) * (1 # 2))%Q) by reflexivity.
  lra.
Qed.

Lemma hours_of_neg d : d < 0 -> (hours_of d <= - (1 # 7200000))%Q.
Proof.
  intros Hd. unfold hours_of.
  change (inject_Z d / inject_Z 3600000)%Q with (inject_Z d * (1 # 3600000))%Q.
  assert (H1 : (inject_Z d <= inject_Z (-1))%Q) by (rewrite <- Zle_Qle; lia).
  change (inject_Z (-1)) with (-1)%Q in H1.
  assert (H4 : (inject_Z d * (1 # 3600000) <= -1 * (1 # 3600000))%Q).
  { apply Qmult_le_compat_r; [exact H1|vm_compute; discriminate]. }
  assert (H2 : (inject_Z d * (1 # 3600000) <= - (1 # 2 ^ 1000))%Q).
  { apply Qle_trans with (-1 * (1 # 3600000))%Q; [exact H4|vm_compute; discriminate]. }
  pose proof (fl_neg_half _ H2) as H3.
  assert (H5 : (- (1 # 7200000) == -1 * (1 # 3600000) * (1 # 2))%Q) by reflexivity.
  lra.
Qed.

Lemma hours_of_0 : hours_of 0 = 0%Q.
Proof. reflexivity. Qed.

Lemma hours_of_nonzero d : d <> 0 -> ~ (hours_of d == 0)%Q.
Proof.
  intros Hd H. destruct (Z.lt_total d 0) as [Hn|[->|Hp]]; [|congruence|].
  - pose proof (hours_of_neg d Hn) as H1. rewrite H in H1. revert H1. vm_compute. congruence.
  - pose proof (hours_of_pos d Hp) as H1. rewrite H in H1. revert H1. vm_compute. congruence.
Qed.

Lemma hours_of_positive d : negb (Qle_bool (hours_of d) 0) = (0 <? d).
Proof.
  destruct (Z.ltb_spec 0 d) as [Hp|Hn].
  - pose proof (hours_of_pos d Hp) as H.
    destruct (Qle_bool (hours_of d) 0) eqn:E; [|reflexivity].
    apply Qle_bool_iff in E.
    assert (H0 : (0 < 1 # 7200000)%Q) by reflexivity. lra.
  - assert (H : (hours_of d <= 0)%Q).
    { destruct (Z.eq_dec d 0) as [->|Hne]; [rewrite hours_of_0; lra|].
      pose proof (hours_of_neg d ltac:(lia)) as H.
      assert (H0 : (0 < 1 # 7200000)%Q) by reflexivity. lra. }
    apply Qle_bool_iff in H. now rewrite H.
Qed.

(** ** Throughput *)

Lemma per_hour_safe_div n h q r :
  _safe_div (PyInt n) (PyFloat h) default_0 = Ok q -> py_round q 2 = Ok r ->
  r = per_hour n h.
Proof.
  unfold _safe_div, per_hour, truthy, py_truediv, default_0, to_float.
  destruct (Qeq_bool h 0) eqn:E; cbn [negb rbind].
  - intros [= <-]. cbn [py_round]. rewrite round_float_0. now intros [= <-].
  - destruct (overflows _); cbn [rbind]; [discriminate|]. rewrite E.
    intros [= <-]. cbn [py_round]. now intros [= <-].
Qed.

Lemma safe_div_hours d q :
  _safe_div (PyInt d) (PyInt 3600000) default_0 = Ok q -> q = PyFloat (hours_of d).
Proof.
  rewrite safe_div_int. cbn [Z.eqb]. destruct (overflows _); [discriminate|].
  now intros [= <-].
Qed.

Lemma throughput_metrics_value tm td d c cp dt :
  total_duration_ms tm = PyInt d -> completed td = PyInt c ->
  completed_points td = PyInt cp ->
  throughput_metrics tm td = Ok dt ->
  dt = (PyFloat (hours_of d),
        {| tasks_per_hour := per_hour c (hours_of d);
           points_per_hour := per_hour cp (hours_of d);
           avg_tasks_per_agent_hour := float_0 |}).
Proof.
  intros Hd Hc Hcp. unfold throughput_metrics. rewrite Hd, Hc, Hcp. intros H.
  inv_bind H. injection H as <-.
  match goal with
  | Hh : _safe_div (PyInt d) (PyInt 3600000) default_0 = Ok _ |- _ =>
      apply safe_div_hours in Hh; subst
  end.
  repeat match goal with
         | Hs : _safe_div (PyInt ?n) (PyFloat ?h) default_0 = Ok ?q,
           Hp : py_round ?q 2 = Ok ?r |- _ =>
             pose proof (per_hour_safe_div n h q r Hs Hp); subst r; clear Hs Hp
         end.
  reflexivity.
Qed.

Lemma per_agent_throughput_value td d c n tp tp' :
  completed td = PyInt c ->
  per_agent_throughput td (PyFloat (hours_of d)) (PyInt n) tp = Ok tp' ->
  tp' = {| tasks_per_hour := tasks_per_hour tp;
           points_per_hour := points_per_hour tp;
           avg_tasks_per_agent_hour :=
             if (0 <? n) && (0 <? d)
             then per_hour c (fl (hours_of d * fl (inject_Z n)))
             else avg_tasks_per_agent_hour tp |}.
Proof.
  intros Hc. unfold per_agent_throughput, py_gt, py_lt. cbn [num_val rbind].
  assert (Hn : negb (Qle_bool (inject_Z n) (inject_Z 0)) = (0 <? n)).
  { destruct (Z.ltb_spec 0 n) as [Hp|Hn].
    - destruct (Qle_bool (inject_Z n) (inject_Z 0)) eqn:E; [|reflexivity].
      apply Qle_bool_iff in E. rewrite <- Zle_Qle in E. lia.
    - assert (H : (inject_Z n <= inject_Z 0)%Q) by (rewrite <- Zle_Qle; lia).
      apply Qle_bool_iff in H. now rewrite H. }
  rewrite Hn. destruct (0 <? n); cbn [rbind andb].
  - change (inject_Z 0) with 0%Q. rewrite hours_of_positive.
    destruct (0 <? d); cbn [rbind].
    + cbn [py_mul to_float rbind]. rewrite Hc.
      destruct (overflows (inject_Z n)); cbn [rbind]; [discriminate|].
      intros H. inv_bind H. injection H as <-.
      match goal with
      | Hs : _safe_div (PyInt ?k) (PyFloat ?h) default_0 = Ok ?q,
        Hp : py_round ?q 2 = Ok ?r |- _ =>
          now rewrite (per_hour_safe_div k h q r Hs Hp)
      end.
    + intros [= <-]. destruct tp; reflexivity.
  - intros [= <-]. destruct tp; reflexivity.
Qed.

Lemma extract_body_throughput E conn l p r :
  extract_body E conn l p = Ok r ->
  exists dt,
    throughput_metrics (time r) (tasks r) = Ok dt /\
    per_agent_throughput (tasks r) (fst dt) (agent_count r) (snd dt) = Ok (throughput r) /\
    agent_count r = PyInt (Z.of_nat (List.length (agents r))).
Proof.
  unfold extract_body. intros H. inv_bind H. inversion H; subst; cbn.
  eexists. split; [eassumption|]. split; [assumption|reflexivity].
Qed.

(** X7.  Throughput needs a duration.  With [d] the total duration in
    milliseconds, [tasks_per_hour] and [points_per_hour] are the completed
    count and the completed points divided by [d / 3_600_000] and rounded
    to two decimals; all three throughput fields are [0.0] when [d = 0].
    For [d <> 0] the number of hours is never rounded to zero, so the
    division is a real one.  [avg_tasks_per_agent_hour] is filled only when there is an
    agent and [d > 0], and then its denominator is positive. *)
Theorem throughput_needs_duration E p l s r s' :
  extract_metrics E p l s = (Ok r, s') ->
  exists d c cp n,
    total_duration_ms (time r) = PyInt d /\
    completed (tasks r) = PyInt c /\
    completed_points (tasks r) = PyInt cp /\
    agent_count r = PyInt n /\ n = Z.of_nat (List.length (agents r)) /\
    tasks_per_hour (throughput r) = per_hour c (hours_of d) /\
    points_per_hour (throughput r) = per_hour cp (hours_of d) /\
    avg_tasks_per_agent_hour (throughput r)
    = (if (0 <? n) && (0 <? d)
       then per_hour c (fl (hours_of d * fl (inject_Z n)))
       else PyFloat 0) /\
    (d = 0 ->
       tasks_per_hour (throughput r) = PyFloat 0 /\
       points_per_hour (throughput r) = PyFloat 0 /\
       avg_tasks_per_agent_hour (throughput r) = PyFloat 0) /\
    (d <> 0 -> ~ (hours_of d == 0)%Q) /\
    (0 < n -> 0 < d -> (0 < fl (hours_of d * fl (inject_Z n)))%Q).
Proof.
  intros H.
  destruct (extract_metrics_time _ _ _ _ _ _ H) as (conn & tbl & Hfs & Ht & Hl & Htm).
  destruct (extract_metrics_distribution _ _ _ _ _ _ H) as (conn' & tbl' & Hfs' & Ht' & _ & Htd).
  apply extract_metrics_inv in H. destruct H as (conn2 & Hfs2 & Hb & _).
  apply extract_body_throughput in Hb. destruct Hb as (dt & Hdt & Hpa & Hn).
  pose proof (time_metrics_duration _ _ _ _ _ Ht Htm) as Hd.
  set (d := duration_between _ _) in Hd.
  assert (Hc : completed (tasks r) = PyInt (count_if (has_status "completed") (live tbl')))
    by (rewrite Htd; reflexivity).
  assert (Hcp : exists cp, completed_points (tasks r) = PyInt cp)
    by (rewrite Htd; cbn; eauto).
  destruct Hcp as (cp & Hcp).
  apply (throughput_metrics_value _ _ _ _ _ _ Hd Hc Hcp) in Hdt. subst dt.
  cbn [fst snd] in Hpa. rewrite Hn in Hpa.
  apply (per_agent_throughput_value _ d _ _ _ _ Hc) in Hpa. symmetry in Hpa.
  exists d, (count_if (has_status "completed") (live tbl')), cp,
    (Z.of_nat (List.length (agents r))).
  rewrite <- Hpa. cbn [tasks_per_hour points_per_hour avg_tasks_per_agent_hour].
  repeat (split; [first [assumption|reflexivity]|]).
  split.
  - intros ->. rewrite hours_of_0, andb_false_r. auto.
  - split; [apply hours_of_nonzero|].
    intros Hn0 Hd0. pose proof (hours_of_pos d Hd0) as Hh.
    assert (H1 : (inject_Z 1 <= inject_Z (Z.of_nat (List.length (agents r))))%Q)
      by (rewrite <- Zle_Qle; lia).
    change (inject_Z 1) with 1%Q in H1.
    set (x := inject_Z (Z.of_nat (List.length (agents r)))) in *.
    assert (H2 : (x * (1 # 2) <= fl x)%Q).
    { apply fl_pos_half. apply Qle_trans with 1%Q; [vm_compute; discriminate|exact H1]. }
    set (h := hours_of d) in *.
    assert (H3 : ((1 # 7200000) * (1 # 2) <= h * fl x)%Q).
    { apply Qle_trans with ((1 # 7200000) * fl x)%Q.
      - rewrite !(Qmult_comm (1 # 7200000)).
        apply Qmult_le_compat_r; [lra|vm_compute; discriminate].
      - apply Qmult_le_compat_r; [exact Hh|lra]. }
    assert (H4 : (1 # 2 ^ 1000 <= h * fl x)%Q).
    { apply Qle_trans with ((1 # 7200000) * (1 # 2))%Q; [vm_compute; discriminate|exact H3]. }
    pose proof (fl_pos_half _ H4) as H5.
    assert (H6 : (0 < (1 # 7200000) * (1 # 2) * (1 # 2))%Q) by reflexivity.
    lra.
Qed.

Lemma throughput_needs_duration_witness :
  exists r,
    extract_metrics team_env "team.db" "team" []
    = (Ok r, [Connect "team.db"; Close "team.db"]) /\
    tasks_per_hour (throughput r) = PyFloat 2 /\
    points_per_hour (throughput r) = PyFloat 8 /\
    avg_tasks_per_agent_hour (throughput r) = PyFloat 1.
Proof.
  eexists. split; [vm_compute; reflexivity|].
  match goal with
  | |- tasks_per_hour (throughput ?r) = _ /\ _ =>
      destruct (throughput_needs_duration team_env "team.db" "team" [] r
                  [Connect "team.db"; Close "team.db"] ltac:(vm_compute; reflexivity))
        as (d & c & cp & n & Hd & Hc & Hcp & Hn & _ & H1 & H2 & H3 & _)
  end.
  vm_compute in Hd. injection Hd as <-.
  vm_compute in Hc. injection Hc as <-.
  vm_compute in Hcp. injection Hcp as <-.
  vm_compute in Hn. injection Hn as <-.
  rewrite H1, H2, H3. repeat split; vm_compute; reflexivity.
Defined.

(** ** Cost *)

Lemma cost_per_safe_div C n q r :
  _safe_div (PyFloat C) (PyInt n) default_0 = Ok q -> py_round q 4 = Ok r ->
  r = cost_per C n.
Proof.
  unfold _safe_div, cost_per, truthy, py_truediv, default_0, to_float.
  destruct (Z.eqb_spec n 0) as [->|Hn]; cbn [negb rbind].
  - intros [= <-]. cbn [py_round]. rewrite round_float_0. now intros [= <-].
  - destruct (overflows _); cbn [rbind]; [discriminate|].
    rewrite Qeq_bool_false by now apply fl_int_nonzero.
    intros [= <-]. cbn [py_round]. now intros [= <-].
Qed.

Lemma cost_per_zero_cost n : cost_per 0 n = PyFloat 0.
Proof.
  unfold cost_per. destruct (n =? 0); [reflexivity|].
  assert (H : (0 / fl (inject_Z n) == 0)%Q) by (unfold Qdiv; apply Qmult_0_l).
  rewrite (fl_zero _ H). now rewrite round_float_0.
Qed.

Lemma sql_sum_real_all_null E l :
  Forall (fun o => o = None) l -> sql_sum_real E l = None.
Proof.
  intros H. unfold sql_sum_real.
  assert (Hn : non_null l = []) by (induction H as [|o l -> _ IH]; [reflexivity|exact IH]).
  now rewrite Hn.
Qed.

(** X8.  The cost group: there is at least one non-deleted task, so the
    average cost per task is always a real quotient; the cost per completed
    task is [0.0] when no task is completed and the cost per point is
    [0.0] when the completed points add up to 0, whatever was spent; and
    when no non-deleted task carries a cost, all four fields are [0.0]. *)
Theorem cost_ratios_guarded E p l s r s' :
  extract_metrics E p l s = (Ok r, s') ->
  exists conn tbl,
    fs E p = Some conn /\ Db.tasks_tbl conn = Some tbl /\
    let rows := live tbl in
    let C := cost_of E rows in
    let n := sql_count rows in
    let c := count_if (has_status "completed") rows in
    let pts := total (map (fun t => if has_status "completed" t
                                     then Db.points t else Some 0) rows) in
    0 < n /\
    total_cost_usd (cost r) = PyFloat (round_float C 4) /\
    avg_cost_per_task (cost r) = PyFloat (round_float (fl (C / fl (inject_Z n))) 4) /\
    cost_per_completed_task (cost r) = cost_per C c /\
    cost_per_point (cost r) = cost_per C pts /\
    (c = 0 -> cost_per_completed_task (cost r) = PyFloat 0) /\
    (pts = 0 -> cost_per_point (cost r) = PyFloat 0) /\
    (Forall (fun t => Db.cost_usd t = None) rows ->
       total_cost_usd (cost r) = PyFloat 0 /\ avg_cost_per_task (cost r) = PyFloat 0 /\
       cost_per_completed_task (cost r) = PyFloat 0 /\ cost_per_point (cost r) = PyFloat 0).
Proof.
  intros H. apply extract_metrics_inv in H. destruct H as (conn & Hfs & Hb & _).
  apply extract_body_inv in Hb. destruct Hb as (Htd & _ & _ & Hcm & _).
  apply task_distribution_inv in Htd. destruct Htd as (tbl & Ht & Hl & _).
  exists conn, tbl. split; [exact Hfs|]. split; [exact Ht|]. cbn zeta.
  assert (Hn : 0 < sql_count (live tbl)).
  { unfold sql_count. destruct (live tbl); [congruence|cbn; lia]. }
  unfold cost_metrics, from_tasks in Hcm. rewrite Ht in Hcm. cbn [rbind py_round] in Hcm.
  rewrite (sum_case_count _ _ Hl), coalesce_sql_sum in Hcm. cbn [cell_int] in Hcm.
  fold (cost_of E (live tbl)) in Hcm.
  inv_bind Hcm. injection Hcm as <-.
  repeat match goal with
         | Hs : _safe_div (PyFloat ?C) (PyInt ?n) default_0 = Ok ?q,
           Hp : py_round ?q 4 = Ok ?r |- _ =>
             pose proof (cost_per_safe_div C n q r Hs Hp); subst r; clear Hs Hp
         end.
  cbn [total_cost_usd avg_cost_per_task cost_per_completed_task cost_per_point].
  assert (Ha : cost_per (cost_of E (live tbl)) (sql_count (live tbl))
               = PyFloat (round_float (fl (cost_of E (live tbl)
                                           / fl (inject_Z (sql_count (live tbl))))) 4)).
  { unfold cost_per. destruct (Z.eqb_spec (sql_count (live tbl)) 0); [lia|reflexivity]. }
  split; [exact Hn|]. split; [reflexivity|]. split; [exact Ha|].
  split; [reflexivity|]. split; [reflexivity|].
  split; [intros ->; reflexivity|]. split; [intros ->; reflexivity|].
  intros Hnull.
  assert (H0 : cost_of E (live tbl) = 0%Q).
  { unfold cost_of. rewrite sql_sum_real_all_null; [reflexivity|].
    apply Forall_map. exact Hnull. }
  rewrite H0, !cost_per_zero_cost, round_float_0. auto.
Qed.

Lemma cost_ratios_guarded_witness :
  match extract_metrics team_env "team.db" "team" [] with
  | (Ok r, _) =>
      total_cost_usd (cost r) = PyFloat (7 # 4) /\
      avg_cost_per_task (cost r) = PyFloat (7 # 16) /\
      cost_per_completed_task (cost r) = PyFloat (7 # 8)
  | _ => False
  end.
Proof.
  team_run r Ex.
  destruct (cost_ratios_guarded _ _ _ _ _ _ Ex)
    as (conn & tbl & Hfs & Ht & _ & Htc & Ha & Hc & _).
  team_store Hfs Ht. rewrite Htc, Ha, Hc. repeat split; vm_compute; reflexivity.
Defined.

(** ** Agents *)

Lemma insert_desc_map {A B} (f : A -> B) (key : B -> Q) x l :
  insert_desc key (f x) (map f l) = map f (insert_desc (fun a => key (f a)) x l).
Proof.
  induction l as [|y l IH]; cbn; [reflexivity|].
  destruct (Qle_bool (key (f y)) (key (f x))); cbn; [reflexivity|]. now rewrite IH.
Qed.

Lemma order_by_desc_map {A B} (f : A -> B) (key : B -> Q) l :
  order_by_desc key (map f l) = map f (order_by_desc (fun a => key (f a)) l).
Proof.
  induction l as [|x l IH]; cbn; [reflexivity|].
  fold (order_by_desc key (map f l)). rewrite IH. apply insert_desc_map.
Qed.

Lemma insert_desc_perm {A} (key : A -> Q) x l : Permutation (x :: l) (insert_desc key x l).
Proof.
  induction l as [|y l IH]; cbn; [reflexivity|].
  destruct (Qle_bool (key y) (key x)); [reflexivity|].
  rewrite perm_swap. now constructor.
Qed.

Lemma order_by_desc_perm {A} (key : A -> Q) l : Permutation l (order_by_desc key l).
Proof.
  induction l as [|x l IH]; cbn; [constructor|].
  rewrite <- insert_desc_perm. now constructor.
Qed.

Lemma insert_desc_sorted {A} (key : A -> Q) x l :
  StronglySorted (fun a b => (key b <= key a)%Q) l ->
  StronglySorted (fun a b => (key b <= key a)%Q) (insert_desc key x l).
Proof.
  induction 1 as [|y l Hs IH Hall]; cbn.
  - constructor; constructor.
  - destruct (Qle_bool (key y) (key x)) eqn:E.
    + apply Qle_bool_iff in E. constructor; [constructor; assumption|].
      constructor; [exact E|].
      eapply Forall_impl; [|exact Hall]. cbn. intros a Ha. now apply Qle_trans with (key y).
    + constructor; [exact IH|].
      assert (Hxy : (key x <= key y)%Q).
      { destruct (Qlt_le_dec (key x) (key y)) as [Hlt|Hle]; [now apply Qlt_le_weak|].
        apply Qle_bool_iff in Hle. congruence. }
      rewrite <- (insert_desc_perm key x l). constructor; assumption.
Qed.

Lemma order_by_desc_sorted {A} (key : A -> Q) l :
  StronglySorted (fun a b => (key b <= key a)%Q) (order_by_desc key l).
Proof.
  induction l as [|x l IH]; cbn; [constructor|]. now apply insert_desc_sorted.
Qed.

Lemma StronglySorted_map {A B} (f : A -> B) (R : A -> A -> Prop) (R' : B -> B -> Prop) l :
  (forall x y, R x y -> R' (f x) (f y)) ->
  StronglySorted R l -> StronglySorted R' (map f l).
Proof.
  intros HR. induction 1 as [|x l Hs IH Hall]; cbn [map]; constructor; [exact IH|].
  apply Forall_map. eapply Forall_impl; [|exact Hall]. intros y. apply HR.
Qed.

Lemma sequence_map_Ok {A B} (f : A -> B) l :
  sequence (map (fun a => Ok (f a)) l) = Ok (map f l).
Proof. induction l as [|x l IH]; cbn; [reflexivity|]. now rewrite IH. Qed.

Lemma filter_worker_rows k tbl :
  filter (fun r => String.eqb (coalesce (Db.worker_id r) EmptyString) k)
         (filter (fun t => negb (is_null (Db.worker_id t))) (live tbl))
  = worker_rows k tbl.
Proof.
  unfold worker_rows. induction (live tbl) as [|t rows IH]; cbn [filter]; [reflexivity|].
  destruct (Db.worker_id t) as [w|] eqn:Ew; cbn [is_null negb filter coalesce].
  - rewrite Ew. cbn [coalesce]. destruct (String.eqb w k); now rewrite IH.
  - exact IH.
Qed.

Lemma worker_keys tbl :
  map (fun t => coalesce (Db.worker_id t) EmptyString)
      (filter (fun t => negb (is_null (Db.worker_id t))) (live tbl))
  = non_null (map Db.worker_id (live tbl)).
Proof.
  induction (live tbl) as [|t rows IH]; cbn [filter map non_null]; [reflexivity|].
  destruct (Db.worker_id t) eqn:Ew; cbn [is_null negb map non_null];
    rewrite ?Ew; cbn [coalesce]; now rewrite IH.
Qed.

Lemma total_as_coalesce l : coalesce (sql_sum l) 0 = total l.
Proof. apply coalesce_sql_sum. Qed.

Lemma agent_row_value E w rows :
  rows <> [] ->
  agent_row E (w, rows) = (cost_of E rows, Ok (agent_of E w rows)).
Proof.
  intros Hr. unfold agent_row, agent_of. cbn [fst snd py_round rbind].
  rewrite !(sum_case_count _ _ Hr), !coalesce_sql_sum. reflexivity.
Qed.

Lemma worker_rows_nonempty w tbl :
  In w (non_null (map Db.worker_id (live tbl))) -> worker_rows w tbl <> [].
Proof.
  unfold worker_rows. induction (live tbl) as [|t rows IH]; cbn [map non_null filter].
  - intros [].
  - destruct (Db.worker_id t) as [x|] eqn:Ex.
    + cbn [In]. destruct (String.eqb_spec x w) as [->|Hne]; [intros _; discriminate|].
      intros [H|H]; [contradiction|auto].
    + auto.
Qed.

(** The worker query as one expression over the distinct workers. *)
Lemma agent_stats_value E conn tbl :
  Db.tasks_tbl conn = Some tbl ->
  agent_stats E conn
  = Ok (map (fun w => agent_of E w (worker_rows w tbl))
            (order_by_desc (fun w => cost_of E (worker_rows w tbl))
                           (distinct (non_null (map Db.worker_id (live tbl)))))).
Proof.
  intros Ht. unfold agent_stats, from_tasks. rewrite Ht. cbn [rbind].
  unfold group_by. rewrite worker_keys.
  set (ws := distinct (non_null (map Db.worker_id (live tbl)))).
  assert (Hws : forall w, In w ws -> In w (non_null (map Db.worker_id (live tbl))))
    by (intros w; apply distinct_In).
  rewrite map_map.
  rewrite (map_ext_in _ (fun w => (cost_of E (worker_rows w tbl),
                                   Ok (agent_of E w (worker_rows w tbl))))).
  2:{ intros w Hw. rewrite filter_worker_rows. apply agent_row_value.
      apply worker_rows_nonempty. auto. }
  rewrite (order_by_desc_map
             (fun w => (cost_of E (worker_rows w tbl), Ok (agent_of E w (worker_rows w tbl))))
             fst).
  rewrite map_map. cbn [fst snd]. apply sequence_map_Ok.
Qed.

(** X9.  The agent list has exactly one entry per worker that owns a
    non-deleted task, no worker twice, and [agent_count] is its length;
    it is empty exactly when no non-deleted task has a worker.  The entry
    of a worker aggregates that worker's non-deleted rows (of which there
    is at least one), and the entries are in descending order of the
    worker's unrounded cost. *)
Theorem one_agent_entry_per_worker E p l s r s' :
  extract_metrics E p l s = (Ok r, s') ->
  exists conn tbl,
    fs E p = Some conn /\ Db.tasks_tbl conn = Some tbl /\
    let workers := non_null (map Db.worker_id (live tbl)) in
    NoDup (map Agent.worker_id (agents r)) /\
    (forall w, In w (map Agent.worker_id (agents r)) <-> In w workers) /\
    agent_count r = PyInt (Z.of_nat (List.length (agents r))) /\
    (agents r = [] <-> workers = []) /\
    (forall a, In a (agents r) ->
       worker_rows (Agent.worker_id a) tbl <> [] /\
       a = agent_of E (Agent.worker_id a) (worker_rows (Agent.worker_id a) tbl)) /\
    StronglySorted
      (fun a b => (cost_of E (worker_rows (Agent.worker_id b) tbl)
                   <= cost_of E (worker_rows (Agent.worker_id a) tbl))%Q)
      (agents r).
Proof.
  intros H. apply extract_metrics_inv in H. destruct H as (conn & Hfs & Hb & _).
  pose proof (extract_body_throughput _ _ _ _ _ Hb) as (_ & _ & _ & Hn).
  apply extract_body_inv in Hb. destruct Hb as (Htd & _ & _ & _ & _ & Hag & _).
  apply task_distribution_inv in Htd. destruct Htd as (tbl & Ht & _ & _).
  exists conn, tbl. split; [exact Hfs|]. split; [exact Ht|]. cbn zeta.
  rewrite (agent_stats_value E conn tbl Ht) in Hag. injection Hag as Hag.
  set (ws := non_null (map Db.worker_id (live tbl))) in *.
  set (key := fun w => cost_of E (worker_rows w tbl)) in *.
  assert (Hperm : Permutation (distinct ws) (order_by_desc key (distinct ws)))
    by apply order_by_desc_perm.
  assert (Hids : map Agent.worker_id (agents r) = order_by_desc key (distinct ws)).
  { rewrite <- Hag, map_map. cbn. apply map_id. }
  split.
  { rewrite Hids. eapply Permutation_NoDup; [exact Hperm|apply distinct_NoDup]. }
  split.
  { intros w. rewrite Hids. rewrite <- (distinct_In ws w). split; intros Hw.
    - eapply Permutation_in; [symmetry; exact Hperm|exact Hw].
    - eapply Permutation_in; [exact Hperm|exact Hw]. }
  split; [exact Hn|].
  split.
  { split; intros H0.
    - assert (Hl : order_by_desc key (distinct ws) = []) by (rewrite <- Hids, H0; reflexivity).
      rewrite Hl in Hperm. apply Permutation_sym, Permutation_nil in Hperm.
      destruct ws as [|w ws']; [reflexivity|]. cbn in Hperm. discriminate.
    - rewrite <- Hag, H0. reflexivity. }
  split.
  { intros a Ha. rewrite <- Hag in Ha. apply in_map_iff in Ha. destruct Ha as (w & <- & Hw).
    cbn [Agent.worker_id agent_of]. split; [|reflexivity].
    apply worker_rows_nonempty. apply distinct_In.
    eapply Permutation_in; [symmetry; exact Hperm|exact Hw]. }
  rewrite <- Hag. apply StronglySorted_map with (R := fun a b => (key b <= key a)%Q).
  - intros a b Hab. exact Hab.
  - apply order_by_desc_sorted.
Qed.

Lemma one_agent_entry_per_worker_witness :
  exists r,
    extract_metrics team_env "team.db" "team" []
    = (Ok r, [Connect "team.db"; Close "team.db"]) /\
    NoDup (map Agent.worker_id (agents r)) /\
    In "ann"%string (map Agent.worker_id (agents r)) /\
    agent_count r = PyInt 2.
Proof.
  eexists. split; [vm_compute; reflexivity|].
  match goal with
  | |- NoDup (map _ (agents ?r)) /\ _ =>
      destruct (one_agent_entry_per_worker team_env "team.db" "team" [] r
                  [Connect "team.db"; Close "team.db"] ltac:(vm_compute; reflexivity))
        as (conn & tbl & Hfs & Ht & Hnd & Hin & Hn & _)
  end.
  team_store Hfs Ht.
  split; [exact Hnd|]. split; [|exact Hn].
  apply Hin. eval_list. in_list.
Defined.

(** ** Agents: completed tasks are split among the workers *)

Lemma count_if_app {A} (c : A -> bool) l1 l2 :
  count_if c (l1 ++ l2) = count_if c l1 + count_if c l2.
Proof. unfold count_if. rewrite filter_app, length_app. lia. Qed.

(** The rows of key [k]. *)
Lemma sum_map_add {A} (g h : A -> Z) ks :
  fold_right Z.add 0 (map (fun k => g k + h k) ks)
  = fold_right Z.add 0 (map g ks) + fold_right Z.add 0 (map h ks).
Proof. induction ks as [|k ks IH]; cbn [map fold_right]; lia. Qed.

Lemma sum_indicator_once (w : string) (b : bool) ks :
  NoDup ks -> In w ks ->
  fold_right Z.add 0 (map (fun k => if String.eqb w k && b then 1 else 0) ks)
  = if b then 1 else 0.
Proof.
  induction 1 as [|k ks Hnk Hnd IH]; intros Hw; [destruct Hw|].
  cbn [map fold_right]. destruct (String.eqb_spec w k) as [->|Hne]; cbn [andb].
  - assert (H0 : fold_right Z.add 0
                   (map (fun k0 => if String.eqb k k0 && b then 1 else 0) ks) = 0).
    { clear IH Hw Hnd. induction ks as [|k0 ks IHk]; [reflexivity|].
      cbn [map fold_right].
      destruct (String.eqb_spec k k0) as [->|_]; [exfalso; apply Hnk; now left|].
      cbn [andb]. rewrite IHk; [reflexivity|]. intros Hin. apply Hnk. now right. }
    rewrite H0. lia.
  - destruct Hw as [->|Hw]; [congruence|]. rewrite (IH Hw). lia.
Qed.

Lemma sum_zero {A} (ks : list A) : fold_right Z.add 0 (map (fun _ => 0) ks) = 0.
Proof. induction ks as [|k ks IH]; cbn [map fold_right]; lia. Qed.

Lemma count_by_key (key : Db.task -> option string) (c : Db.task -> bool)
    (ks : list string) rows :
  NoDup ks ->
  (forall t w, In t rows -> key t = Some w -> In w ks) ->
  fold_right Z.add 0
    (map (fun k => count_if c (filter (fun t => match key t with
                                                 | Some x => String.eqb x k
                                                 | None => false
                                                 end) rows)) ks)
  = count_if (fun t => c t && negb (is_null (key t))) rows.
Proof.
  intros Hnd. induction rows as [|t rows IH]; intros Hin.
  - apply sum_zero.
  - assert (IH' := IH (fun t' w Ht' => Hin t' w (or_intror Ht'))). clear IH.
    rewrite count_if_cons, <- IH'.
    destruct (key t) as [w|] eqn:Ek.
    + assert (Hw : In w ks) by (apply (Hin t w); [now left|exact Ek]).
      cbn [is_null negb]. rewrite andb_true_r.
      rewrite <- (sum_indicator_once w (c t) ks Hnd Hw), <- sum_map_add.
      f_equal. apply map_ext. intros k. cbn [filter]. rewrite Ek.
      destruct (String.eqb w k); cbn [andb]; [|reflexivity].
      now rewrite count_if_cons.
    + cbn [is_null negb]. rewrite andb_false_r.
      replace (fold_right Z.add 0
                 (map (fun k => count_if c (filter (fun t0 => match key t0 with
                                                              | Some x => String.eqb x k
                                                              | None => false
                                                              end) (t :: rows))) ks))
        with (fold_right Z.add 0
                (map (fun k => count_if c (filter (fun t0 => match key t0 with
                                                             | Some x => String.eqb x k
                                                             | None => false
                                                             end) rows)) ks)).
      * lia.
      * f_equal. apply map_ext. intros k. cbn [filter]. now rewrite Ek.
Qed.

Lemma In_non_null {A} (x : A) l : In x (non_null l) <-> In (Some x) l.
Proof.
  induction l as [|[y|] l IH]; cbn [non_null In]; [tauto| |].
  - rewrite IH. split; intros [H|H]; auto; left; congruence.
  - rewrite IH. split; [auto|]. intros [H|H]; [discriminate|auto].
Qed.

Lemma fold_right_add_perm l1 l2 :
  Permutation l1 l2 -> fold_right Z.add 0 l1 = fold_right Z.add 0 l2.
Proof. induction 1; cbn; lia. Qed.

Lemma count_if_and_le {A} (c d : A -> bool) rows :
  count_if (fun t => c t && d t) rows <= count_if c rows.
Proof.
  induction rows as [|t rows IH]; [unfold count_if; cbn; lia|].
  rewrite !count_if_cons. destruct (c t), (d t); cbn [andb]; lia.
Qed.

Lemma count_if_and_all {A} (c d : A -> bool) rows :
  Forall (fun t => c t = true -> d t = true) rows ->
  count_if (fun t => c t && d t) rows = count_if c rows.
Proof.
  induction 1 as [|t rows Ht _ IH]; [reflexivity|].
  rewrite !count_if_cons, IH. destruct (c t); cbn [andb]; [|reflexivity].
  now rewrite (Ht eq_refl).
Qed.

(** X10.  The agents' completed counts add up to the number of completed
    non-deleted tasks that have a worker, and likewise for the failed
    counts: a task is counted for one agent at most, and a task without a
    worker for none.  So the sum never exceeds the snapshot's [completed],
    and equals it when every completed task has a worker. *)
Theorem completed_tasks_split_among_agents E p l s r s' :
  extract_metrics E p l s = (Ok r, s') ->
  exists conn tbl c,
    fs E p = Some conn /\ Db.tasks_tbl conn = Some tbl /\
    completed (tasks r) = PyInt c /\
    fold_right Z.add 0 (map (fun a => int_val (Agent.tasks_completed a)) (agents r))
    = count_if (fun t => has_status "completed" t && has_worker t) (live tbl) /\
    fold_right Z.add 0 (map (fun a => int_val (Agent.tasks_failed a)) (agents r))
    = count_if (fun t => has_status "failed" t && has_worker t) (live tbl) /\
    fold_right Z.add 0 (map (fun a => int_val (Agent.tasks_completed a)) (agents r)) <= c /\
    (Forall (fun t => has_status "completed" t = true -> has_worker t = true) (live tbl) ->
     fold_right Z.add 0 (map (fun a => int_val (Agent.tasks_completed a)) (agents r)) = c).
Proof.
  intros H.
  destruct (extract_metrics_distribution _ _ _ _ _ _ H) as (conn & tbl & Hfs & Ht & Hl & Htd).
  apply extract_metrics_inv in H. destruct H as (conn' & Hfs' & Hb & _).
  assert (conn' = conn) by congruence. subst conn'.
  apply extract_body_inv in Hb. destruct Hb as (_ & _ & _ & _ & _ & Hag & _).
  rewrite (agent_stats_value E conn tbl Ht) in Hag. injection Hag as Hag.
  exists conn, tbl, (count_if (has_status "completed") (live tbl)).
  split; [exact Hfs|]. split; [exact Ht|]. split; [rewrite Htd; reflexivity|].
  set (ws := distinct (non_null (map Db.worker_id (live tbl)))) in *.
  set (key := fun w => cost_of E (worker_rows w tbl)) in *.
  assert (Hsum : forall c,
    fold_right Z.add 0
      (map (fun w => count_if c (worker_rows w tbl)) (order_by_desc key ws))
    = count_if (fun t => c t && has_worker t) (live tbl)).
  { intros c.
    rewrite <- (fold_right_add_perm _ _
                  (Permutation_map (fun w => count_if c (worker_rows w tbl))
                     (order_by_desc_perm key ws))).
    unfold worker_rows. apply (count_by_key Db.worker_id c ws (live tbl)).
    - apply distinct_NoDup.
    - intros t w Hin Hw. apply distinct_In, In_non_null. rewrite <- Hw. now apply in_map. }
  assert (H1 : fold_right Z.add 0 (map (fun a => int_val (Agent.tasks_completed a)) (agents r))
               = count_if (fun t => has_status "completed" t && has_worker t) (live tbl)).
  { rewrite <- Hag, map_map. cbn [agent_of Agent.tasks_completed int_val]. apply Hsum. }
  assert (H2 : fold_right Z.add 0 (map (fun a => int_val (Agent.tasks_failed a)) (agents r))
               = count_if (fun t => has_status "failed" t && has_worker t) (live tbl)).
  { rewrite <- Hag, map_map. cbn [agent_of Agent.tasks_failed int_val]. apply Hsum. }
  split; [exact H1|]. split; [exact H2|]. rewrite H1. split.
  - apply count_if_and_le.
  - apply count_if_and_all.
Qed.

Lemma completed_tasks_split_among_agents_witness :
  match extract_metrics team_env "team.db" "team" [] with
  | (Ok r, _) =>
      fold_right Z.add 0 (map (fun a => int_val (Agent.tasks_completed a)) (agents r)) = 2 /\
      fold_right Z.add 0 (map (fun a => int_val (Agent.tasks_failed a)) (agents r)) = 1
  | _ => False
  end.
Proof.
  team_run r Ex.
  destruct (completed_tasks_split_among_agents _ _ _ _ _ _ Ex)
    as (conn & tbl & c & Hfs & Ht & _ & H1 & H2 & _).
  team_store Hfs Ht. rewrite H1, H2. split; reflexivity.
Defined.

(** ** Sequence table choice *)

Lemma get_sequence_table_cases conn :
  _get_sequence_table conn
  = if negb (is_null (Db.task_sequence_tbl conn)) then Some "task_sequence"%string
    else if negb (is_null (Db.task_state_sequence_tbl conn))
         then Some "task_state_sequence"%string
         else None.
Proof.
  unfold _get_sequence_table, _table_exists, table_names.
  destruct (Db.tasks_tbl conn), (Db.task_sequence_tbl conn),
    (Db.task_state_sequence_tbl conn); reflexivity.
Qed.

Lemma extract_body_with_state_sequence E conn t l p :
  Db.task_sequence_tbl conn <> None ->
  extract_body E (with_state_sequence conn t) l p = extract_body E conn l p.
Proof.
  intros Hs. unfold extract_body. rewrite !get_sequence_table_cases.
  cbn [with_state_sequence Db.task_sequence_tbl].
  destruct (Db.task_sequence_tbl conn) as [sq|] eqn:Es; [|congruence].
  cbn [is_null negb].
  assert (Htm : time_metrics E (with_state_sequence conn t) (Some "task_sequence"%string)
                = time_metrics E conn (Some "task_sequence"%string)).
  { unfold time_metrics, interval_times, status_column, select_intervals, from_seq, from_tasks.
    cbn [with_state_sequence Db.task_sequence_tbl Db.tasks_tbl String.eqb Ascii.eqb Bool.eqb].
    reflexivity. }
  assert (Hq : quality_metrics (with_state_sequence conn t) (Some "task_sequence"%string)
               = quality_metrics conn (Some "task_sequence"%string)).
  { unfold quality_metrics, status_column, select_intervals, from_seq.
    cbn [with_state_sequence Db.task_sequence_tbl String.eqb Ascii.eqb Bool.eqb].
    reflexivity. }
  rewrite Htm, Hq. reflexivity.
Qed.

(** X11.  [_get_sequence_table] prefers [task_sequence]: it answers
    [task_state_sequence] only when [task_sequence] is missing, and [None]
    when both are.  When [task_sequence] exists, the table
    [task_state_sequence] is never read: replacing it by any table, or
    removing it, changes neither the result nor the events of the
    extraction. *)
Theorem task_sequence_takes_precedence E p l s conn :
  fs E p = Some conn ->
  (_get_sequence_table conn
   = if negb (is_null (Db.task_sequence_tbl conn)) then Some "task_sequence"%string
     else if negb (is_null (Db.task_state_sequence_tbl conn))
          then Some "task_state_sequence"%string
          else None) /\
  (Db.task_sequence_tbl conn <> None ->
   forall t, extract_metrics (with_file E p (with_state_sequence conn t)) p l s
             = extract_metrics E p l s).
Proof.
  intros Hfs. split; [apply get_sequence_table_cases|].
  intros Hs t.
  assert (Hfs' : fs (with_file E p (with_state_sequence conn t)) p
                 = Some (with_state_sequence conn t)).
  { unfold with_file. cbn [fs]. now rewrite String.eqb_refl. }
  rewrite (extract_metrics_present _ _ _ _ _ Hfs'), (extract_metrics_present _ _ _ _ _ Hfs).
  rewrite extract_body_with_file, (extract_body_with_state_sequence E conn t l p Hs).
  reflexivity.
Qed.

Lemma task_sequence_takes_precedence_witness :
  extract_metrics (with_file team_env "team.db" (with_state_sequence store_team None))
                  "team.db" "team" []
  = extract_metrics team_env "team.db" "team" [].
Proof.
  exact (proj2 (task_sequence_takes_precedence team_env "team.db" "team" [] store_team
                  eq_refl)
               ltac:(discriminate) None).
Defined.

(** ** The clock *)

Lemma sum_durations_closed now1 now2 rows :
  all_closed rows -> sum_durations now1 rows = sum_durations now2 rows.
Proof.
  intros H. unfold sum_durations. do 2 f_equal.
  induction H as [|r rows Hr _ IH]; [reflexivity|]. cbn [map]. rewrite IH. f_equal.
  destruct (Db.timestamp r) as [t|]; [|reflexivity].
  destruct (Db.end_timestamp r) as [e|]; [reflexivity|].
  exfalso. now apply Hr.
Qed.

Lemma all_closed_filter f rows : all_closed rows -> all_closed (filter f rows).
Proof.
  unfold all_closed. rewrite !Forall_forall. intros H r Hr. apply filter_In in Hr.
  now apply H.
Qed.

Lemma select_intervals_closed conn seq col labels tbl rows :
  from_seq conn seq = Ok tbl -> all_closed (Db.seq_rows tbl) ->
  select_intervals conn seq col labels = Ok rows -> all_closed rows.
Proof.
  intros Hf Hc. unfold select_intervals. rewrite Hf. cbn [rbind].
  destruct (existsb _ _); [|discriminate]. intros [= <-].
  now apply all_closed_filter.
Qed.

Lemma interval_times_clock E n1 n2 conn seq tbl :
  from_seq conn seq = Ok tbl -> all_closed (Db.seq_rows tbl) ->
  interval_times (with_clock E n1 n2) conn (Some seq) = interval_times E conn (Some seq).
Proof.
  intros Hf Hc. unfold interval_times.
  destruct (status_column conn seq) as [col|]; [|reflexivity]. cbn [rbind].
  destruct (select_intervals conn seq col ["working"%string]) as [wrows|] eqn:Ew;
    [|reflexivity]. cbn [rbind].
  destruct (select_intervals conn seq col ["pending"%string; "assigned"%string])
    as [brows|] eqn:Eb; [|reflexivity]. cbn [rbind].
  cbn [with_clock now_working now_blocked].
  rewrite (sum_durations_closed n1 (now_working E) wrows)
    by exact (select_intervals_closed _ _ _ _ _ _ Hf Hc Ew).
  rewrite (sum_durations_closed n2 (now_blocked E) brows)
    by exact (select_intervals_closed _ _ _ _ _ _ Hf Hc Eb).
  reflexivity.
Qed.

Lemma extract_body_clock E n1 n2 conn l p :
  (forall seq tbl, _get_sequence_table conn = Some seq -> from_seq conn seq = Ok tbl ->
                   all_closed (Db.seq_rows tbl)) ->
  extract_body (with_clock E n1 n2) conn l p = extract_body E conn l p.
Proof.
  intros Hc. unfold extract_body.
  assert (Htm : time_metrics (with_clock E n1 n2) conn (_get_sequence_table conn)
                = time_metrics E conn (_get_sequence_table conn)).
  { unfold time_metrics.
    assert (Hi : interval_times (with_clock E n1 n2) conn (_get_sequence_table conn)
                 = interval_times E conn (_get_sequence_table conn)).
    { destruct (_get_sequence_table conn) as [seq|] eqn:Es; [|reflexivity].
      destruct (from_seq conn seq) as [tbl|e] eqn:Ef.
      - apply (interval_times_clock E n1 n2 conn seq tbl Ef). now apply (Hc seq).
      - unfold interval_times, status_column. rewrite Ef. reflexivity. }
    rewrite Hi. reflexivity. }
  rewrite Htm. reflexivity.
Qed.

(** X12.  The clock matters for open intervals only: when every row of
    the selected sequence table that has a start also has an end (and in
    particular when there is no sequence table), the extraction is the
    same at any time it is run. *)
Theorem closed_intervals_ignore_clock E n1 n2 p l s conn :
  fs E p = Some conn ->
  (forall seq tbl, _get_sequence_table conn = Some seq -> from_seq conn seq = Ok tbl ->
                   all_closed (Db.seq_rows tbl)) ->
  extract_metrics (with_clock E n1 n2) p l s = extract_metrics E p l s.
Proof.
  intros Hfs Hc.
  assert (Hfs' : fs (with_clock E n1 n2) p = Some conn) by exact Hfs.
  rewrite (extract_metrics_present _ _ _ _ _ Hfs'), (extract_metrics_present _ _ _ _ _ Hfs).
  now rewrite extract_body_clock.
Qed.

Lemma closed_intervals_ignore_clock_witness :
  extract_metrics (with_clock team_env 0 0) "team.db" "team" []
  = extract_metrics team_env "team.db" "team" [].
Proof.
  apply (closed_intervals_ignore_clock team_env 0 0 "team.db" "team" [] store_team eq_refl).
  intros seq tbl Hs Hf.
  vm_compute in Hs. injection Hs as <-.
  vm_compute in Hf. injection Hf as <-.
  unfold all_closed. cbn [Db.seq_rows].
  repeat constructor; intros _; discriminate.
Defined.

(** ** Order of the task-time fields *)

Lemma Sorted_nth_bounds s lo hi k :
  Forall (fun x => lo <= x <= hi) s -> (k < List.length s)%nat -> lo <= nth k s 0 <= hi.
Proof.
  intros H Hk. rewrite Forall_forall in H. apply H. now apply nth_In.
Qed.

Lemma non_null_positive_time rows :
  non_null (map positive_time rows)
  = filter (fun x => 0 <? x) (non_null (map Db.time_actual_ms rows)).
Proof.
  induction rows as [|t rows IH]; [reflexivity|]. cbn [map].
  unfold positive_time at 1. destruct (Db.time_actual_ms t) as [x|]; cbn [non_null filter];
    [|exact IH].
  destruct (0 <? x); cbn [non_null]; now rewrite IH.
Qed.

Lemma time_metrics_min_max E conn seq tm tbl :
  Db.tasks_tbl conn = Some tbl ->
  time_metrics E conn seq = Ok tm ->
  min_task_time_ms tm = py_or (cell_int (sql_min (map positive_time (live tbl)))) (PyInt 0) /\
  max_task_time_ms tm = py_or (cell_int (sql_max (map Db.time_actual_ms (live tbl)))) (PyInt 0).
Proof.
  intros Ht H. unfold time_metrics, from_tasks in H. rewrite Ht in H. cbn [rbind] in H.
  inv_bind H.
  match goal with
  | Hi : interval_times _ _ _ = Ok ?iv |- _ =>
      destruct iv as [[[w b] br] qw]; cbn beta iota in H; inversion H; subst; cbn
  end.
  split; reflexivity.
Qed.

Lemma median_value_between s lo hi :
  s <> [] -> Forall (fun x => lo <= x <= hi) s -> hi < 2 ^ 52 -> 0 < lo ->
  (inject_Z lo <= num_val (median_value s) <= inject_Z hi)%Q.
Proof.
  intros Hne Hall Hhi Hlo. unfold median_value. destruct s as [|x s']; [congruence|].
  set (s := x :: s') in *. set (n := List.length s).
  assert (Hn : (0 < n)%nat) by (unfold n, s; cbn; lia).
  destruct (Nat.even n) eqn:Ev; cbn [num_val].
  - assert (H2 : (2 <= n)%nat).
    { destruct n as [|[|n']]; [lia|discriminate|lia]. }
    assert (Hd : (1 <= n / 2 < n)%nat).
    { split; [apply Nat.div_le_lower_bound; lia|apply Nat.div_lt; lia]. }
    pose proof (Sorted_nth_bounds s lo hi (n / 2 - 1) Hall ltac:(fold n; lia)) as Ha.
    pose proof (Sorted_nth_bounds s lo hi (n / 2) Hall ltac:(fold n; lia)) as Hb.
    set (a := nth (n / 2 - 1) s 0) in *. set (b := nth (n / 2) s 0) in *.
    rewrite fl_half_exact by (change (2 ^ 53) with (2 * 2 ^ 52); lia).
    rewrite inject_Z_plus.
    assert (Ha1 : (inject_Z lo <= inject_Z a)%Q) by (rewrite <- Zle_Qle; lia).
    assert (Ha2 : (inject_Z a <= inject_Z hi)%Q) by (rewrite <- Zle_Qle; lia).
    assert (Hb1 : (inject_Z lo <= inject_Z b)%Q) by (rewrite <- Zle_Qle; lia).
    assert (Hb2 : (inject_Z b <= inject_Z hi)%Q) by (rewrite <- Zle_Qle; lia).
    change (inject_Z 2) with 2%Q.
    split.
    + apply Qle_shift_div_l; [reflexivity|]. lra.
    + apply Qle_shift_div_r; [reflexivity|]. lra.
  - assert (Hd : (n / 2 < n)%nat) by (apply Nat.div_lt; lia).
    pose proof (Sorted_nth_bounds s lo hi (n / 2) Hall ltac:(fold n; lia)) as Hb.
    split; rewrite <- Zle_Qle; lia.
Qed.

(** X13.  The task-time fields of a snapshot.  Without a strictly
    positive duration among the non-deleted tasks the minimum is 0, the
    median [0.0] and the maximum is not positive.  With one, the minimum
    and the maximum are the least and the greatest positive duration, so
    [0 < min <= max], and for durations below [2 ^ 52] the median lies
    between them. *)
Theorem task_time_fields_ordered E p l s r s' :
  extract_metrics E p l s = (Ok r, s') ->
  exists conn tbl,
    fs E p = Some conn /\ Db.tasks_tbl conn = Some tbl /\
    (positive_durations tbl = [] ->
       min_task_time_ms (time r) = PyInt 0 /\
       median_task_time_ms (time r) = PyFloat 0 /\
       exists hi, max_task_time_ms (time r) = PyInt hi /\ hi <= 0) /\
    (positive_durations tbl <> [] ->
       exists lo hi,
         min_task_time_ms (time r) = PyInt lo /\
         max_task_time_ms (time r) = PyInt hi /\
         In lo (positive_durations tbl) /\ In hi (positive_durations tbl) /\
         Forall (fun x => lo <= x <= hi) (positive_durations tbl) /\
         0 < lo <= hi /\
         (hi < 2 ^ 52 ->
          (inject_Z lo <= num_val (median_task_time_ms (time r)) <= inject_Z hi)%Q)).
Proof.
  intros H.
  destruct (extract_metrics_time _ _ _ _ _ _ H) as (conn & tbl & Hfs & Ht & Hl & Htm).
  exists conn, tbl. split; [exact Hfs|]. split; [exact Ht|].
  destruct (time_metrics_min_max _ _ _ _ _ Ht Htm) as (Hmin & Hmax).
  destruct (time_metrics_median _ _ _ _ Htm) as (tbl' & Ht' & Hmed).
  assert (tbl' = tbl) by congruence. subst tbl'.
  pose proof (sql_min_spec (map positive_time (live tbl))) as Smin.
  pose proof (sql_max_spec (map Db.time_actual_ms (live tbl))) as Smax.
  rewrite positive_time_durations in Smin.
  unfold positive_durations in *.
  set (times := non_null (map Db.time_actual_ms (live tbl))) in *.
  split.
  - intros Hnone. rewrite Hmin, Hmax, Hmed, Hnone.
    destruct (sql_min _) as [m|]; [destruct Smin as [Hin _]; rewrite Hnone in Hin; destruct Hin|].
    split; [reflexivity|]. split; [reflexivity|].
    destruct (sql_max _) as [m|]; cbn [cell_int].
    + destruct Smax as [Hin Hall].
      assert (Hm : m <= 0).
      { destruct (Z_le_gt_dec m 0) as [Hle|Hgt]; [exact Hle|exfalso].
        assert (Hp : In m (filter (fun x => 0 <? x) times)).
        { apply filter_In. split; [exact Hin|]. apply Z.ltb_lt. lia. }
        rewrite Hnone in Hp. destruct Hp. }
      unfold py_or, truthy. destruct (Z.eqb_spec m 0) as [->|Hne]; cbn [negb];
        eexists; split; try reflexivity; lia.
    + exists 0. split; [reflexivity|lia].
  - intros Hsome. rewrite Hmin, Hmax, Hmed.
    destruct (sql_min _) as [lo|]; [|congruence].
    destruct Smin as [Hlo_in Hlo_all].
    assert (Hlo_pos : 0 < lo) by (apply filter_In in Hlo_in; destruct Hlo_in as [_ Hp];
                                  now apply Z.ltb_lt in Hp).
    destruct (sql_max _) as [hi|].
    2:{ apply filter_In in Hlo_in. destruct Hlo_in as [Hin _]. rewrite Smax in Hin.
        destruct Hin. }
    destruct Smax as [Hhi_in Hhi_all].
    assert (Hlohi : lo <= hi).
    { rewrite Forall_forall in Hhi_all. apply Hhi_all.
      apply filter_In in Hlo_in. tauto. }
    assert (Hhi_pos : In hi (filter (fun x => 0 <? x) times)).
    { apply filter_In. split; [exact Hhi_in|]. apply Z.ltb_lt. lia. }
    assert (Hall : Forall (fun x => lo <= x <= hi) (filter (fun x => 0 <? x) times)).
    { rewrite Forall_forall in *. intros x Hx. split; [now apply Hlo_all|].
      apply Hhi_all. apply filter_In in Hx. tauto. }
    exists lo, hi. cbn [cell_int]. unfold py_or, truthy.
    destruct (Z.eqb_spec lo 0) as [->|_]; [lia|].
    destruct (Z.eqb_spec hi 0) as [->|_]; [lia|]. cbn [negb].
    repeat (split; [first [reflexivity|assumption|lia]|]).
    intros Hsmall. apply median_value_between; try assumption.
    + intros Hnil. apply Hsome.
      apply Permutation_nil. rewrite <- Hnil. symmetry. apply order_by_asc_perm.
    + rewrite Forall_forall in *. intros x Hx. apply Hall.
      eapply Permutation_in; [symmetry; apply order_by_asc_perm|exact Hx].
Qed.

Lemma task_time_fields_ordered_witness :
  exists r,
    extract_metrics team_env "team.db" "team" []
    = (Ok r, [Connect "team.db"; Close "team.db"]) /\
    min_task_time_ms (time r) = PyInt 30000 /\
    max_task_time_ms (time r) = PyInt 120000 /\
    (30000 <= num_val (median_task_time_ms (time r)) <= 120000)%Q.
Proof.
  eexists. split; [vm_compute; reflexivity|].
  match goal with
  | |- min_task_time_ms (time ?r) = _ /\ _ =>
      destruct (task_time_fields_ordered team_env "team.db" "team" [] r
                  [Connect "team.db"; Close "team.db"] ltac:(vm_compute; reflexivity))
        as (conn & tbl & Hfs & Ht & _ & H)
  end.
  team_store Hfs Ht.
  destruct H as (lo & hi & Hlo & Hhi & _ & _ & _ & _ & Hmed); [vm_compute; discriminate|].
  vm_compute in Hlo. injection Hlo as <-.
  vm_compute in Hhi. injection Hhi as <-.
  split; [reflexivity|]. split; [reflexivity|].
  apply Hmed. reflexivity.
Defined.

Example fmt_ms_samples :
  map _fmt_ms [PyNone; PyInt 0; PyInt 999; PyInt 1250; PyInt 1150; PyInt 59949;
               PyInt 119999; PyInt 3600000; PyInt 7260000; PyInt (-7200000);
               PyFloat (2469 # 2); PyFloat (-1 # 2)]
  = map Ok ["-"; "-"; "999ms"; "1.2s"; "1.1s"; "59.9s"; "1m 59s"; "1h 0m"; "2h 1m";
            "-7200000ms"; "1.2s"; "0ms"]%string.
Proof. vm_compute. reflexivity. Qed.

Lemma py_ne_int_0 z : py_ne (PyInt z) (PyInt 0) = negb (z =? 0).
Proof.
  unfold py_ne. cbn [num_val]. f_equal.
  destruct (Z.eqb_spec z 0) as [->|Hne]; [reflexivity|].
  destruct (Qeq_bool (inject_Z z) (inject_Z 0)) eqn:E; [|reflexivity].
  apply Qeq_bool_iff in E. unfold Qeq, inject_Z in E. cbn in E. lia.
Qed.

Lemma fmt_ms_int ms :
  _fmt_ms (PyInt ms)
  = if ms =? 0 then Ok "-"%string
    else if ms <? 1000 then Ok (str_int ms ++ "ms")%string
    else if ms <? 60000
         then Ok (format_1f (fl (inject_Z ms / inject_Z 1000)) ++ "s")%string
    else if ms <? 3600000
         then Ok (str_int (ms / 60000) ++ "m " ++ str_int (ms mod 60000 / 1000) ++ "s")%string
    else Ok (str_int (ms / 3600000) ++ "h " ++ str_int (ms mod 3600000 / 60000) ++ "m")%string.
Proof.
  unfold _fmt_ms. rewrite py_ne_int_0, negb_involutive.
  destruct (ms =? 0); [reflexivity|]. cbn [py_int rbind].
  destruct (Z.ltb_spec ms 1000) as [|Hlo]; [reflexivity|].
  destruct (Z.ltb_spec ms 60000) as [Hhi|]; [|reflexivity].
  unfold py_truediv. change (1000 =? 0) with false. cbn iota.
  rewrite overflows_quotient; [reflexivity|discriminate|].
  assert (Hb : 60000 <= 2 ^ 1000) by (vm_compute; discriminate).
  set (B := 2 ^ 1000) in *. lia.
Qed.

Lemma Qabs_nonneg_eq x : (0 <= x)%Q -> Qabs x = x.
Proof.
  destruct x as [n d]. unfold Qle, Qabs. cbn. intros H. f_equal. apply Z.abs_eq. lia.
Qed.

(** The tenths printed for a duration in the seconds range. *)
Lemma seconds_tenths ms :
  1000 <= ms < 60000 ->
  let k := rne (Qabs (fl (inject_Z ms / inject_Z 1000)) * inject_Z 10) in
  Z.abs (100 * k - ms) <= 50 /\ 10 <= k <= 600.
Proof.
  intros Hms. cbn zeta.
  set (q := (inject_Z ms / inject_Z 1000)%Q).
  change (inject_Z ms / inject_Z 1000)%Q with (inject_Z ms * (1 # 1000))%Q in q.
  assert (H1 : (inject_Z 1000 <= inject_Z ms)%Q) by (rewrite <- Zle_Qle; lia).
  assert (H2 : (inject_Z ms <= inject_Z 60000)%Q) by (rewrite <- Zle_Qle; lia).
  change (inject_Z 1000) with 1000%Q in H1. change (inject_Z 60000) with 60000%Q in H2.
  assert (Hq1 : (1 <= q)%Q) by (unfold q; lra).
  assert (Hq2 : (q <= 60)%Q) by (unfold q; lra).
  pose proof (fl_err q) as He. rewrite (Qabs_pos q) in He by lra.
  apply Qabs_Qle_condition in He. destruct He as [He1 He2].
  assert (T1 : (q * (1 # 2 ^ 53) <= 60 * (1 # 2 ^ 53))%Q).
  { apply Qmult_le_compat_r; [exact Hq2|vm_compute; discriminate]. }
  assert (T2 : (60 * (1 # 2 ^ 53) + (1 # 2 ^ 1075) <= 1 # 10000)%Q)
    by (vm_compute; discriminate).
  assert (Hx : (0 <= fl q)%Q) by lra.
  rewrite (Qabs_nonneg_eq (fl q) Hx).
  pose proof (rne_err (fl q * inject_Z 10)) as Hr.
  set (k := rne (fl q * inject_Z 10)) in *.
  change (inject_Z 10) with 10%Q in Hr.
  apply Qabs_Qle_condition in Hr. destruct Hr as [Hr1 Hr2].
  assert (B1 : (inject_Z (100 * k - ms) <= inject_Z 50 + (1 # 2))%Q).
  { unfold Z.sub. rewrite inject_Z_plus, inject_Z_opp, inject_Z_mult. change (inject_Z 100) with 100%Q.
    change (inject_Z 50) with 50%Q. unfold q in *. lra. }
  assert (B2 : (- (inject_Z 50 + (1 # 2)) <= inject_Z (100 * k - ms))%Q).
  { unfold Z.sub. rewrite inject_Z_plus, inject_Z_opp, inject_Z_mult. change (inject_Z 100) with 100%Q.
    change (inject_Z 50) with 50%Q. unfold q in *. lra. }
  assert (B1' : 100 * k - ms <= 50).
  { destruct (Z_le_gt_dec (100 * k - ms) 50) as [H|H]; [exact H|exfalso].
    assert (H' : (inject_Z 51 <= inject_Z (100 * k - ms))%Q) by (rewrite <- Zle_Qle; lia).
    change (inject_Z 51) with 51%Q in H'. change (inject_Z 50) with 50%Q in B1. lra. }
  assert (B2' : -50 <= 100 * k - ms).
  { destruct (Z_le_gt_dec (-50) (100 * k - ms)) as [H|H]; [exact H|exfalso].
    assert (H' : (inject_Z (100 * k - ms) <= inject_Z (-51))%Q) by (rewrite <- Zle_Qle; lia).
    change (inject_Z (-51)) with (-51)%Q in H'. change (inject_Z 50) with 50%Q in B2. lra. }
  split; lia.
Qed.

Lemma string_length_append (a b : string) :
  String.length (a ++ b) = (String.length a + String.length b)%nat.
Proof. induction a as [|c a IH]; cbn; [reflexivity|]. now rewrite IH. Qed.

Lemma string_append_assoc (a b c : string) : ((a ++ b) ++ c = a ++ (b ++ c))%string.
Proof. induction a as [|x a IH]; cbn; [reflexivity|]. now rewrite IH. Qed.

(** X14.  [_fmt_ms] on an integer number of milliseconds: ["-"] for 0; the
    raw number with the unit [ms] below 1000, which includes every
    negative duration (a negative delta is never converted to seconds,
    minutes or hours); below one minute the seconds with one decimal,
    rounded to the nearest tenth, so that 59950 to 59999 print as
    ["60.0s"]; below one hour whole minutes and whole seconds, and from
    one hour on whole hours and whole minutes, both truncated. *)
Theorem fmt_ms_units ms :
  (ms = 0 -> _fmt_ms (PyInt ms) = Ok "-"%string) /\
  (ms < 1000 -> ms <> 0 -> _fmt_ms (PyInt ms) = Ok (str_int ms ++ "ms")%string) /\
  (1000 <= ms < 60000 ->
     exists k, _fmt_ms (PyInt ms)
               = Ok (str_int (k / 10) ++ "." ++ str_int (k mod 10) ++ "s")%string /\
               10 <= k <= 600 /\ Z.abs (100 * k - ms) <= 50) /\
  (59950 <= ms < 60000 -> _fmt_ms (PyInt ms) = Ok "60.0s"%string) /\
  (60000 <= ms < 3600000 ->
     exists m s, _fmt_ms (PyInt ms) = Ok (str_int m ++ "m " ++ str_int s ++ "s")%string /\
                 1 <= m <= 59 /\ 0 <= s <= 59 /\
                 m * 60000 + s * 1000 <= ms < m * 60000 + (s + 1) * 1000) /\
  (3600000 <= ms ->
     exists h m, _fmt_ms (PyInt ms) = Ok (str_int h ++ "h " ++ str_int m ++ "m")%string /\
                 1 <= h /\ 0 <= m <= 59 /\
                 h * 3600000 + m * 60000 <= ms < h * 3600000 + (m + 1) * 60000).
Proof.
  rewrite fmt_ms_int.
  assert (Hsec : 1000 <= ms < 60000 ->
     exists k, Ok (format_1f (fl (inject_Z ms / inject_Z 1000)) ++ "s")%string
               = Ok (str_int (k / 10) ++ "." ++ str_int (k mod 10) ++ "s")%string /\
               10 <= k <= 600 /\ Z.abs (100 * k - ms) <= 50).
  { intros Hms. destruct (seconds_tenths ms Hms) as [Hk1 Hk2].
    set (k := rne _) in *. exists k. split; [|split; assumption].
    unfold format_1f. fold k.
    assert (Hpos : Qle_bool 0 (fl (inject_Z ms / inject_Z 1000)) = true).
    { apply Qle_bool_iff.
      destruct (Qlt_le_dec (fl (inject_Z ms / inject_Z 1000)) 0) as [Hn|Hp]; [|exact Hp].
      exfalso.
      assert (Hk0 : k = rne (Qabs (fl (inject_Z ms / inject_Z 1000)) * inject_Z 10)) by reflexivity.
      pose proof (hours_of_pos 1 ltac:(lia)) as _.
      pose proof (fl_pos_half (inject_Z ms / inject_Z 1000)) as Hh.
      change (inject_Z ms / inject_Z 1000)%Q with (inject_Z ms * (1 # 1000))%Q in *.
      assert (H1 : (inject_Z 1000 <= inject_Z ms)%Q) by (rewrite <- Zle_Qle; lia).
      change (inject_Z 1000) with 1000%Q in H1.
      assert (H3 : (1 # 2 ^ 1000 <= inject_Z ms * (1 # 1000))%Q).
      { apply Qle_trans with 1%Q; [vm_compute; discriminate|lra]. }
      specialize (Hh H3). lra. }
    rewrite Hpos. cbn [append]. rewrite string_append_assoc. reflexivity. }
  split; [intros ->; reflexivity|].
  split.
  { intros Hlt Hne. destruct (Z.eqb_spec ms 0); [contradiction|].
    destruct (Z.ltb_spec ms 1000); [reflexivity|lia]. }
  split.
  { intros Hms. destruct (Z.eqb_spec ms 0); [lia|].
    destruct (Z.ltb_spec ms 1000); [lia|]. destruct (Z.ltb_spec ms 60000); [|lia].
    now apply Hsec. }
  split.
  { intros Hms. destruct (Z.eqb_spec ms 0); [lia|].
    destruct (Z.ltb_spec ms 1000); [lia|]. destruct (Z.ltb_spec ms 60000); [|lia].
    destruct (Z.eq_dec ms 59950) as [->|Hne]; [vm_compute; reflexivity|].
    destruct (Hsec ltac:(lia)) as (k & -> & Hk & Hd).
    assert (k = 600) by lia. subst k. reflexivity. }
  split.
  { intros Hms. destruct (Z.eqb_spec ms 0); [lia|].
    destruct (Z.ltb_spec ms 1000); [lia|]. destruct (Z.ltb_spec ms 60000); [lia|].
    destruct (Z.ltb_spec ms 3600000); [|lia].
    exists (ms / 60000), (ms mod 60000 / 1000). split; [reflexivity|].
    pose proof (Z.div_mod ms 60000 ltac:(lia)) as E1.
    pose proof (Z.mod_pos_bound ms 60000 ltac:(lia)) as B1.
    pose proof (Z.div_mod (ms mod 60000) 1000 ltac:(lia)) as E2.
    pose proof (Z.mod_pos_bound (ms mod 60000) 1000 ltac:(lia)) as B2.
    assert (1 <= ms / 60000 <= 59).
    { split; [apply Z.div_le_lower_bound; lia|].
      apply Z.lt_succ_r. apply Z.div_lt_upper_bound; lia. }
    assert (0 <= ms mod 60000 / 1000 <= 59).
    { split; [apply Z.div_pos; lia|].
      apply Z.lt_succ_r. apply Z.div_lt_upper_bound; lia. }
    lia. }
  intros Hms. destruct (Z.eqb_spec ms 0); [lia|].
  destruct (Z.ltb_spec ms 1000); [lia|]. destruct (Z.ltb_spec ms 60000); [lia|].
  destruct (Z.ltb_spec ms 3600000); [lia|].
  exists (ms / 3600000), (ms mod 3600000 / 60000). split; [reflexivity|].
  pose proof (Z.div_mod ms 3600000 ltac:(lia)) as E1.
  pose proof (Z.mod_pos_bound ms 3600000 ltac:(lia)) as B1.
  pose proof (Z.div_mod (ms mod 3600000) 60000 ltac:(lia)) as E2.
  pose proof (Z.mod_pos_bound (ms mod 3600000) 60000 ltac:(lia)) as B2.
  assert (1 <= ms / 3600000) by (apply Z.div_le_lower_bound; lia).
  assert (0 <= ms mod 3600000 / 60000 <= 59).
  { split; [apply Z.div_pos; lia|].
    apply Z.lt_succ_r. apply Z.div_lt_upper_bound; lia. }
  lia.
Qed.

(** ** None, zero and floats *)

(** X15.  [_fmt_ms] never raises on [None] or on an [int], and it answers
    ["-"] exactly for [None] and for zero.  A float that is zero prints
    ["-"] too; any other finite float is truncated toward zero by
    [int(ms)] and printed as that integer is, except that a float strictly
    between -1 and 1 prints ["0ms"], not ["-"]. *)
Theorem fmt_ms_total :
  _fmt_ms PyNone = Ok "-"%string /\
  (forall ms, exists text,
     _fmt_ms (PyInt ms) = Ok text /\ (text = "-"%string <-> ms = 0)) /\
  (forall x, (x == 0)%Q -> _fmt_ms (PyFloat x) = Ok "-"%string) /\
  (forall x, ~ (x == 0)%Q ->
     let t := Z.quot (Qnum x) (Zpos (Qden x)) in
     _fmt_ms (PyFloat x) = if t =? 0 then Ok "0ms"%string else _fmt_ms (PyInt t)).
Proof.
  split; [reflexivity|]. split; [|split].
  - intros ms. rewrite fmt_ms_int. destruct (Z.eqb_spec ms 0) as [->|Hne].
    + exists "-"%string. split; [reflexivity|]. split; reflexivity.
    + assert (Hd : forall text : string, (2 <= String.length text)%nat ->
                                         (text = "-"%string <-> ms = 0)).
      { intros text Hl. split; [|contradiction].
        intros ->. cbn in Hl. lia. }
      destruct (ms <? 1000); [|destruct (ms <? 60000); [|destruct (ms <? 3600000)]];
        eexists; (split; [reflexivity|]); apply Hd;
        unfold format_1f; rewrite ?string_length_append; cbn; lia.
  - intros x Hx. unfold _fmt_ms, py_ne. cbn [num_val]. change (inject_Z 0) with 0%Q.
    apply Qeq_bool_iff in Hx. now rewrite Hx.
  - intros x Hx. cbn zeta. unfold _fmt_ms at 1. unfold py_ne. cbn [num_val py_int rbind].
    change (inject_Z 0) with 0%Q. rewrite (Qeq_bool_false x Hx). cbn [negb].
    destruct (Z.eqb_spec (Z.quot (Qnum x) (Zpos (Qden x))) 0) as [->|Hne]; [reflexivity|].
    unfold _fmt_ms. rewrite py_ne_int_0, negb_involutive.
    destruct (Z.eqb_spec (Z.quot (Qnum x) (Zpos (Qden x))) 0); [contradiction|].
    reflexivity.
Qed.

Lemma split_comma_length s : List.length (split_comma s) = S (commas s).
Proof.
  induction s as [|c r IH]; [reflexivity|]. cbn [split_comma commas].
  destruct (Ascii.eqb c ","); cbn [List.length]; [now rewrite IH|].
  destruct (split_comma r); cbn in *; lia.
Qed.

Lemma default_labels_acc P dbs used labels :
  default_labels P dbs used labels = labels ++ default_labels P dbs used [].
Proof.
  revert used labels. induction dbs as [|db rest IH]; intros used labels; cbn [default_labels].
  - now rewrite app_nil_r.
  - rewrite (IH _ (labels ++ _)), (IH _ ([] ++ _)), <- app_assoc. reflexivity.
Qed.

Lemma default_labels_cons P db rest used :
  default_labels P (db :: rest) used []
  = let l := if existsb (String.eqb (stem P db)) used
             then (parent_name P db ++ "/" ++ stem P db)%string else stem P db in
    l :: default_labels P rest (l :: used) [].
Proof. cbn [default_labels]. cbn zeta. now rewrite default_labels_acc. Qed.

Lemma default_labels_length P dbs used :
  List.length (default_labels P dbs used []) = List.length dbs.
Proof.
  revert used. induction dbs as [|db rest IH]; intros used; [reflexivity|].
  rewrite default_labels_cons. cbn zeta. cbn [List.length]. now rewrite IH.
Qed.

Lemma existsb_eqb_In x l : existsb (String.eqb x) l = true <-> In x l.
Proof.
  rewrite existsb_exists. split.
  - intros (y & Hy & E). apply String.eqb_eq in E. now subst.
  - intros H. exists x. split; [exact H|apply String.eqb_refl].
Qed.

Lemma existsb_eqb_not_In x l : existsb (String.eqb x) l = false <-> ~ In x l.
Proof.
  rewrite <- existsb_eqb_In. destruct (existsb _ _); split; congruence.
Qed.

(** With distinct stems, none of which is in use, the labels are the stems. *)
Lemma default_labels_distinct_stems P dbs used :
  NoDup (map (stem P) dbs) ->
  (forall db, In db dbs -> ~ In (stem P db) used) ->
  default_labels P dbs used [] = map (stem P) dbs.
Proof.
  revert used. induction dbs as [|db rest IH]; intros used Hnd Hused; [reflexivity|].
  rewrite default_labels_cons. cbn zeta.
  assert (H0 : existsb (String.eqb (stem P db)) used = false).
  { apply existsb_eqb_not_In. apply Hused. now left. }
  rewrite H0. cbn [map]. f_equal. inversion Hnd as [|? ? Hn Hnd']; subst.
  apply IH; [exact Hnd'|].
  intros db' Hin [Heq|Hin']; [|exact (Hused db' (or_intror Hin) Hin')].
  apply Hn. rewrite Heq. now apply in_map.
Qed.

Lemma prefixed_differs a b : (a ++ "/" ++ b)%string <> b.
Proof.
  intros H. apply (f_equal String.length) in H.
  rewrite !string_length_append in H. cbn in H. lia.
Qed.

Lemma combine_fst {A B} (l : list A) (l' : list B) :
  List.length l = List.length l' -> map fst (combine l l') = l.
Proof.
  revert l'. induction l as [|a l IH]; intros [|b l'] H; cbn in *; try lia; [reflexivity|].
  f_equal. apply IH. lia.
Qed.

(** X16.  Label resolution either yields one label per database, without
    writing anything, so that the extraction loop's [zip] drops no
    database; or it ends in [SystemExit(1)], which happens only for
    explicit labels whose number (the number of commas plus one) differs
    from the number of databases, after one error line that names both
    numbers. *)
Theorem labels_match_databases P args_labels databases s :
  match resolve_labels P args_labels databases s with
  | (Ok labels, s') =>
      s' = s /\ List.length labels = List.length databases /\
      map fst (combine databases labels) = databases
  | (Raise e, s') =>
      e = SystemExit 1 /\
      exists text k,
        args_labels = Some text /\ text <> EmptyString /\
        k = S (commas text) /\ k <> List.length databases /\
        s' = s ++ [Stderr ("Error: " ++ str_int (Z.of_nat k) ++ " labels provided but "
                           ++ str_int (Z.of_nat (List.length databases))
                           ++ " databases given.")]
  end.
Proof.
  unfold resolve_labels.
  destruct args_labels as [[|c r]|].
  - cbn. rewrite default_labels_length. split; [reflexivity|]. split; [reflexivity|].
    apply combine_fst. now rewrite default_labels_length.
  - remember (String c r) as text eqn:Etext.
    assert (Hlen : List.length (map (strip P) (split_comma text)) = S (commas text))
      by (rewrite length_map; apply split_comma_length).
    rewrite Hlen.
    destruct (Nat.eqb_spec (S (commas text)) (List.length databases)) as [Heq|Hne];
      cbn [negb].
    + cbn. split; [reflexivity|]. split; [now rewrite Hlen|].
      apply combine_fst. now rewrite Hlen.
    + cbn. split; [reflexivity|]. exists text, (S (commas text)).
      repeat split; try assumption. rewrite Etext. discriminate.
  - cbn. rewrite default_labels_length. split; [reflexivity|]. split; [reflexivity|].
    apply combine_fst. now rewrite default_labels_length.
Qed.

(** X17.  When the number of labels given with [--labels] differs from the
    number of databases, [main] ends in [SystemExit(1)] after the error
    line, before any database is opened. *)
Theorem label_mismatch_opens_nothing P E text databases s :
  text <> EmptyString -> S (commas text) <> List.length databases ->
  main_from_args P E (Some text) databases s
  = (Raise (SystemExit 1),
     s ++ [Stderr ("Error: " ++ str_int (Z.of_nat (S (commas text)))
                   ++ " labels provided but "
                   ++ str_int (Z.of_nat (List.length databases))
                   ++ " databases given.")]).
Proof.
  intros Ht Hne. unfold main_from_args, bind, resolve_labels.
  destruct text as [|c r]; [congruence|].
  remember (String c r) as text eqn:Etext.
  rewrite length_map, split_comma_length.
  destruct (Nat.eqb_spec (S (commas text)) (List.length databases)) as [Heq|_];
    [contradiction|].
  reflexivity.
Qed.

Lemma label_mismatch_opens_nothing_witness :
  main_from_args sample_paths team_env (Some "a,b,c"%string)
                 ["team.db"; "team.db"]%string []
  = (Raise (SystemExit 1),
     [Stderr "Error: 3 labels provided but 2 databases given."]).
Proof.
  exact (label_mismatch_opens_nothing sample_paths team_env "a,b,c"
           ["team.db"; "team.db"]%string [] ltac:(discriminate) ltac:(cbn; lia)).
Defined.

(** X18.  The default labels: one per database, each the stem of its
    path or [parent/stem]; the first is always the plain stem; when the
    stems are pairwise distinct the labels are the stems; for two
    databases the two labels always differ; for three they need not: three
    paths with one stem, the last two in directories of the same name, get
    the same label twice. *)
Theorem default_labels_shape P databases :
  let labels := default_labels P databases [] [] in
  List.length labels = List.length databases /\
  Forall2 (fun db lab => lab = stem P db \/
                         lab = (parent_name P db ++ "/" ++ stem P db)%string)
          databases labels /\
  (NoDup (map (stem P) databases) -> labels = map (stem P) databases) /\
  (forall a b, databases = [a; b] -> NoDup labels) /\
  (forall a b c, databases = [a; b; c] ->
     stem P a = stem P b -> stem P b = stem P c -> parent_name P b = parent_name P c ->
     ~ NoDup labels) /\
  (forall a, hd_error databases = Some a -> hd_error labels = Some (stem P a)).
Proof.
  cbn zeta. split; [apply default_labels_length|]. split.
  { assert (H : forall used,
      Forall2 (fun db lab => lab = stem P db \/
                             lab = (parent_name P db ++ "/" ++ stem P db)%string)
              databases (default_labels P databases used [])).
    { induction databases as [|db rest IH]; intros used.
      - constructor.
      - rewrite default_labels_cons. cbn zeta. constructor; [|apply IH].
        destruct (existsb _ _); auto. }
    apply H. }
  split.
  { intros Hnd. apply default_labels_distinct_stems; [exact Hnd|]. intros db _ []. }
  split.
  { intros a b ->. rewrite default_labels_cons. cbn zeta. cbn [existsb].
    rewrite default_labels_cons. cbn zeta. cbn [existsb default_labels].
    rewrite orb_false_r.
    constructor; [|constructor; [intros []|constructor]].
    intros [H|[]].
    destruct (String.eqb_spec (stem P b) (stem P a)) as [E|E].
    - rewrite E in H. now apply prefixed_differs in H.
    - congruence. }
  split.
  { intros a b c -> Hab Hbc Hp. rewrite !default_labels_cons. cbn zeta.
    cbn [existsb default_labels]. rewrite <- Hbc, <- Hab, <- Hp, String.eqb_refl.
    rewrite orb_true_r. cbn [orb].
    intros Hnd. inversion Hnd as [|? ? _ Hnd']; subst.
    inversion Hnd' as [|? ? Hn _]; subst. apply Hn. now left. }
  intros a Ha. destruct databases as [|db rest]; [discriminate|].
  injection Ha as ->. rewrite default_labels_cons. reflexivity.
Qed.

Lemma extract_all_log E runs acc s rs s' :
  extract_all E runs acc s = (Ok rs, s') ->
  exists out,
    rs = acc ++ out /\
    map db_path out = map fst runs /\ map label out = map snd runs /\
    s' = s ++ sequential_log runs.
Proof.
  revert acc s. induction runs as [|[p l] runs IH]; intros acc s; cbn [extract_all].
  - intros H. inversion H; subst. exists []. now rewrite !app_nil_r.
  - unfold bind. destruct (extract_metrics E p l s) as [[r|e] s1] eqn:Ex; [|discriminate].
    intros H. apply IH in H. destruct H as (out & -> & Hp & Hl & ->).
    apply extract_metrics_inv in Ex. destruct Ex as (conn & _ & Hb & ->).
    apply extract_body_inv in Hb.
    destruct Hb as (_ & _ & _ & _ & _ & _ & Hlab & Hpath).
    exists (r :: out). cbn [map fst snd sequential_log flat_map app].
    rewrite Hp, Hl, Hlab, Hpath, <- !app_assoc. auto.
Qed.

(** X19.  When the extraction loop of [main] gets through, the snapshots
    are in the order of the runs, each with the path and the label of its
    run, and the connections were opened and closed one after the other,
    never two at a time; with as many labels as databases every database
    has its snapshot. *)
Theorem main_snapshots_in_order E databases labels s out s' :
  main E databases labels s = (Ok out, s') ->
  let runs := combine databases labels in
  map db_path out = map fst runs /\
  map label out = map snd runs /\
  s' = s ++ sequential_log runs /\
  (List.length labels = List.length databases ->
   map db_path out = databases /\ map label out = labels).
Proof.
  intros H. cbn zeta. unfold main in H. apply extract_all_log in H.
  destruct H as (out' & E0 & Hp & Hl & Hs). cbn [app] in E0. subst out'.
  split; [exact Hp|]. split; [exact Hl|]. split; [exact Hs|].
  intros Hlen. rewrite Hp, Hl. split.
  - apply combine_fst. auto.
  - clear -Hlen. revert labels Hlen.
    induction databases as [|d ds IH]; intros [|lb ls] Hlen; cbn in *; try lia; [reflexivity|].
    f_equal. apply IH. lia.
Qed.

Lemma main_snapshots_in_order_witness :
  exists out,
    main team_env ["team.db"; "team.db"]%string ["a"; "b"]%string []
    = (Ok out, [Connect "team.db"; Close "team.db"; Connect "team.db"; Close "team.db"]) /\
    map label out = ["a"; "b"]%string /\
    map db_path out = ["team.db"; "team.db"]%string.
Proof.
  eexists. split; [vm_compute; reflexivity|].
  match goal with
  | |- map label ?out = _ /\ _ =>
      destruct (main_snapshots_in_order team_env ["team.db"; "team.db"]%string
                  ["a"; "b"]%string [] out
                  [Connect "team.db"; Close "team.db"; Connect "team.db"; Close "team.db"]
                  ltac:(vm_compute; reflexivity))
        as (_ & _ & _ & H)
  end.
  destruct (H eq_refl) as [Hp Hl]. split; assumption.
Defined.
